(** * Order / payment lifecycle of the storefront

    A shallow embedding of the cart validator (routes/cart.js), the Stripe
    webhook reconciler (routes/webhook.js) and the order routes
    (routes/orders.js), with the Mongo collections as finite maps keyed by
    document id and every handler as a function from the database to a
    response and the database it leaves.

    Stock counts and quantities are integers ([Z]).  The amounts of money
    are JavaScript numbers.  [POST /cart/validate] is written over the
    operations its arithmetic uses ([CartAmounts.validate]) and read in
    binary64, the numbers of the program ([Doubles.binary64]); the
    figures of a validated cart are stated there.  The documents of
    the database carry their amounts as rationals ([Q]), which is what the
    look-ups, the stock accounting and the status transitions need of
    them; [Cart.validate] is the same route read in the rationals
    ([Rationals.exact]), and the checkout route is built on it.

    The clock ([new Date()]) is an argument of the handlers that read it.

    The Mongoose models (models/Order.js, models/Product.js) are not among
    the sources: [save] writes the document back under its id, and does
    nothing else. *)

From Stdlib Require Import ZArith QArith Qround Lia PrimFloat.
From stdpp Require Import gmap strings list fin_maps.

#[global] Set Warnings "-inexact-float".

Local Open Scope Z_scope.

(** ** Money in the rationals: [Math.round(x * 100) / 100] *)

Module Money.

(** [Math.round] on a rational: the nearest integer, ties towards
    +infinity. *)
Definition Math_round (x : Q) : Z := Qfloor (x + (1 # 2))%Q.

(** [Math.round(x * 100) / 100] *)
Definition round2 (x : Q) : Q := (inject_Z (Math_round (x * 100)) / 100)%Q.

(** A whole number of cents. *)
Definition cents (c : Z) : Q := (inject_Z c / 100)%Q.

Definition wholeCents (x : Q) : Prop := exists c : Z, (x == cents c)%Q.

End Money.

(** ** Catalog: products with stock-bearing variants *)

Module Catalog.

Record Variant := mkVariant {
  v_size : string;
  v_design : string;
  v_stock : Z
}.

Record Image := mkImage {
  img_url : string;
  img_isPrimary : bool
}.

Record Product := mkProduct {
  p_title : string;
  p_price : Q;
  p_active : bool;
  p_images : list Image;
  p_variants : list Variant
}.

(** The [{size, design}] sub-document of a cart line or an order item. *)
Record VariantRef := mkVariantRef {
  r_size : string;
  r_design : string
}.

#[global] Instance VariantRef_eq_dec : EqDecision VariantRef.
Proof. solve_decision. Defined.

(** [v => v.size === ref.size && v.design === ref.design] *)
Definition variantIs (r : VariantRef) (v : Variant) : Prop :=
  v_size v = r_size r /\ v_design v = r_design r.

#[global] Instance variantIs_dec r v : Decision (variantIs r v).
Proof. unfold variantIs. apply _. Defined.

(** [product.variants.find(...)]: the first match, with its position so
    that an assignment to the found element can be written back. *)
Definition findVariant (r : VariantRef) (vs : list Variant) : option (nat * Variant) :=
  list_find (variantIs r) vs.

Definition setStock (v : Variant) (s : Z) : Variant :=
  {| v_size := v_size v; v_design := v_design v; v_stock := s |}.

Definition setVariants (p : Product) (vs : list Variant) : Product :=
  {| p_title := p_title p; p_price := p_price p; p_active := p_active p;
     p_images := p_images p; p_variants := vs |}.

(** Stock of the variant a reference resolves to in the product
    collection, when the product and the variant exist. *)
Definition stockOf (ps : gmap string Product) (pid : string) (r : VariantRef) : option Z :=
  match ps !! pid with
  | Some p => (fun iv => v_stock (snd iv)) <$> findVariant r (p_variants p)
  | None => None
  end.

(** Every stored stock count is non-negative. *)
Definition stockNonneg (ps : gmap string Product) : Prop :=
  map_Forall (fun _ p => Forall (fun v => 0 <= v_stock v) (p_variants p)) ps.

End Catalog.

(** ** Orders *)

Module Orders.
Import Catalog.

Inductive OrderStatus :=
  pending | confirmed | processing | shipped | delivered | cancelled.

Inductive PaymentStatus := pay_pending | pay_paid | pay_failed.

#[global] Instance OrderStatus_eq_dec : EqDecision OrderStatus.
Proof. solve_decision. Defined.

#[global] Instance PaymentStatus_eq_dec : EqDecision PaymentStatus.
Proof. solve_decision. Defined.

Record PaymentInfo := mkPaymentInfo {
  pay_status : PaymentStatus;
  pay_amount : Q;
  stripeSessionId : string;
  stripePaymentIntentId : option string;
  paidAt : option Z
}.

Record OrderItem := mkOrderItem {
  oi_product : string;
  oi_title : string;
  oi_price : Q;
  oi_quantity : Z;
  oi_variant : VariantRef;
  oi_image : option string
}.

Record HistoryEntry := mkHistoryEntry {
  h_status : OrderStatus;
  h_date : Z;
  h_note : option string
}.

Record Order := mkOrder {
  o_user : string;
  o_orderNumber : string;
  o_items : list OrderItem;
  o_subtotal : Q;
  o_tax : Q;
  o_shipping : Q;
  o_total : Q;
  o_shippingInfo : list (string * string);
  o_paymentInfo : PaymentInfo;
  o_status : OrderStatus;
  o_trackingNumber : option string;
  o_notes : option string;
  o_statusHistory : list HistoryEntry
}.

Definition setPaymentInfo (o : Order) (pi : PaymentInfo) : Order :=
  {| o_user := o_user o; o_orderNumber := o_orderNumber o; o_items := o_items o;
     o_subtotal := o_subtotal o; o_tax := o_tax o; o_shipping := o_shipping o;
     o_total := o_total o; o_shippingInfo := o_shippingInfo o;
     o_paymentInfo := pi; o_status := o_status o;
     o_trackingNumber := o_trackingNumber o; o_notes := o_notes o;
     o_statusHistory := o_statusHistory o |}.

Definition setStatus (o : Order) (s : OrderStatus) : Order :=
  {| o_user := o_user o; o_orderNumber := o_orderNumber o; o_items := o_items o;
     o_subtotal := o_subtotal o; o_tax := o_tax o; o_shipping := o_shipping o;
     o_total := o_total o; o_shippingInfo := o_shippingInfo o;
     o_paymentInfo := o_paymentInfo o; o_status := s;
     o_trackingNumber := o_trackingNumber o; o_notes := o_notes o;
     o_statusHistory := o_statusHistory o |}.

Definition setTrackingNumber (o : Order) (t : option string) : Order :=
  {| o_user := o_user o; o_orderNumber := o_orderNumber o; o_items := o_items o;
     o_subtotal := o_subtotal o; o_tax := o_tax o; o_shipping := o_shipping o;
     o_total := o_total o; o_shippingInfo := o_shippingInfo o;
     o_paymentInfo := o_paymentInfo o; o_status := o_status o;
     o_trackingNumber := t; o_notes := o_notes o;
     o_statusHistory := o_statusHistory o |}.

Definition setNotes (o : Order) (n : option string) : Order :=
  {| o_user := o_user o; o_orderNumber := o_orderNumber o; o_items := o_items o;
     o_subtotal := o_subtotal o; o_tax := o_tax o; o_shipping := o_shipping o;
     o_total := o_total o; o_shippingInfo := o_shippingInfo o;
     o_paymentInfo := o_paymentInfo o; o_status := o_status o;
     o_trackingNumber := o_trackingNumber o; o_notes := n;
     o_statusHistory := o_statusHistory o |}.

Definition setStatusHistory (o : Order) (h : list HistoryEntry) : Order :=
  {| o_user := o_user o; o_orderNumber := o_orderNumber o; o_items := o_items o;
     o_subtotal := o_subtotal o; o_tax := o_tax o; o_shipping := o_shipping o;
     o_total := o_total o; o_shippingInfo := o_shippingInfo o;
     o_paymentInfo := o_paymentInfo o; o_status := o_status o;
     o_trackingNumber := o_trackingNumber o; o_notes := o_notes o;
     o_statusHistory := h |}.

Definition setPayStatus (pi : PaymentInfo) (s : PaymentStatus) : PaymentInfo :=
  {| pay_status := s; pay_amount := pay_amount pi;
     stripeSessionId := stripeSessionId pi;
     stripePaymentIntentId := stripePaymentIntentId pi; paidAt := paidAt pi |}.

Definition setPaymentIntentId (pi : PaymentInfo) (i : option string) : PaymentInfo :=
  {| pay_status := pay_status pi; pay_amount := pay_amount pi;
     stripeSessionId := stripeSessionId pi;
     stripePaymentIntentId := i; paidAt := paidAt pi |}.

Definition setPaidAt (pi : PaymentInfo) (t : option Z) : PaymentInfo :=
  {| pay_status := pay_status pi; pay_amount := pay_amount pi;
     stripeSessionId := stripeSessionId pi;
     stripePaymentIntentId := stripePaymentIntentId pi; paidAt := t |}.

End Orders.

(** ** The database: the two collections the lifecycle touches *)

Module Store.
Import Catalog Orders.

Record Db := mkDb {
  products : gmap string Product;
  orders : gmap string Order
}.

(** [Product.findById(id)] *)
Definition Product_findById (id : string) (db : Db) : option Product :=
  products db !! id.

(** [product.save()] *)
Definition Product_save (id : string) (p : Product) (db : Db) : Db :=
  {| products := <[id := p]> (products db); orders := orders db |}.

(** [Order.findById(id)] *)
Definition Order_findById (id : string) (db : Db) : option Order :=
  orders db !! id.

(** [Order.findOne({ 'paymentInfo.stripePaymentIntentId': pid })]: the
    first document, in the collection's enumeration order, that carries
    the reference. *)
Definition Order_findOneByPaymentIntent (pid : string) (db : Db) : option (string * Order) :=
  snd <$> list_find (fun kv : string * Order =>
                       stripePaymentIntentId (o_paymentInfo (snd kv)) = Some pid)
                    (map_to_list (orders db)).

(** [Order.findOne({ _id: id, user: uid })] *)
Definition Order_findOneByIdAndUser (id uid : string) (db : Db) : option Order :=
  match orders db !! id with
  | Some o => if decide (o_user o = uid) then Some o else None
  | None => None
  end.

(** [order.save()] of the document with the given [_id]. *)
Definition Order_save (id : string) (o : Order) (db : Db) : Db :=
  {| products := products db; orders := <[id := o]> (orders db) |}.

End Store.

(** ** Payment reconciler (routes/webhook.js) *)

Module Webhook.
Import Catalog Orders Store.

(** The parts of a Stripe checkout session the handler reads. *)
Record Session := mkSession {
  s_id : string;
  s_metadata_orderId : string;
  s_payment_intent : option string
}.

Record PaymentIntent := mkPaymentIntent {
  pi_id : string
}.

(** A verified event: its [type] together with [data.object]. *)
Inductive Event :=
| CheckoutSessionCompleted (session : Session)
| PaymentIntentSucceeded (paymentIntent : PaymentIntent)
| PaymentIntentFailed (paymentIntent : PaymentIntent)
| Unhandled (type : string).

(** Body of [for (const item of order.items)]. *)
Definition decrementLine (item : OrderItem) (db : Db) : Db :=
  match Product_findById (oi_product item) db with
  | Some product =>
      match findVariant (oi_variant item) (p_variants product) with
      | Some (i, variant) =>
          if decide (oi_quantity item <= v_stock variant) then
            Product_save (oi_product item)
              (setVariants product
                 (<[i := setStock variant (v_stock variant - oi_quantity item)]>
                    (p_variants product)))
              db
          else db
      | None => db
      end
  | None => db
  end.

Fixpoint updateStock (items : list OrderItem) (db : Db) : Db :=
  match items with
  | [] => db
  | item :: rest => updateStock rest (decrementLine item db)
  end.

Definition handleCheckoutSessionCompleted (now : Z) (session : Session) (db : Db) : Db :=
  let orderId := s_metadata_orderId session in
  match Order_findById orderId db with
  | None => db
  | Some order =>
      let paymentInfo := setPayStatus (o_paymentInfo order) pay_paid in
      let paymentInfo := setPaymentIntentId paymentInfo (s_payment_intent session) in
      let paymentInfo := setPaidAt paymentInfo (Some now) in
      let order := setStatus (setPaymentInfo order paymentInfo) confirmed in
      let db := Order_save orderId order db in
      updateStock (o_items order) db
  end.

(** The order as [handleCheckoutSessionCompleted] saves it. *)
Definition paidOrder (now : Z) (session : Session) (order : Order) : Order :=
  setStatus
    (setPaymentInfo order
       (setPaidAt
          (setPaymentIntentId (setPayStatus (o_paymentInfo order) pay_paid)
             (s_payment_intent session))
          (Some now)))
    confirmed.

Definition handlePaymentIntentSucceeded (now : Z) (paymentIntent : PaymentIntent) (db : Db) : Db :=
  match Order_findOneByPaymentIntent (pi_id paymentIntent) db with
  | Some (id, order) =>
      let paymentInfo := setPayStatus (o_paymentInfo order) pay_paid in
      let paymentInfo := setPaidAt paymentInfo (Some now) in
      let order := setPaymentInfo order paymentInfo in
      let order := if decide (o_status order = pending)
                   then setStatus order confirmed else order in
      Order_save id order db
  | None => db
  end.

Definition handlePaymentIntentFailed (paymentIntent : PaymentIntent) (db : Db) : Db :=
  match Order_findOneByPaymentIntent (pi_id paymentIntent) db with
  | Some (id, order) =>
      let order := setPaymentInfo order (setPayStatus (o_paymentInfo order) pay_failed) in
      let order := setStatus order cancelled in
      Order_save id order db
  | None => db
  end.

(** [send(`Webhook Error: ...`)], [{ received: true }] and
    [{ error: 'Webhook processing failed' }]. *)
Inductive ResponseBody :=
| WebhookError (message : string)
| Received
| ProcessingFailed.

Record Response := mkResponse {
  res_status : Z;
  res_body : ResponseBody
}.

Section Endpoint.

(** [stripe.webhooks.constructEvent(payload, sig, secret)]: either the
    parsed event, or the message of the error it throws. *)
Variable constructEvent : string -> option string -> string -> string + Event.

(** [config.stripe.webhookSecret] *)
Variable webhookSecret : string.

(** [POST /webhook/stripe] on the raw body and the [stripe-signature]
    header.  The three handlers catch their own errors, so the 500
    branch of the route is never taken. *)
Definition stripeWebhook (now : Z) (body : string) (sig : option string) (db : Db)
  : Response * Db :=
  match constructEvent body sig webhookSecret with
  | inl message =>
      (mkResponse 400 (WebhookError ("Webhook Error: " ++ message)), db)
  | inr event =>
      let db :=
        match event with
        | CheckoutSessionCompleted session =>
            handleCheckoutSessionCompleted now session db
        | PaymentIntentSucceeded paymentIntent =>
            handlePaymentIntentSucceeded now paymentIntent db
        | PaymentIntentFailed paymentIntent =>
            handlePaymentIntentFailed paymentIntent db
        | Unhandled _ => db
        end in
      (mkResponse 200 Received, db)
  end.

End Endpoint.

(** The item asks for variant [r] of product [pid]. *)
Definition targets (pid : string) (r : VariantRef) (item : OrderItem) : Prop :=
  oi_product item = pid /\ oi_variant item = r.

#[global] Instance targets_dec pid r item : Decision (targets pid r item).
Proof. unfold targets. apply _. Defined.

(** Total quantity an item list asks of one variant of one product. *)
Fixpoint demand (pid : string) (r : VariantRef) (items : list OrderItem) : Z :=
  match items with
  | [] => 0
  | item :: rest =>
      (if decide (targets pid r item) then oi_quantity item else 0) + demand pid r rest
  end.

(** The variant of a line exists and holds at least [n] times what the
    item list asks of it. *)
Definition covers (n : Z) (items : list OrderItem) (db : Db) (item : OrderItem) : Prop :=
  match stockOf (products db) (oi_product item) (oi_variant item) with
  | Some s => n * demand (oi_product item) (oi_variant item) items <= s
  | None => False
  end.

#[global] Instance covers_dec n items db item : Decision (covers n items db item).
Proof. unfold covers. destruct (stockOf _ _ _); apply _. Defined.

(** A line is skipped when its product or variant is gone or the stock
    does not cover its quantity. *)
Definition skipped (item : OrderItem) (db : Db) : Prop :=
  match stockOf (products db) (oi_product item) (oi_variant item) with
  | Some s => s < oi_quantity item
  | None => True
  end.

End Webhook.

(** ** Cart validator (routes/cart.js, [POST /cart/validate]) *)

Module Cart.
Import Money Catalog Orders Store.

(** One client-supplied line.  An absent [variant] is the case where
    [item.variant] is [undefined]. *)
Record CartLine := mkCartLine {
  productId : string;
  variant : option VariantRef;
  quantity : Z
}.

Inductive ResponseBody :=
| ValidationFailed
| ProductUnavailable (productId : string)
| VariantUnavailable (title : string)
| InsufficientStock (stock : Z) (title size design : string)
| ServerError
| Validated (items : list OrderItem) (subtotal tax shipping total : Q).

Record Response := mkResponse {
  res_status : Z;
  res_body : ResponseBody
}.

(** JavaScript truthiness of an optional string. *)
Definition truthy (s : option string) : bool :=
  match s with
  | Some s => negb (String.eqb s "")
  | None => false
  end.

(** [product.images.find(img => img.isPrimary)?.url || product.images[0]?.url] *)
Definition imageUrl (images : list Image) : option string :=
  let primary := img_url <$> List.find img_isPrimary images in
  if truthy primary then primary else img_url <$> head images.

(** [subtotal >= 50 ? 0 : 9.99] *)
Definition shippingFor (subtotal : Q) : Q :=
  if Qle_bool 50 subtotal then 0%Q else (999 # 100)%Q.

(** The [for (const item of items)] loop with its two accumulators; an
    early [return res.status(...)] is the left injection. *)
Fixpoint validateLoop (db : Db) (items : list CartLine)
    (validatedItems : list OrderItem) (subtotal : Q)
  : Response + (list OrderItem * Q) :=
  match items with
  | [] => inr (validatedItems, subtotal)
  | item :: rest =>
      match Product_findById (productId item) db with
      | None => inl (mkResponse 400 (ProductUnavailable (productId item)))
      | Some product =>
          if negb (p_active product) then
            inl (mkResponse 400 (ProductUnavailable (productId item)))
          else
            match variant item, p_variants product with
            | None, _ :: _ => inl (mkResponse 500 ServerError)
            | None, [] => inl (mkResponse 400 (VariantUnavailable (p_title product)))
            | Some r, variants =>
                match findVariant r variants with
                | None => inl (mkResponse 400 (VariantUnavailable (p_title product)))
                | Some (_, v) =>
                    if v_stock v <? quantity item then
                      inl (mkResponse 400
                             (InsufficientStock (v_stock v) (p_title product)
                                (v_size v) (v_design v)))
                    else
                      let validatedItem :=
                        {| oi_product := productId item;
                           oi_title := p_title product;
                           oi_price := p_price product;
                           oi_quantity := quantity item;
                           oi_variant := mkVariantRef (v_size v) (v_design v);
                           oi_image := imageUrl (p_images product) |} in
                      validateLoop db rest (validatedItems ++ [validatedItem])
                        (subtotal + p_price product * inject_Z (quantity item))%Q
                end
            end
      end
  end.

Section Validate.

(** express-validator's [isMongoId] *)
Variable isMongoId : string -> bool.

(** The validation chain of the route: a non-empty array whose lines
    carry a Mongo id and an integer quantity between 1 and 10. *)
Definition wellFormed (items : list CartLine) : bool :=
  match items with
  | [] => false
  | _ =>
      forallb (fun item => isMongoId (productId item)
                           && (1 <=? quantity item) && (quantity item <=? 10))
              items
  end.

(** The route.  The four figures are computed here in the rationals; for
    what they are in the numbers of the program see [CartAmounts.validate]
    read in [Doubles.binary64]. *)
Definition validate (items : list CartLine) (db : Db) : Response * Db :=
  if negb (wellFormed items) then (mkResponse 400 ValidationFailed, db)
  else
    match validateLoop db items [] 0%Q with
    | inl response => (response, db)
    | inr (validatedItems, subtotal) =>
        let tax := (subtotal * (8 # 100))%Q in
        let shipping := shippingFor subtotal in
        let total := (subtotal + tax + shipping)%Q in
        (mkResponse 200
           (Validated validatedItems (round2 subtotal) (round2 tax)
              (round2 shipping) (round2 total)),
         db)
    end.

End Validate.

(** The loop's running subtotal over a list of validated items. *)
Definition lineSum (items : list OrderItem) : Q :=
  fold_left (fun acc it => (acc + oi_price it * inject_Z (oi_quantity it))%Q) items 0%Q.

End Cart.

(** ** The amounts of a validated cart (routes/cart.js, lines 135-148) *)

Module Arithmetic.

(** The numbers of the route and the operations its arithmetic uses on
    them. *)
Record Number := mkNumber {
  num : Type;
  (** an integer literal or an integer quantity as a number *)
  ofInteger : Z -> num;
  (** [x + y], [x * y], [x / y] *)
  plus : num -> num -> num;
  times : num -> num -> num;
  divide : num -> num -> num;
  (** [x >= y] *)
  atLeast : num -> num -> bool;
  Math_round : num -> num;
  (** the literals [0.08] and [9.99] *)
  taxRate : num;
  shippingFee : num
}.

Section Amounts.

Variable N : Number.

(** [Math.round(x * 100) / 100] *)
Definition round2 (x : num N) : num N :=
  divide N (Math_round N (times N x (ofInteger N 100))) (ofInteger N 100).

(** [let subtotal = 0] and, for every accepted line in cart order,
    [subtotal += product.price * item.quantity].  A line is the pair of
    [product.price] and [item.quantity]. *)
Definition subtotalOf (lines : list (num N * Z)) : num N :=
  fold_left (fun subtotal line =>
               plus N subtotal (times N (fst line) (ofInteger N (snd line))))
            lines (ofInteger N 0).

(** [subtotal * 0.08] *)
Definition taxOf (subtotal : num N) : num N := times N subtotal (taxRate N).

(** [subtotal >= 50 ? 0 : 9.99] *)
Definition shippingOf (subtotal : num N) : num N :=
  if atLeast N subtotal (ofInteger N 50) then ofInteger N 0 else shippingFee N.

(** [subtotal + tax + shipping] *)
Definition totalOf (subtotal : num N) : num N :=
  plus N (plus N subtotal (taxOf subtotal)) (shippingOf subtotal).

(** The four figures of the response. *)
Record Amounts := mkAmounts {
  subtotal : num N;
  tax : num N;
  shipping : num N;
  total : num N
}.

Definition amounts (lines : list (num N * Z)) : Amounts :=
  let subtotal := subtotalOf lines in
  let tax := taxOf subtotal in
  let shipping := shippingOf subtotal in
  let total := totalOf subtotal in
  {| subtotal := round2 subtotal;
     tax := round2 tax;
     shipping := round2 shipping;
     total := round2 total |}.

End Amounts.

Arguments mkAmounts {N}.
Arguments subtotal {N}.
Arguments tax {N}.
Arguments shipping {N}.
Arguments total {N}.

End Arithmetic.

(** ** The arithmetic in the rationals *)

Module Rationals.
Import Arithmetic.

Definition exact : Number :=
  {| num := Q;
     ofInteger := inject_Z;
     plus := Qplus;
     times := Qmult;
     divide := Qdiv;
     atLeast := fun x y => Qle_bool y x;
     Math_round := fun x => inject_Z (Money.Math_round x);
     taxRate := (8 # 100)%Q;
     shippingFee := (999 # 100)%Q |}.

End Rationals.

(** ** The arithmetic in binary64, the numbers of JavaScript *)

Module Doubles.
Import Arithmetic.

(** An integer as a double, by its binary digits; every step is exact
    below 2^53. *)
Fixpoint floatOfPositive (p : positive) : float :=
  match p with
  | xH => 1%float
  | xO q => (2 * floatOfPositive q)%float
  | xI q => (2 * floatOfPositive q + 1)%float
  end.

Definition floatOfInteger (z : Z) : float :=
  match z with
  | Z0 => 0%float
  | Zpos p => floatOfPositive p
  | Zneg p => (- floatOfPositive p)%float
  end.

(** 2^52: from here on every double is an integer. *)
Definition two52 : float := 4503599627370496%float.

(** The nearest integer, ties to even: adding and taking away 2^52 leaves
    the sum rounded to the spacing of the doubles there, which is 1. *)
Definition nearestInteger (x : float) : float :=
  if (abs x <? two52)%float then
    if (0 <=? x)%float then (x + two52 - two52)%float else (x - two52 + two52)%float
  else x.

(** [Math.floor] *)
Definition Math_floor (x : float) : float :=
  let n := nearestInteger x in
  if (x <? n)%float then (n - 1)%float else n.

(** The sign bit, which [x < 0] does not see on a zero. *)
Definition signBit (x : float) : bool :=
  ((x <? 0) || ((x =? 0) && (1 / x <? 0)))%float.

(** [Math.round]: the nearest integer, ties towards +infinity, and a zero
    with the sign of [x].  The difference [x - Math.floor(x)] is exact. *)
Definition Math_round (x : float) : float :=
  let n := Math_floor x in
  let r := if (0.5 <=? x - n)%float then (n + 1)%float else n in
  if (r =? 0)%float && signBit x then (-0)%float else r.

Definition binary64 : Number :=
  {| num := float;
     ofInteger := floatOfInteger;
     plus := PrimFloat.add;
     times := PrimFloat.mul;
     divide := PrimFloat.div;
     atLeast := fun x y => PrimFloat.leb y x;
     Arithmetic.Math_round := Math_round;
     taxRate := 0.08%float;
     shippingFee := 9.99%float |}.

(** [product.price] as the program holds it: the double nearest to the
    price of the document.  Numerator and denominator are exact as doubles
    below 2^53, and the division rounds their quotient once. *)
Definition doubleOf (price : Q) : float :=
  (floatOfInteger (Qnum price) / floatOfInteger (Zpos (Qden price)))%float.

End Doubles.

(** ** The cart validator in the numbers of the program
       (routes/cart.js, [POST /cart/validate]) *)

Module CartAmounts.
Import Catalog Orders Store Arithmetic.

Section Route.

Variable N : Number.

(** [product.price] of a product document, as a number of the route. *)
Variable priceIn : Q -> num N.

(** express-validator's [isMongoId] *)
Variable isMongoId : string -> bool.

(** The body of the 200 response. *)
Record Validated := mkValidated {
  v_items : list OrderItem;
  v_figures : Amounts N
}.

(** The [for (const item of items)] loop with its two accumulators; an
    early [return res.status(...)] is the left injection. *)
Fixpoint validateLoop (db : Db) (items : list Cart.CartLine)
    (validatedItems : list OrderItem) (subtotal : num N)
  : Cart.Response + (list OrderItem * num N) :=
  match items with
  | [] => inr (validatedItems, subtotal)
  | item :: rest =>
      match Product_findById (Cart.productId item) db with
      | None => inl (Cart.mkResponse 400 (Cart.ProductUnavailable (Cart.productId item)))
      | Some product =>
          if negb (p_active product) then
            inl (Cart.mkResponse 400 (Cart.ProductUnavailable (Cart.productId item)))
          else
            match Cart.variant item, p_variants product with
            | None, _ :: _ => inl (Cart.mkResponse 500 Cart.ServerError)
            | None, [] =>
                inl (Cart.mkResponse 400 (Cart.VariantUnavailable (p_title product)))
            | Some r, variants =>
                match findVariant r variants with
                | None =>
                    inl (Cart.mkResponse 400 (Cart.VariantUnavailable (p_title product)))
                | Some (_, v) =>
                    if v_stock v <? Cart.quantity item then
                      inl (Cart.mkResponse 400
                             (Cart.InsufficientStock (v_stock v) (p_title product)
                                (v_size v) (v_design v)))
                    else
                      let validatedItem :=
                        {| oi_product := Cart.productId item;
                           oi_title := p_title product;
                           oi_price := p_price product;
                           oi_quantity := Cart.quantity item;
                           oi_variant := mkVariantRef (v_size v) (v_design v);
                           oi_image := Cart.imageUrl (p_images product) |} in
                      validateLoop db rest (validatedItems ++ [validatedItem])
                        (plus N subtotal
                           (times N (priceIn (p_price product))
                              (ofInteger N (Cart.quantity item))))
                end
            end
      end
  end.

Definition validate (items : list Cart.CartLine) (db : Db)
  : (Cart.Response + Validated) * Db :=
  if negb (Cart.wellFormed isMongoId items)
  then (inl (Cart.mkResponse 400 Cart.ValidationFailed), db)
  else
    match validateLoop db items [] (ofInteger N 0) with
    | inl response => (inl response, db)
    | inr (validatedItems, subtotal) =>
        let tax := times N subtotal (taxRate N) in
        let shipping :=
          if atLeast N subtotal (ofInteger N 50) then ofInteger N 0 else shippingFee N in
        let total := plus N (plus N subtotal tax) shipping in
        (inr {| v_items := validatedItems;
                v_figures := {| subtotal := round2 N subtotal;
                                tax := round2 N tax;
                                shipping := round2 N shipping;
                                total := round2 N total |} |},
         db)
    end.

(** Price and quantity of the validated items, in cart order. *)
Definition linesOf (items : list OrderItem) : list (num N * Z) :=
  map (fun it => (priceIn (oi_price it), oi_quantity it)) items.

End Route.

Arguments mkValidated {N}.
Arguments v_items {N}.
Arguments v_figures {N}.

End CartAmounts.

(** ** Order routes (routes/orders.js) *)

Module OrderRoutes.
Import Catalog Orders Store.

Record OrderSummary := mkOrderSummary {
  sum_id : string;
  sum_orderNumber : string;
  sum_status : OrderStatus;
  sum_trackingNumber : option string;
  sum_notes : option string
}.

Inductive ResponseBody :=
| ValidationFailed
| Message (message : string)
| OrderUpdated (order : OrderSummary)
| NoteAdded (entry : HistoryEntry)
| OrderCancelled (id orderNumber : string) (status : OrderStatus).

Record Response := mkResponse {
  res_status : Z;
  res_body : ResponseBody
}.

(** Body of [PUT /orders/admin/:id/status], after the [trim] sanitizers. *)
Record StatusUpdate := mkStatusUpdate {
  su_status : string;
  su_trackingNumber : option string;
  su_notes : option string
}.

(** [isIn(['pending', 'confirmed', 'processing', 'shipped', 'delivered',
    'cancelled'])] *)
Definition parseStatus (s : string) : option OrderStatus :=
  if String.eqb s "pending" then Some pending
  else if String.eqb s "confirmed" then Some confirmed
  else if String.eqb s "processing" then Some processing
  else if String.eqb s "shipped" then Some shipped
  else if String.eqb s "delivered" then Some delivered
  else if String.eqb s "cancelled" then Some cancelled
  else None.

(** [if (x) ...] on an optional string of the request body. *)
Definition given (s : option string) : option string :=
  match s with
  | Some s => if String.eqb s "" then None else Some s
  | None => None
  end.

(** The assignments of the status route:
    [order.status = status; if (trackingNumber) ...; if (notes) ...]. *)
Definition applyStatusUpdate (status : OrderStatus) (req : StatusUpdate) (order : Order)
  : Order :=
  let order := setStatus order status in
  let order :=
    match given (su_trackingNumber req) with
    | Some t => setTrackingNumber order (Some t)
    | None => order
    end in
  match given (su_notes req) with
  | Some n => setNotes order (Some n)
  | None => order
  end.

Section Validators.

(** The length express-validator's [isLength] measures: the characters of
    the string, not the bytes of its encoding. *)
Variable charCount : string -> nat.

(** [optional().isLength({ max })] *)
Definition withinLength (max : nat) (s : option string) : bool :=
  match s with
  | Some s => (charCount s <=? max)%nat
  | None => true
  end.

(** [PUT /orders/admin/:id/status]: the three assignments and
    [order.save()]; the route does not touch [statusHistory]. *)
Definition adminUpdateStatus (id : string) (req : StatusUpdate) (db : Db)
  : Response * Db :=
  match parseStatus (su_status req) with
  | None => (mkResponse 400 ValidationFailed, db)
  | Some status =>
      if negb (withinLength 100 (su_trackingNumber req)
               && withinLength 1000 (su_notes req))
      then (mkResponse 400 ValidationFailed, db)
      else
        match Order_findById id db with
        | None => (mkResponse 404 (Message "Order not found"), db)
        | Some order =>
            let order := applyStatusUpdate status req order in
            (mkResponse 200
               (OrderUpdated
                  (mkOrderSummary id (o_orderNumber order) (o_status order)
                     (o_trackingNumber order) (o_notes order))),
             Order_save id order db)
        end
  end.

(** [POST /orders/admin/:id/notes], on the trimmed note. *)
Definition adminAddNote (now : Z) (id : string) (note : string) (db : Db)
  : Response * Db :=
  if negb ((1 <=? charCount note)%nat && (charCount note <=? 500)%nat)
  then (mkResponse 400 ValidationFailed, db)
  else
    match Order_findById id db with
    | None => (mkResponse 404 (Message "Order not found"), db)
    | Some order =>
        let entry := mkHistoryEntry (o_status order) now (Some note) in
        let order := setStatusHistory order (o_statusHistory order ++ [entry]) in
        (mkResponse 200 (NoteAdded entry), Order_save id order db)
    end.

End Validators.

(** [PUT /orders/:id/cancel] for the authenticated user [uid]. *)
Definition cancelOrder (uid : string) (id : string) (db : Db) : Response * Db :=
  match Order_findOneByIdAndUser id uid db with
  | None => (mkResponse 404 (Message "Order not found"), db)
  | Some order =>
      if negb (bool_decide (o_status order = pending)
               || bool_decide (o_status order = confirmed))
      then (mkResponse 400 (Message "Order cannot be cancelled at this stage"), db)
      else
        let order := setStatus order cancelled in
        (mkResponse 200
           (OrderCancelled id (o_orderNumber order) (o_status order)),
         Order_save id order db)
  end.

End OrderRoutes.

(** ** A small catalog and two orders, for evaluation *)

Module Fixture.
Import Catalog Orders Store Webhook.
Local Open Scope string_scope.

Definition frenchId : string := "64b7f0c2a1d3e4f5a6b7c8d9".
Definition glitterId : string := "64b7f0c2a1d3e4f5a6b7c8da".
Definition orderId : string := "64b7f0c2a1d3e4f5a6b7c8e0".
Definition mixedOrderId : string := "64b7f0c2a1d3e4f5a6b7c8e1".
Definition aliceId : string := "64b7f0c2a1d3e4f5a6b7c8f0".

Definition frenchTips : Product :=
  {| p_title := "Classic French Tips"; p_price := (2499 # 100)%Q; p_active := true;
     p_images := [mkImage "/uploads/french.webp" true];
     p_variants := [mkVariant "M" "Classic French" 5;
                    mkVariant "L" "Classic French" 1] |}.

Definition glitter : Product :=
  {| p_title := "Gold Glitter"; p_price := 10%Q; p_active := true;
     p_images := [];
     p_variants := [mkVariant "S" "Gold Glitter" 3] |}.

Definition frenchM : OrderItem :=
  {| oi_product := frenchId; oi_title := "Classic French Tips";
     oi_price := (2499 # 100)%Q; oi_quantity := 2;
     oi_variant := mkVariantRef "M" "Classic French";
     oi_image := Some "/uploads/french.webp" |}.

Definition frenchL : OrderItem :=
  {| oi_product := frenchId; oi_title := "Classic French Tips";
     oi_price := (2499 # 100)%Q; oi_quantity := 3;
     oi_variant := mkVariantRef "L" "Classic French";
     oi_image := Some "/uploads/french.webp" |}.

Definition glitterS : OrderItem :=
  {| oi_product := glitterId; oi_title := "Gold Glitter";
     oi_price := 10%Q; oi_quantity := 2;
     oi_variant := mkVariantRef "S" "Gold Glitter";
     oi_image := None |}.

Definition pendingPayment : PaymentInfo :=
  {| pay_status := pay_pending; pay_amount := (6397 # 100)%Q;
     stripeSessionId := "cs_test_1"; stripePaymentIntentId := None;
     paidAt := None |}.

Definition orderOf (items : list OrderItem) (status : OrderStatus) : Order :=
  {| o_user := aliceId; o_orderNumber := "NS-0001"; o_items := items;
     o_subtotal := (4998 # 100)%Q; o_tax := 4%Q; o_shipping := (999 # 100)%Q;
     o_total := (6397 # 100)%Q; o_shippingInfo := [("name", "Alice")];
     o_paymentInfo := pendingPayment; o_status := status;
     o_trackingNumber := None; o_notes := None; o_statusHistory := [] |}.

Definition order1 : Order := orderOf [frenchM] pending.

(** A line with too little stock between two lines that can be served. *)
Definition mixedOrder : Order := orderOf [frenchM; frenchL; glitterS] pending.

Definition db1 : Db :=
  {| products := {[ frenchId := frenchTips ]};
     orders := {[ orderId := order1 ]} |}.

Definition db2 : Db :=
  {| products := <[ glitterId := glitter ]> {[ frenchId := frenchTips ]};
     orders := <[ mixedOrderId := mixedOrder ]> {[ orderId := order1 ]} |}.

Definition session1 : Session := mkSession "cs_test_1" orderId (Some "pi_1").
Definition session2 : Session := mkSession "cs_test_2" mixedOrderId (Some "pi_2").

End Fixture.

(** ** Carts for evaluation *)

Module CartFixture.
Import Catalog Orders Store Cart Fixture.
Local Open Scope string_scope.

Definition isHexDigit (c : Ascii.ascii) : bool :=
  let n := Ascii.nat_of_ascii c in
  ((48 <=? n) && (n <=? 57) || (65 <=? n) && (n <=? 70) || (97 <=? n) && (n <=? 102))%nat.

Fixpoint allHex (s : string) : bool :=
  match s with
  | EmptyString => true
  | String c rest => isHexDigit c && allHex rest
  end.

(** A stand-in for [isMongoId]: 24 hexadecimal digits. *)
Definition hex24 (s : string) : bool :=
  allHex s && (String.length s =? 24)%nat.

Definition oddId : string := "64b7f0c2a1d3e4f5a6b7c8db".
Definition studioId : string := "64b7f0c2a1d3e4f5a6b7c8dc".

(** A price that is not a whole number of cents: 10.0047. *)
Definition oddPrice : Product :=
  {| p_title := "Chrome Silver"; p_price := (100047 # 10000)%Q; p_active := true;
     p_images := [];
     p_variants := [mkVariant "S" "Chrome Silver" 4] |}.

Definition studio : Product :=
  {| p_title := "Matte Black"; p_price := 30%Q; p_active := true;
     p_images := [];
     p_variants := [mkVariant "M" "Matte Black" 7] |}.

(** A price just under fifty that rounds to 50.00: 49.996. *)
Definition nearFiftyId : string := "64b7f0c2a1d3e4f5a6b7c8dd".

Definition nearFifty : Product :=
  {| p_title := "Red Stiletto"; p_price := (49996 # 1000)%Q; p_active := true;
     p_images := [];
     p_variants := [mkVariant "L" "Red Stiletto" 2] |}.

Definition catalog : Db :=
  {| products := <[ nearFiftyId := nearFifty ]>
                   (<[ studioId := studio ]> (<[ oddId := oddPrice ]> (products db2)));
     orders := orders db2 |}.

(** 2 x 10.00 *)
Definition cartGlitter : list CartLine :=
  [mkCartLine glitterId (Some (mkVariantRef "S" "Gold Glitter")) 2].

(** 2 x 30.00 *)
Definition cartStudio : list CartLine :=
  [mkCartLine studioId (Some (mkVariantRef "M" "Matte Black")) 2].

(** 1 x 10.0047 *)
Definition cartOdd : list CartLine :=
  [mkCartLine oddId (Some (mkVariantRef "S" "Chrome Silver")) 1].

(** 1 x 49.996 *)
Definition cartNearFifty : list CartLine :=
  [mkCartLine nearFiftyId (Some (mkVariantRef "L" "Red Stiletto")) 1].

Definition fileId : string := "64b7f0c2a1d3e4f5a6b7c8de".
Definition ombreId : string := "64b7f0c2a1d3e4f5a6b7c8df".

Definition nailFile : Product :=
  {| p_title := "Glass Nail File"; p_price := (515 # 100)%Q; p_active := true;
     p_images := [];
     p_variants := [mkVariant "S" "Clear" 9] |}.

Definition ombre : Product :=
  {| p_title := "Pink Ombre"; p_price := (1495 # 100)%Q; p_active := true;
     p_images := [];
     p_variants := [mkVariant "M" "Pink Ombre" 6] |}.

Definition salon : Db :=
  {| products := <[ ombreId := ombre ]> (<[ fileId := nailFile ]> (products catalog));
     orders := orders catalog |}.

(** 1 x 5.15 and 3 x 14.95: whole cents that add up to 50.00. *)
Definition cartFifty : list CartLine :=
  [mkCartLine fileId (Some (mkVariantRef "S" "Clear")) 1;
   mkCartLine ombreId (Some (mkVariantRef "M" "Pink Ombre")) 3].

End CartFixture.

(** ** Orders and a signature check for evaluation *)

Module LedgerFixture.
Import Catalog Orders Store Webhook OrderRoutes Fixture.
Local Open Scope string_scope.

Definition paidPayment : PaymentInfo :=
  {| pay_status := pay_paid; pay_amount := (6397 # 100)%Q;
     stripeSessionId := "cs_test_3"; stripePaymentIntentId := Some "pi_3";
     paidAt := Some 500 |}.

Definition awaitingPayment : PaymentInfo :=
  {| pay_status := pay_pending; pay_amount := (6397 # 100)%Q;
     stripeSessionId := "cs_test_4"; stripePaymentIntentId := Some "pi_4";
     paidAt := None |}.

Definition shippedOrderId : string := "64b7f0c2a1d3e4f5a6b7c8e2".
Definition awaitingOrderId : string := "64b7f0c2a1d3e4f5a6b7c8e3".

(** Paid and already shipped. *)
Definition shippedOrder : Order :=
  setStatus (setPaymentInfo (orderOf [frenchM] pending) paidPayment) shipped.

(** Paid and confirmed, not yet processed. *)
Definition confirmedOrder : Order :=
  setStatus (setPaymentInfo (orderOf [frenchM] pending) paidPayment) confirmed.

(** Still pending, with a payment-intent reference. *)
Definition awaitingOrder : Order :=
  setPaymentInfo (orderOf [glitterS] pending) awaitingPayment.

Definition ledger : Db :=
  {| products := products db2;
     orders := <[ awaitingOrderId := awaitingOrder ]>
                 (<[ shippedOrderId := shippedOrder ]> (orders db2)) |}.

Definition confirmedLedger : Db :=
  {| products := products db2;
     orders := <[ shippedOrderId := confirmedOrder ]> (orders db2) |}.

(** A stand-in for [stripe.webhooks.constructEvent]: the header has to be
    the secret followed by the payload. *)
Definition toyConstructEvent (payload : string) (sig : option string) (secret : string)
  : string + Event :=
  match sig with
  | None => inl "No stripe-signature header value was provided."
  | Some s =>
      if String.eqb s (secret ++ payload)
      then inr (CheckoutSessionCompleted session1)
      else inl "No signatures found matching the expected signature for payload."
  end.

Definition shipIt : StatusUpdate :=
  mkStatusUpdate "shipped" (Some "1Z999AA10123456784") (Some "Left the warehouse").

(** The checkout session of [awaitingOrder]: one line, 2 of a variant that
    has 3 in stock. *)
Definition session4 : Session := mkSession "cs_test_4" awaitingOrderId (Some "pi_4").

(** A stand-in for the count of [isLength] on UTF-8 text: the bytes that
    start a character, that is all but the continuation bytes 10xxxxxx. *)
Definition isContinuation (c : Ascii.ascii) : bool :=
  let n := Ascii.nat_of_ascii c in ((128 <=? n) && (n <? 192))%nat.

Fixpoint codePoints (s : string) : nat :=
  match s with
  | EmptyString => 0%nat
  | String c rest => ((if isContinuation c then 0 else 1) + codePoints rest)%nat
  end.

(** e with an acute accent: one character, the two bytes C3 A9. *)
Definition eAcute : string :=
  String (Ascii.ascii_of_nat 195) (String (Ascii.ascii_of_nat 169) EmptyString).

Fixpoint repeated (n : nat) (s : string) : string :=
  match n with
  | O => EmptyString
  | S m => s ++ repeated m s
  end.

(** 300 characters in 600 bytes. *)
Definition accentedNote : string := repeated 300 eAcute.

End LedgerFixture.

(** ** Lines by price and quantity, in binary64 *)

Module AmountFixture.

(** 1 x 49.996: under fifty, and 50.00 to the cent. *)
Definition nearFiftyLines : list (float * Z) := [(49.996%float, 1)].

(** 1 x 7.375: half a cent, and a double. *)
Definition halfCentLines : list (float * Z) := [(7.375%float, 1)].

(** 1 x 1.005: half a cent in decimal, and the double just under it. *)
Definition justUnderLines : list (float * Z) := [(1.005%float, 1)].

End AmountFixture.

(** ** Adding to the cart (routes/cart.js, [POST /cart/add]) *)

Module CartAdd.
Import Catalog Orders Store Cart.

Record AddRequest := mkAddRequest {
  a_productId : string;
  a_size : string;
  a_design : string;
  a_quantity : Z
}.

Record CartItem := mkCartItem {
  ci_productId : string;
  ci_title : string;
  ci_price : Q;
  ci_image : option string;
  ci_variant : VariantRef;
  ci_quantity : Z;
  ci_maxQuantity : Z
}.

Inductive ResponseBody :=
| ValidationFailed
| Message (message : string)
| OnlyAvailable (availableStock : Z)
| ItemAdded (item : CartItem)
| ServerError.

Record Response := mkResponse {
  res_status : Z;
  res_body : ResponseBody
}.

(** express-validator's [notEmpty] on a string *)
Definition notEmpty (s : string) : bool := negb (String.eqb s "").

Section Add.

Variable isMongoId : string -> bool.

Definition wellFormed (req : AddRequest) : bool :=
  isMongoId (a_productId req) && notEmpty (a_size req) && notEmpty (a_design req)
  && (1 <=? a_quantity req) && (a_quantity req <=? 10).

Definition add (req : AddRequest) (db : Db) : Response * Db :=
  if negb (wellFormed req) then (mkResponse 400 ValidationFailed, db)
  else
    match Product_findById (a_productId req) db with
    | None => (mkResponse 404 (Message "Product not found"), db)
    | Some product =>
        if negb (p_active product) then
          (mkResponse 404 (Message "Product not found"), db)
        else
          match findVariant (mkVariantRef (a_size req) (a_design req))
                  (p_variants product) with
          | None => (mkResponse 400 (Message "Selected variant not available"), db)
          | Some (_, variant) =>
              if v_stock variant <? a_quantity req then
                (mkResponse 400 (OnlyAvailable (v_stock variant)), db)
              else
                (mkResponse 200
                   (ItemAdded
                      {| ci_productId := a_productId req;
                         ci_title := p_title product;
                         ci_price := p_price product;
                         ci_image := imageUrl (p_images product);
                         ci_variant := mkVariantRef (a_size req) (a_design req);
                         ci_quantity := a_quantity req;
                         ci_maxQuantity := Z.min (v_stock variant) 10 |}),
                 db)
          end
    end.

End Add.

End CartAdd.

(** ** Stock check (routes/products.js, [POST /products/:id/check-stock]) *)

Module ProductRoutes.
Import Catalog Orders Store.

Record StockRequest := mkStockRequest {
  sr_size : string;
  sr_design : string;
  sr_quantity : Z
}.

Inductive ResponseBody :=
| ValidationFailed
| Message (message : string)
| VariantNotFound
| StockReport (available : bool) (stock : Z) (message : string).

Record Response := mkResponse {
  res_status : Z;
  res_body : ResponseBody
}.

Definition checkStock (id : string) (req : StockRequest) (db : Db) : Response * Db :=
  if negb (CartAdd.notEmpty (sr_size req) && CartAdd.notEmpty (sr_design req)
           && (1 <=? sr_quantity req))
  then (mkResponse 400 ValidationFailed, db)
  else
    match Product_findById id db with
    | None => (mkResponse 404 (Message "Product not found"), db)
    | Some product =>
        match findVariant (mkVariantRef (sr_size req) (sr_design req))
                (p_variants product) with
        | None => (mkResponse 400 VariantNotFound, db)
        | Some (_, variant) =>
            let available := sr_quantity req <=? v_stock variant in
            (mkResponse 200
               (StockReport available (v_stock variant)
                  (if available then "In stock" else "Insufficient stock")),
             db)
        end
    end.

End ProductRoutes.

(** ** Checkout (routes/cart.js, [POST /cart/create-checkout-session]) *)

Module Checkout.
Import Money Catalog Orders Store Cart.

(** [req.body.shippingInfo], after the [trim] sanitizers. *)
Record ShippingInfo := mkShippingInfo {
  sh_name : string;
  sh_phone : string;
  sh_address : string;
  sh_city : string;
  sh_state : string;
  sh_postalCode : string;
  sh_country : string
}.

Definition shippingFields (s : ShippingInfo) : list (string * string) :=
  [("name", sh_name s); ("phone", sh_phone s); ("address", sh_address s);
   ("city", sh_city s); ("state", sh_state s); ("postalCode", sh_postalCode s);
   ("country", sh_country s)]%string.

Definition shippingComplete (s : ShippingInfo) : bool :=
  forallb (fun kv => CartAdd.notEmpty (snd kv)) (shippingFields s).

(** [req.user] *)
Record User := mkUser {
  u_id : string;
  u_email : string
}.

(** One entry of [line_items]: [price_data.product_data.name],
    [price_data.product_data.images], [price_data.unit_amount] and
    [quantity]; the currency is always usd. *)
Record LineItem := mkLineItem {
  li_name : string;
  li_images : list string;
  li_unit_amount : Z;
  li_quantity : Z
}.

Record SessionParams := mkSessionParams {
  sp_line_items : list LineItem;
  sp_success_url : string;
  sp_cancel_url : string;
  sp_metadata_orderId : string;
  sp_metadata_userId : string;
  sp_customer_email : string
}.

Inductive ResponseBody :=
| ValidationFailed
| CartRejected (error : Cart.ResponseBody)
| SessionCreated (sessionId orderId : string)
| ServerError.

Record Response := mkResponse {
  res_status : Z;
  res_body : ResponseBody
}.

(** [validatedCart.items.map(item => ...)] for one item; [origin] is
    [`${req.protocol}://${req.get('host')}`]. *)
Definition productLine (origin : string) (item : OrderItem) : LineItem :=
  {| li_name := (oi_title item ++ " (" ++ r_size (oi_variant item) ++ ", "
                 ++ r_design (oi_variant item) ++ ")")%string;
     li_images := match oi_image item with
                  | Some image => if truthy (Some image)
                                  then [(origin ++ image)%string] else []
                  | None => []
                  end;
     li_unit_amount := Math_round (oi_price item * 100);
     li_quantity := oi_quantity item |}.

(** [if (amount > 0) lineItems.push({ ..., unit_amount:
    Math.round(amount * 100), quantity: 1 })] *)
Definition chargeLine (name : string) (amount : Q) : list LineItem :=
  if Qle_bool amount 0 then []
  else [mkLineItem name [] (Math_round (amount * 100)) 1].

Definition lineItems (origin : string) (items : list OrderItem) (tax shipping : Q)
  : list LineItem :=
  map (productLine origin) items ++ chargeLine "Tax" tax ++ chargeLine "Shipping" shipping.

(** What Stripe charges for a list of line items, in cents. *)
Definition billed (lines : list LineItem) : Z :=
  fold_right (fun line acc => li_unit_amount line * li_quantity line + acc) 0 lines.

Definition setSessionId (o : Order) (sessionId : string) : Order :=
  setPaymentInfo o
    {| pay_status := pay_status (o_paymentInfo o);
       pay_amount := pay_amount (o_paymentInfo o);
       stripeSessionId := sessionId;
       stripePaymentIntentId := stripePaymentIntentId (o_paymentInfo o);
       paidAt := paidAt (o_paymentInfo o) |}.

Section CreateCheckoutSession.

Variable isMongoId : string -> bool.

(** [stripe.checkout.sessions.create(...)]: the id of the session, or
    nothing when the call throws. *)
Variable createSession : SessionParams -> option string.

(** The schema default of [status] in models/Order.js, which is not among
    the sources. *)
Variable initialStatus : OrderStatus.

(** [new Order({ ... })] for a validated cart; [orderNumber] is what the
    model assigns. *)
Definition newOrder (user : User) (orderNumber : string) (shippingInfo : ShippingInfo)
    (items : list OrderItem) (subtotal tax shipping total : Q) : Order :=
  {| o_user := u_id user; o_orderNumber := orderNumber; o_items := items;
     o_subtotal := subtotal; o_tax := tax; o_shipping := shipping;
     o_total := total; o_shippingInfo := shippingFields shippingInfo;
     o_paymentInfo := {| pay_status := pay_pending; pay_amount := total;
                         stripeSessionId := ""; stripePaymentIntentId := None;
                         paidAt := None |};
     o_status := initialStatus;
     o_trackingNumber := None; o_notes := None; o_statusHistory := [] |}.

Definition sessionParams (origin : string) (user : User) (orderId : string)
    (items : list OrderItem) (tax shipping : Q) : SessionParams :=
  {| sp_line_items := lineItems origin items tax shipping;
     sp_success_url :=
       (origin ++ "/orders/success?session_id={CHECKOUT_SESSION_ID}")%string;
     sp_cancel_url := (origin ++ "/cart/checkout")%string;
     sp_metadata_orderId := orderId;
     sp_metadata_userId := u_id user;
     sp_customer_email := u_email user |}.

(** The route for the authenticated [user]; [orderId] is the [_id] of the
    document [new Order] makes.  The [fetch] of the server's own
    [/cart/validate] is the call of [validate]; its answer is [ok] exactly
    when the status is 2xx. *)
Definition createCheckoutSession (origin : string) (user : User)
    (orderId orderNumber : string)
    (items : list CartLine) (shippingInfo : ShippingInfo) (db : Db)
  : Response * Db :=
  if negb (match items with [] => false | _ => true end
           && shippingComplete shippingInfo)
  then (mkResponse 400 ValidationFailed, db)
  else
    let validationResponse := fst (validate isMongoId items db) in
    if negb ((200 <=? Cart.res_status validationResponse)
             && (Cart.res_status validationResponse <=? 299))
    then (mkResponse 400 (CartRejected (Cart.res_body validationResponse)), db)
    else
      match Cart.res_body validationResponse with
      | Validated validatedItems subtotal tax shipping total =>
          let order :=
            newOrder user orderNumber shippingInfo validatedItems
              subtotal tax shipping total in
          let db := Order_save orderId order db in
          match createSession
                  (sessionParams origin user orderId validatedItems tax shipping) with
          | None => (mkResponse 500 ServerError, db)
          | Some sessionId =>
              (mkResponse 200 (SessionCreated sessionId orderId),
               Order_save orderId (setSessionId order sessionId) db)
          end
      | _ => (mkResponse 500 ServerError, db)
      end.

End CreateCheckoutSession.

End Checkout.

(** ** Reading an order (routes/orders.js, [GET /orders/:id/tracking]) *)

Module OrderViews.
Import Catalog Orders Store.

(** [req.user], when the request carries a valid token. *)
Record User := mkUser {
  u_id : string;
  u_role : string
}.

Record TrackingInfo := mkTrackingInfo {
  t_orderNumber : string;
  t_status : OrderStatus;
  t_trackingNumber : option string;
  t_statusHistory : list HistoryEntry;
  t_shippingInfo : list (string * string)
}.

Inductive ResponseBody :=
| Message (message : string)
| Tracking (info : TrackingInfo).

Record Response := mkResponse {
  res_status : Z;
  res_body : ResponseBody
}.

Definition isAdmin (user : User) : bool := String.eqb (u_role user) "admin".

(** The fields of an order the route sends. *)
Definition trackingOf (order : Order) : TrackingInfo :=
  {| t_orderNumber := o_orderNumber order;
     t_status := o_status order;
     t_trackingNumber := o_trackingNumber order;
     t_statusHistory := o_statusHistory order;
     t_shippingInfo := o_shippingInfo order |}.

(** [Order.findOne(query)], where [query] is [{ _id }] for an admin and
    [{ _id, user }] for anyone else. *)
Definition tracking (user : option User) (id : string) (db : Db) : Response * Db :=
  match user with
  | None => (mkResponse 401 (Message "Authentication required"), db)
  | Some u =>
      let found :=
        if isAdmin u then Order_findById id db
        else Order_findOneByIdAndUser id (u_id u) db in
      match found with
      | None => (mkResponse 404 (Message "Order not found"), db)
      | Some order =>
          (mkResponse 200 (Tracking (trackingOf order)), db)
      end
  end.

End OrderViews.

(** ** The route table of routes/orders.js *)

Module OrdersRouter.

Inductive Method := GET | POST | PUT | DELETE.

#[global] Instance Method_eq_dec : EqDecision Method.
Proof. solve_decision. Defined.

(** A segment of a route path: fixed text or a [:name] parameter. *)
Inductive Segment :=
| Literal (text : string)
| Param (name : string).

(** The handlers, in the order in which the file registers them. *)
Inductive Handler :=
| ListOrders
| OrderDetail
| OrderSuccess
| AdminAllOrders
| AdminOrderDetail
| AdminUpdateStatus
| AdminAddNote
| CancelOrder
| OrderTracking.

#[global] Instance Handler_eq_dec : EqDecision Handler.
Proof. solve_decision. Defined.

Local Open Scope string_scope.

Definition routes : list (Method * list Segment * Handler) :=
  [ (GET, [], ListOrders);
    (GET, [Param "id"], OrderDetail);
    (GET, [Literal "success"], OrderSuccess);
    (GET, [Literal "admin"; Literal "all"], AdminAllOrders);
    (GET, [Literal "admin"; Param "id"], AdminOrderDetail);
    (PUT, [Literal "admin"; Param "id"; Literal "status"], AdminUpdateStatus);
    (POST, [Literal "admin"; Param "id"; Literal "notes"], AdminAddNote);
    (PUT, [Param "id"; Literal "cancel"], CancelOrder);
    (GET, [Param "id"; Literal "tracking"], OrderTracking) ].

Definition lowerAscii (c : Ascii.ascii) : Ascii.ascii :=
  let n := Ascii.nat_of_ascii c in
  if ((65 <=? n) && (n <=? 90))%nat then Ascii.ascii_of_nat (n + 32) else c.

Fixpoint lower (s : string) : string :=
  match s with
  | EmptyString => EmptyString
  | String c rest => String (lowerAscii c) (lower rest)
  end.

(** Express matches fixed text without regard to case, and a parameter
    against any non-empty segment. *)
Definition segmentMatches (seg : Segment) (s : string) : bool :=
  match seg with
  | Literal text => String.eqb (lower text) (lower s)
  | Param _ => negb (String.eqb s "")
  end.

Fixpoint pathMatches (pattern : list Segment) (path : list string) : bool :=
  match pattern, path with
  | [], [] => true
  | seg :: pattern, s :: path => segmentMatches seg s && pathMatches pattern path
  | _, _ => false
  end.

(** The first registered route whose method and path match takes the
    request; none of the handlers passes it on. *)
Definition dispatch (method : Method) (path : list string) : option Handler :=
  snd <$> List.find (fun r => bool_decide (fst (fst r) = method)
                              && pathMatches (snd (fst r)) path) routes.

(** A request path below the mount point: its non-empty segments. *)
Definition wellFormedPath (path : list string) : Prop :=
  Forall (fun s => s <> "") path.

End OrdersRouter.

(** ** Paging of list views (orders, products, search, admin lists) *)

Module Pagination.

(** [Math.ceil] *)
Definition Math_ceil (x : Q) : Z := Qceiling x.

Record Pagination := mkPagination {
  pg_current : Z;
  pg_total : Z;
  pg_hasNext : bool;
  pg_hasPrev : bool;
  pg_next : Z;
  pg_prev : Z
}.

(** [const skip = (page - 1) * limit] *)
Definition skipOf (page limit : Z) : Z := (page - 1) * limit.

(** [Math.ceil(total / limit)] *)
Definition totalPages (total limit : Z) : Z :=
  Math_ceil (inject_Z total / inject_Z limit).

Definition pagination (page limit total : Z) : Pagination :=
  {| pg_current := page;
     pg_total := totalPages total limit;
     pg_hasNext := page <? totalPages total limit;
     pg_hasPrev := 1 <? page;
     pg_next := page + 1;
     pg_prev := page - 1 |}.

(** [.skip(skip).limit(limit)] on the sorted result of a query. *)
Definition pageOf {A} (page limit : Z) (docs : list A) : list A :=
  take (Z.to_nat limit) (drop (Z.to_nat (skipOf page limit)) docs).

(** The pages 1 .. n, one after the other. *)
Fixpoint pagesUpTo {A} (n : nat) (limit : Z) (docs : list A) : list A :=
  match n with
  | O => []
  | S k => pagesUpTo k limit docs ++ pageOf (Z.of_nat (S k)) limit docs
  end.

End Pagination.

(** ** Payment-intent references *)

Module Reconciler.
Import Catalog Orders Store Webhook.

(** No order of the collection carries the reference. *)
Definition unreferenced (pid : string) (db : Db) : Prop :=
  map_Forall (fun _ order => stripePaymentIntentId (o_paymentInfo order) <> Some pid)
    (orders db).

(** At most the order [id] carries the reference. *)
Definition referencedOnlyBy (pid : string) (id : string) (db : Db) : Prop :=
  map_Forall (fun id' order =>
                stripePaymentIntentId (o_paymentInfo order) = Some pid -> id' = id)
    (orders db).

#[global] Instance unreferenced_dec pid db : Decision (unreferenced pid db).
Proof. unfold unreferenced. apply _. Defined.

#[global] Instance referencedOnlyBy_dec pid id db : Decision (referencedOnlyBy pid id db).
Proof. unfold referencedOnlyBy. apply _. Defined.

(** The handler an event is dispatched to. *)
Definition handle (now : Z) (event : Event) (db : Db) : Db :=
  match event with
  | CheckoutSessionCompleted session => handleCheckoutSessionCompleted now session db
  | PaymentIntentSucceeded paymentIntent =>
      handlePaymentIntentSucceeded now paymentIntent db
  | PaymentIntentFailed paymentIntent => handlePaymentIntentFailed paymentIntent db
  | Unhandled _ => db
  end.

(** The [(size, design)] keys of a product's variants, in order. *)
Definition variantKeys (p : Product) : list (string * string) :=
  map (fun v => (v_size v, v_design v)) (p_variants p).

End Reconciler.

(** ** What a validated line is made of *)

Module CartLines.
Import Catalog Orders Store Cart.

(** The product is stored and active, the variant exists with stock for
    the quantity, and the item carries the catalog's title, price and
    image and the request's quantity. *)
Definition lineFrom (db : Db) (line : CartLine) (it : OrderItem) : Prop :=
  exists product r i v,
    products db !! productId line = Some product
    /\ p_active product = true
    /\ variant line = Some r
    /\ findVariant r (p_variants product) = Some (i, v)
    /\ quantity line <= v_stock v
    /\ it = {| oi_product := productId line;
               oi_title := p_title product;
               oi_price := p_price product;
               oi_quantity := quantity line;
               oi_variant := r;
               oi_image := imageUrl (p_images product) |}.

End CartLines.

(** ** What an event may change *)

Module Frames.
Import Catalog Orders Store.

(** Two versions of a product that differ at most in stock counts. *)
Definition sameButStock (p p' : Product) : Prop :=
  p_title p' = p_title p /\ p_price p' = p_price p /\ p_active p' = p_active p
  /\ p_images p' = p_images p
  /\ map (fun v => (v_size v, v_design v)) (p_variants p')
     = map (fun v => (v_size v, v_design v)) (p_variants p).

(** Two versions of an order that differ at most in the payment record and
    the status. *)
Definition sameButPayment (o o' : Order) : Prop :=
  o_user o' = o_user o /\ o_orderNumber o' = o_orderNumber o
  /\ o_items o' = o_items o
  /\ o_subtotal o' = o_subtotal o /\ o_tax o' = o_tax o
  /\ o_shipping o' = o_shipping o /\ o_total o' = o_total o
  /\ o_shippingInfo o' = o_shippingInfo o
  /\ o_trackingNumber o' = o_trackingNumber o /\ o_notes o' = o_notes o
  /\ o_statusHistory o' = o_statusHistory o
  /\ pay_amount (o_paymentInfo o') = pay_amount (o_paymentInfo o)
  /\ stripeSessionId (o_paymentInfo o') = stripeSessionId (o_paymentInfo o).

(** The same keys, with related documents under each. *)
Definition related {A} (R : A -> A -> Prop) (m m' : gmap string A) : Prop :=
  forall k,
    match m !! k, m' !! k with
    | Some x, Some x' => R x x'
    | None, None => True
    | _, _ => False
    end.

End Frames.

(** ** The status strings *)

Module StatusNames.
Import Orders.
Local Open Scope string_scope.

(** The string a status is stored and sent as. *)
Definition statusName (s : OrderStatus) : string :=
  match s with
  | pending => "pending"
  | confirmed => "confirmed"
  | processing => "processing"
  | shipped => "shipped"
  | delivered => "delivered"
  | cancelled => "cancelled"
  end.

End StatusNames.

(** ** Requests for evaluation *)

Module RequestFixture.
Import Catalog Orders Store Cart Webhook Fixture CartFixture LedgerFixture.
Local Open Scope string_scope.

Definition alice : Checkout.User := Checkout.mkUser aliceId "alice@example.com".

Definition home : Checkout.ShippingInfo :=
  Checkout.mkShippingInfo "Alice" "555-0100" "1 Main St" "Springfield" "IL" "62701" "US".

Definition newOrderId : string := "64b7f0c2a1d3e4f5a6b7c8e9".

(** Stripe answering with a session id, and Stripe failing. *)
Definition stripeUp (params : Checkout.SessionParams) : option string := Some "cs_test_9".
Definition stripeDown (params : Checkout.SessionParams) : option string := None.

(** Two lines of 2 for a variant with 3 in stock. *)
Definition cartTwice : list CartLine :=
  [mkCartLine glitterId (Some (mkVariantRef "S" "Gold Glitter")) 2;
   mkCartLine glitterId (Some (mkVariantRef "S" "Gold Glitter")) 2].

(** 4 of a variant with 3 in stock. *)
Definition cartTooMany : list CartLine :=
  [mkCartLine glitterId (Some (mkVariantRef "S" "Gold Glitter")) 4].

(** 2 x 24.99 and 2 x 10.00, two different variants. *)
Definition cartMixed : list CartLine :=
  [mkCartLine frenchId (Some (mkVariantRef "M" "Classic French")) 2;
   mkCartLine glitterId (Some (mkVariantRef "S" "Gold Glitter")) 2].

Definition addGlitter : CartAdd.AddRequest :=
  CartAdd.mkAddRequest glitterId "S" "Gold Glitter" 2.

Definition checkGlitter : ProductRoutes.StockRequest :=
  ProductRoutes.mkStockRequest "S" "Gold Glitter" 2.

(** A catalog without any order. *)
Definition emptyLedger : Db := {| products := products db1; orders := ∅ |}.

Definition completedNine : Session := mkSession "cs_test_9" newOrderId (Some "pi_9").

Definition bob : OrderViews.User := OrderViews.mkUser "64b7f0c2a1d3e4f5a6b7c8f1" "user".

(** 25 documents, numbered from 1. *)
Definition numbered : list Z := map Z.of_nat (seq 1 25).

End RequestFixture.

(** * Properties *)

(** ** Catalog look-ups under a stock write *)

Module CatalogFacts.
Import Catalog.

Lemma variantIs_setStock r v s : variantIs r (setStock v s) <-> variantIs r v.
Proof. reflexivity. Qed.

Lemma variantIs_inj r r' v : variantIs r v -> variantIs r' v -> r' = r.
Proof.
  destruct r, r'. unfold variantIs. simpl. intros [-> ->] [-> ->]. reflexivity.
Qed.

(** Writing a new stock into the variant a reference resolves to changes
    what that reference reads and nothing any other reference reads. *)
Lemma findVariant_stock_write r r' vs i v s :
  findVariant r vs = Some (i, v) ->
  (fun iv : nat * Variant => v_stock (snd iv)) <$> findVariant r' (<[i := setStock v s]> vs)
  = if decide (r' = r) then Some s
    else (fun iv : nat * Variant => v_stock (snd iv)) <$> findVariant r' vs.
Proof.
  unfold findVariant. revert i.
  induction vs as [|a vs IH]; intros i Hf; [discriminate|].
  cbn in Hf. destruct (decide (variantIs r a)) as [Ha|Ha].
  - injection Hf as <- <-. cbn.
    destruct (decide (r' = r)) as [->|Hne].
    + rewrite decide_True by exact Ha. reflexivity.
    + rewrite !decide_False; [reflexivity| |].
      * intros Hr'. apply Hne. eapply variantIs_inj; eauto.
      * intros Hr'. apply Hne. eapply variantIs_inj; eauto.
  - destruct (list_find (variantIs r) vs) as [[j w]|] eqn:Hj; [|discriminate].
    cbn in Hf. injection Hf as <- <-. cbn.
    destruct (decide (variantIs r' a)) as [Ha'|Ha'].
    + cbn. rewrite decide_False; [reflexivity|]. intros ->. contradiction.
    + specialize (IH j eq_refl).
      destruct (decide (r' = r)).
      * destruct (list_find (variantIs r') (<[j:=setStock w s]> vs)) as [[? ?]|];
          cbn in *; congruence.
      * destruct (list_find (variantIs r') (<[j:=setStock w s]> vs)) as [[? ?]|],
          (list_find (variantIs r') vs) as [[? ?]|]; cbn in *; congruence.
Qed.

Lemma findVariant_elem r vs i v :
  findVariant r vs = Some (i, v) -> vs !! i = Some v.
Proof. unfold findVariant. intros H. apply list_find_Some in H. tauto. Qed.

End CatalogFacts.

(** ** The stock loop of the checkout-completed handler *)

Module WebhookFacts.
Import Catalog Orders Store Webhook CatalogFacts.

Lemma orders_decrementLine item db : orders (decrementLine item db) = orders db.
Proof.
  unfold decrementLine, Product_findById, Product_save.
  repeat case_match; reflexivity.
Qed.

Lemma orders_updateStock items db : orders (updateStock items db) = orders db.
Proof.
  revert db. induction items as [|item rest IH]; intros db; simpl; [reflexivity|].
  rewrite IH. apply orders_decrementLine.
Qed.

(** The loop reads and writes the product collection only. *)
Lemma products_decrementLine_ext item d1 d2 :
  products d1 = products d2 ->
  products (decrementLine item d1) = products (decrementLine item d2).
Proof.
  intros E. unfold decrementLine, Product_findById, Product_save. rewrite E.
  repeat case_match; simpl; congruence.
Qed.

Lemma products_updateStock_ext items d1 d2 :
  products d1 = products d2 ->
  products (updateStock items d1) = products (updateStock items d2).
Proof.
  revert d1 d2. induction items as [|item rest IH]; intros d1 d2 E; simpl; [exact E|].
  apply IH, products_decrementLine_ext, E.
Qed.

Lemma updateStock_app l1 l2 db :
  updateStock (l1 ++ l2) db = updateStock l2 (updateStock l1 db).
Proof. revert db. induction l1; intros; simpl; auto. Qed.

(** What one pass of the loop body does to the stock any reference reads. *)
Lemma stockOf_decrementLine item db pid r :
  stockOf (products (decrementLine item db)) pid r =
  match stockOf (products db) (oi_product item) (oi_variant item) with
  | Some s =>
      if decide (oi_quantity item <= s /\ targets pid r item)
      then Some (s - oi_quantity item)
      else stockOf (products db) pid r
  | None => stockOf (products db) pid r
  end.
Proof.
  unfold decrementLine, Product_findById, stockOf at 2.
  destruct (products db !! oi_product item) as [p|] eqn:Hp; [|reflexivity].
  destruct (findVariant (oi_variant item) (p_variants p)) as [[i v]|] eqn:Hv;
    [|reflexivity].
  cbn [fmap option_fmap option_map snd].
  destruct (decide (oi_quantity item <= v_stock v)) as [Hq|Hq].
  - unfold stockOf, Product_save, targets. cbn [products].
    destruct (decide (pid = oi_product item)) as [->|Hne].
    + rewrite lookup_insert_eq, Hp. cbn [p_variants setVariants].
      rewrite (findVariant_stock_write _ r _ _ _ _ Hv).
      destruct (decide (r = oi_variant item)) as [->|Hr].
      * rewrite decide_True by tauto. reflexivity.
      * rewrite decide_False; [reflexivity|]. intros [_ [_ E]]. congruence.
    + rewrite lookup_insert_ne by congruence.
      rewrite decide_False; [reflexivity|]. intros [_ [E _]]. congruence.
  - rewrite decide_False by tauto. reflexivity.
Qed.

Lemma decrementLine_skipped item db : skipped item db -> decrementLine item db = db.
Proof.
  unfold skipped, stockOf, decrementLine, Product_findById.
  destruct (products db !! oi_product item) as [p|]; [|reflexivity].
  destruct (findVariant (oi_variant item) (p_variants p)) as [[i v]|]; [|reflexivity].
  cbn. intros Hs. rewrite decide_False by lia. reflexivity.
Qed.

(** A pass that changes the database found the variant with enough stock. *)
Lemma decrementLine_applied item db :
  decrementLine item db <> db ->
  exists s, stockOf (products db) (oi_product item) (oi_variant item) = Some s
            /\ oi_quantity item <= s.
Proof.
  intros Hne.
  destruct (stockOf (products db) (oi_product item) (oi_variant item)) as [s|] eqn:Hs.
  - exists s. split; [reflexivity|].
    destruct (decide (oi_quantity item <= s)); [assumption|].
    exfalso. apply Hne, decrementLine_skipped. unfold skipped. rewrite Hs. lia.
  - exfalso. apply Hne, decrementLine_skipped. unfold skipped. rewrite Hs. exact I.
Qed.

Lemma stockNonneg_pointwise ps :
  stockNonneg ps <->
  forall pid p v, ps !! pid = Some p -> v ∈ p_variants p -> 0 <= v_stock v.
Proof.
  unfold stockNonneg. rewrite map_Forall_lookup. split.
  - intros H pid p v Hp Hv. specialize (H pid p Hp).
    rewrite Forall_forall in H. auto.
  - intros H pid p Hp. apply Forall_forall. eauto.
Qed.

Lemma stockNonneg_decrementLine item db :
  stockNonneg (products db) -> stockNonneg (products (decrementLine item db)).
Proof.
  rewrite !stockNonneg_pointwise.
  intros Hnn. unfold decrementLine, Product_findById.
  destruct (products db !! oi_product item) as [p|] eqn:Hp; [|exact Hnn].
  destruct (findVariant (oi_variant item) (p_variants p)) as [[i v]|] eqn:Hv;
    [|exact Hnn].
  destruct (decide (oi_quantity item <= v_stock v)) as [Hq|Hq]; [|exact Hnn].
  intros pid p' v' Hl Hin. cbn in Hl.
  destruct (decide (pid = oi_product item)) as [->|Hne].
  - rewrite lookup_insert_eq in Hl. injection Hl as <-. cbn in Hin.
    apply list_elem_of_lookup in Hin as [j Hj].
    apply list_lookup_insert_Some in Hj as [(-> & <- & _)|(_ & Hj)].
    + cbn. lia.
    + eapply Hnn; [exact Hp|]. apply list_elem_of_lookup. eauto.
  - rewrite lookup_insert_ne in Hl by congruence. eapply Hnn; eauto.
Qed.

Lemma stockNonneg_updateStock items db :
  stockNonneg (products db) -> stockNonneg (products (updateStock items db)).
Proof.
  revert db. induction items as [|item rest IH]; intros db Hnn; simpl; [exact Hnn|].
  apply IH, stockNonneg_decrementLine, Hnn.
Qed.

Lemma demand_nonneg pid r items :
  (forall it, it ∈ items -> 0 <= oi_quantity it) -> 0 <= demand pid r items.
Proof.
  induction items as [|item rest IH]; intros Hq; simpl; [lia|].
  assert (0 <= oi_quantity item) by (apply Hq; left).
  assert (0 <= demand pid r rest) by (apply IH; intros; apply Hq; right; assumption).
  case_decide; lia.
Qed.

Lemma demand_member pid r items it :
  (forall it, it ∈ items -> 0 <= oi_quantity it) ->
  it ∈ items -> targets pid r it -> oi_quantity it <= demand pid r items.
Proof.
  induction items as [|item rest IH]; intros Hq Hin Ht; [inversion Hin|].
  assert (0 <= demand pid r rest)
    by (apply demand_nonneg; intros; apply Hq; right; assumption).
  assert (0 <= oi_quantity item) by (apply Hq; left).
  simpl. apply elem_of_cons in Hin as [->|Hin].
  - rewrite decide_True by assumption. lia.
  - assert (oi_quantity it <= demand pid r rest)
      by (apply IH; auto; intros; apply Hq; right; assumption).
    case_decide; lia.
Qed.

(** When every line finds its variant holding at least what the whole
    list asks of it, the loop takes exactly the demand off every variant. *)
Lemma stockOf_updateStock items : forall db,
  (forall it, it ∈ items -> 0 <= oi_quantity it) ->
  (forall it, it ∈ items ->
     exists s, stockOf (products db) (oi_product it) (oi_variant it) = Some s
               /\ demand (oi_product it) (oi_variant it) items <= s) ->
  forall pid r,
    stockOf (products (updateStock items db)) pid r
    = (fun s => s - demand pid r items) <$> stockOf (products db) pid r.
Proof.
  induction items as [|item rest IH]; intros db Hq Hs pid r.
  - simpl. destruct (stockOf (products db) pid r); simpl; f_equal; lia.
  - simpl updateStock.
    destruct (Hs item (list_elem_of_here _ _)) as (s & Hitem & Hdem).
    assert (Hq0 : 0 <= oi_quantity item) by (apply Hq; left).
    assert (Hqr : forall it, it ∈ rest -> 0 <= oi_quantity it)
      by (intros; apply Hq; right; assumption).
    assert (Hself : targets (oi_product item) (oi_variant item) item)
      by (split; reflexivity).
    assert (Hrest : 0 <= demand (oi_product item) (oi_variant item) rest)
      by (apply demand_nonneg, Hqr).
    simpl in Hdem. rewrite decide_True in Hdem by exact Hself.
    rewrite IH; [| exact Hqr |].
    + rewrite stockOf_decrementLine, Hitem. simpl demand.
      destruct (decide (targets pid r item)) as [Ht|Ht].
      * rewrite decide_True by (split; [lia|exact Ht]).
        destruct Ht as [<- <-]. rewrite Hitem. simpl. f_equal. lia.
      * rewrite decide_False by tauto.
        destruct (stockOf (products db) pid r); simpl; f_equal; lia.
    + intros it Hin. rewrite stockOf_decrementLine, Hitem.
      destruct (Hs it (list_elem_of_further _ _ _ Hin)) as (s' & Hit & Hdem').
      simpl in Hdem'.
      destruct (decide (targets (oi_product it) (oi_variant it) item)) as [Ht|Ht].
      * rewrite decide_True by (split; [lia|exact Ht]).
        destruct Ht as [E1 E2]. rewrite <- E1, <- E2 in *.
        exists (s - oi_quantity item). split; [reflexivity|].
        rewrite Hitem in Hit. injection Hit as <-. lia.
      * rewrite decide_False by tauto. exists s'. split; [exact Hit|lia].
Qed.

End WebhookFacts.

(** ** Reconciliation of a completed checkout session *)

Module CheckoutCompleted.
Import Catalog Orders Store Webhook CatalogFacts WebhookFacts.

Lemma handler_found now session db order :
  Order_findById (s_metadata_orderId session) db = Some order ->
  handleCheckoutSessionCompleted now session db
  = updateStock (o_items order)
      (Order_save (s_metadata_orderId session) (paidOrder now session order) db).
Proof. unfold handleCheckoutSessionCompleted. intros ->. reflexivity. Qed.

Lemma handler_order now session db order :
  Order_findById (s_metadata_orderId session) db = Some order ->
  Order_findById (s_metadata_orderId session)
    (handleCheckoutSessionCompleted now session db)
  = Some (paidOrder now session order).
Proof.
  intros H. rewrite (handler_found _ _ _ _ H). unfold Order_findById.
  rewrite orders_updateStock. cbn. apply lookup_insert_eq.
Qed.

Lemma handler_products now session db order :
  Order_findById (s_metadata_orderId session) db = Some order ->
  products (handleCheckoutSessionCompleted now session db)
  = products (updateStock (o_items order) db).
Proof.
  intros H. rewrite (handler_found _ _ _ _ H).
  apply products_updateStock_ext. reflexivity.
Qed.

(** C2. Processing a "checkout session completed" event never drives a
    stock count below zero: stock that was non-negative stays so; a pass
    of the loop that changes anything found the variant with at least the
    line's quantity in stock and leaves the non-negative difference; a
    line whose product or variant is missing or whose stock is too low
    changes nothing, and the handler still confirms the order and
    processes the remaining lines as if that line were not there. *)
Theorem checkout_completed_guards_stock now session db order :
  Order_findById (s_metadata_orderId session) db = Some order ->
  let db' := handleCheckoutSessionCompleted now session db in
  (stockNonneg (products db) -> stockNonneg (products db'))
  /\ (forall item d,
        decrementLine item d <> d ->
        exists s,
          stockOf (products d) (oi_product item) (oi_variant item) = Some s
          /\ oi_quantity item <= s
          /\ stockOf (products (decrementLine item d)) (oi_product item) (oi_variant item)
             = Some (s - oi_quantity item)
          /\ 0 <= s - oi_quantity item)
  /\ (forall item d, skipped item d -> decrementLine item d = d)
  /\ (forall before item after,
        o_items order = before ++ item :: after ->
        skipped item (updateStock before db) ->
        products db' = products (updateStock (before ++ after) db)
        /\ exists o',
             Order_findById (s_metadata_orderId session) db' = Some o'
             /\ o_status o' = confirmed
             /\ pay_status (o_paymentInfo o') = pay_paid).
Proof.
  intros Hfind db'. subst db'.
  split; [|split; [|split]].
  - intros Hnn. rewrite (handler_products _ _ _ _ Hfind).
    apply stockNonneg_updateStock, Hnn.
  - intros item d Hne.
    destruct (decrementLine_applied _ _ Hne) as (s & Hs & Hq).
    exists s. repeat split; [exact Hs|exact Hq| |lia].
    rewrite stockOf_decrementLine, Hs.
    rewrite decide_True; [reflexivity|]. split; [exact Hq|split; reflexivity].
  - intros item d. apply decrementLine_skipped.
  - intros before item after Hitems Hskip. split.
    + rewrite (handler_products _ _ _ _ Hfind), Hitems.
      rewrite !updateStock_app. simpl.
      rewrite (decrementLine_skipped _ _ Hskip). reflexivity.
    + exists (paidOrder now session order). split; [|split; reflexivity].
      apply handler_order, Hfind.
Qed.

(** C1. When every line's variant exists and holds at least twice what the
    order asks of it, delivering the same "checkout session completed"
    event a second time leaves the payment status [paid] and the order
    status [confirmed] as the first delivery did, and takes the order's
    demand off every line's variant a second time.  Stock that covers the
    order once is not enough for that: the stock guard of the handler
    turns the second decrement away. *)
Theorem checkout_completed_redelivery now1 now2 session db order :
  Order_findById (s_metadata_orderId session) db = Some order ->
  Forall (fun it => 0 < oi_quantity it) (o_items order) ->
  Forall (covers 2 (o_items order) db) (o_items order) ->
  let once := handleCheckoutSessionCompleted now1 session db in
  let twice := handleCheckoutSessionCompleted now2 session once in
  (exists o1 o2,
      Order_findById (s_metadata_orderId session) once = Some o1
      /\ Order_findById (s_metadata_orderId session) twice = Some o2
      /\ pay_status (o_paymentInfo o1) = pay_paid /\ o_status o1 = confirmed
      /\ pay_status (o_paymentInfo o2) = pay_paid /\ o_status o2 = confirmed)
  /\ (forall it, it ∈ o_items order ->
        exists s d,
          d = demand (oi_product it) (oi_variant it) (o_items order)
          /\ 0 < d
          /\ stockOf (products db) (oi_product it) (oi_variant it) = Some s
          /\ stockOf (products once) (oi_product it) (oi_variant it) = Some (s - d)
          /\ stockOf (products twice) (oi_product it) (oi_variant it)
             = Some (s - d - d)).
Proof.
  intros Hfind Hpos Hcov once twice.
  rewrite Forall_forall in Hpos. rewrite Forall_forall in Hcov.
  assert (Hq : forall it, it ∈ o_items order -> 0 <= oi_quantity it)
    by (intros it Hin; specialize (Hpos it Hin); lia).
  assert (Hfind1 : Order_findById (s_metadata_orderId session) once
                   = Some (paidOrder now1 session order))
    by (apply handler_order, Hfind).
  assert (Hitems : o_items (paidOrder now1 session order) = o_items order)
    by reflexivity.
  assert (Hcover : forall it, it ∈ o_items order ->
            exists s, stockOf (products db) (oi_product it) (oi_variant it) = Some s
                      /\ 0 < demand (oi_product it) (oi_variant it) (o_items order)
                      /\ 2 * demand (oi_product it) (oi_variant it) (o_items order) <= s).
  { intros it Hin. specialize (Hcov it Hin). unfold covers in Hcov.
    destruct (stockOf (products db) (oi_product it) (oi_variant it)) as [s|];
      [|contradiction].
    exists s. split; [reflexivity|]. split; [|exact Hcov].
    pose proof (demand_member (oi_product it) (oi_variant it) _ it Hq Hin
                  (conj eq_refl eq_refl)).
    specialize (Hpos it Hin). lia. }
  assert (Honce : forall pid r,
            stockOf (products once) pid r
            = (fun s => s - demand pid r (o_items order)) <$> stockOf (products db) pid r).
  { intros pid r. unfold once. rewrite (handler_products _ _ _ _ Hfind).
    apply stockOf_updateStock; [exact Hq|].
    intros it Hin. destruct (Hcover it Hin) as (s & Hs & Hd & H2).
    exists s. split; [exact Hs|lia]. }
  assert (Htwice : forall pid r,
            stockOf (products twice) pid r
            = (fun s => s - demand pid r (o_items order)) <$> stockOf (products once) pid r).
  { intros pid r. unfold twice. rewrite (handler_products _ _ _ _ Hfind1), Hitems.
    apply stockOf_updateStock; [exact Hq|].
    intros it Hin. destruct (Hcover it Hin) as (s & Hs & Hd & H2).
    exists (s - demand (oi_product it) (oi_variant it) (o_items order)).
    split; [|lia]. rewrite Honce, Hs. reflexivity. }
  split.
  - exists (paidOrder now1 session order),
           (paidOrder now2 session (paidOrder now1 session order)).
    split; [exact Hfind1|]. split; [|repeat split].
    unfold twice. apply handler_order, Hfind1.
  - intros it Hin. destruct (Hcover it Hin) as (s & Hs & Hd & H2).
    exists s, (demand (oi_product it) (oi_variant it) (o_items order)).
    split; [reflexivity|]. split; [exact Hd|]. split; [exact Hs|].
    split.
    + rewrite Honce, Hs. reflexivity.
    + rewrite Htwice, Honce, Hs. reflexivity.
Qed.

End CheckoutCompleted.

Module CheckoutCompletedExamples.
Import Catalog Orders Store Webhook CheckoutCompleted Fixture LedgerFixture.

Lemma checkout_completed_guards_stock_witness :
  stockNonneg (products (handleCheckoutSessionCompleted 1000 session2 db2)).
Proof.
  refine (proj1 (checkout_completed_guards_stock 1000 session2 db2 mixedOrder _) _).
  - vm_compute. reflexivity.
  - apply (bool_decide_unpack _). vm_compute. exact I.
Defined.

Lemma checkout_completed_redelivery_witness :
  exists s d,
    d = demand frenchId (mkVariantRef "M" "Classic French") (o_items order1)
    /\ 0 < d
    /\ stockOf (products db1) frenchId (mkVariantRef "M" "Classic French") = Some s
    /\ stockOf (products (handleCheckoutSessionCompleted 1000 session1 db1))
         frenchId (mkVariantRef "M" "Classic French") = Some (s - d)
    /\ stockOf (products (handleCheckoutSessionCompleted 2000 session1
                            (handleCheckoutSessionCompleted 1000 session1 db1)))
         frenchId (mkVariantRef "M" "Classic French") = Some (s - d - d).
Proof.
  refine (proj2 (checkout_completed_redelivery 1000 2000 session1 db1 order1 _ _ _)
            frenchM _).
  - vm_compute. reflexivity.
  - apply (bool_decide_unpack _). vm_compute. exact I.
  - apply (bool_decide_unpack _). vm_compute. exact I.
  - apply list_elem_of_here.
Defined.

(** Stock 5, quantity 2: one delivery leaves 3, the redelivery leaves 1. *)
Example redelivery_5_2 :
  stockOf (products (handleCheckoutSessionCompleted 1000 session1 db1))
    frenchId (mkVariantRef "M" "Classic French") = Some 3
  /\ stockOf (products (handleCheckoutSessionCompleted 2000 session1
                          (handleCheckoutSessionCompleted 1000 session1 db1)))
       frenchId (mkVariantRef "M" "Classic French") = Some 1.
Proof. split; vm_compute; reflexivity. Qed.

(** The insufficient line (stock 1, quantity 3) is passed over; the lines
    before and after it are served. *)
Example mixed_order_lines :
  let db' := handleCheckoutSessionCompleted 1000 session2 db2 in
  stockOf (products db') frenchId (mkVariantRef "M" "Classic French") = Some 3
  /\ stockOf (products db') frenchId (mkVariantRef "L" "Classic French") = Some 1
  /\ stockOf (products db') glitterId (mkVariantRef "S" "Gold Glitter") = Some 1
  /\ o_status <$> Order_findById mixedOrderId db' = Some confirmed.
Proof. repeat split; vm_compute; reflexivity. Qed.

(** With stock for one delivery only, the guard turns the redelivery's
    decrement away: 3 - 2 = 1, and 1 does not cover 2. *)
Example redelivery_without_stock :
  let db' := handleCheckoutSessionCompleted 1000 session2 db2 in
  let db'' := handleCheckoutSessionCompleted 2000 session2 db' in
  stockOf (products db') glitterId (mkVariantRef "S" "Gold Glitter") = Some 1
  /\ stockOf (products db'') glitterId (mkVariantRef "S" "Gold Glitter") = Some 1.
Proof. split; vm_compute; reflexivity. Qed.

(** An order of one line, 2 of a variant with 3 in stock: the stock covers
    the order, both deliveries leave the order paid and confirmed, the
    first takes the stock from 3 to 1, and the second takes nothing. *)
Lemma redelivery_stock_spent :
  let once := handleCheckoutSessionCompleted 1000 session4 ledger in
  let twice := handleCheckoutSessionCompleted 2000 session4 once in
  let stock := fun db => stockOf (products db) glitterId (mkVariantRef "S" "Gold Glitter") in
  Order_findById (s_metadata_orderId session4) ledger = Some awaitingOrder
  /\ o_items awaitingOrder = [glitterS]
  /\ oi_quantity glitterS = 2
  /\ Forall (covers 1 (o_items awaitingOrder) ledger) (o_items awaitingOrder)
  /\ (pay_status <$> (o_paymentInfo <$> Order_findById awaitingOrderId once)) = Some pay_paid
  /\ (o_status <$> Order_findById awaitingOrderId once) = Some confirmed
  /\ (pay_status <$> (o_paymentInfo <$> Order_findById awaitingOrderId twice)) = Some pay_paid
  /\ (o_status <$> Order_findById awaitingOrderId twice) = Some confirmed
  /\ stock ledger = Some 3
  /\ stock once = Some 1
  /\ stock twice = Some 1
  /\ stock twice = stock once
  /\ stock twice <> Some (1 - 2).
Proof.
  cbv zeta.
  repeat match goal with |- _ /\ _ => split end;
    try (vm_compute; reflexivity).
  - apply (bool_decide_unpack _). vm_compute. exact I.
  - vm_compute. discriminate.
Qed.

End CheckoutCompletedExamples.

(** ** Rounding to cents *)

Module MoneyFacts.
Import Money.

Lemma Qfloor_shift (z : Z) (x : Q) : Qfloor (inject_Z z + x) = z + Qfloor x.
Proof.
  destruct x as [n d]. unfold Qfloor, Qplus, inject_Z. cbn [Qnum Qden].
  rewrite Z.mul_1_r, Pos.mul_1_l, Z.div_add_l by discriminate. reflexivity.
Qed.

#[global] Instance Math_round_proper : Proper (Qeq ==> eq) Math_round.
Proof. intros x y E. unfold Math_round. rewrite E. reflexivity. Qed.

#[global] Instance round2_proper : Proper (Qeq ==> Qeq) round2.
Proof. intros x y E. unfold round2. rewrite E. reflexivity. Qed.

Lemma Math_round_shift (z : Z) (x : Q) :
  Math_round (inject_Z z + x) = z + Math_round x.
Proof. unfold Math_round. rewrite <- Qplus_assoc. apply Qfloor_shift. Qed.

(** [Math_round x] is the integer within a half of [x], the upper one on a
    tie. *)
Lemma Math_round_spec (x : Q) :
  (x - (1 # 2) < inject_Z (Math_round x))%Q
  /\ (inject_Z (Math_round x) <= x + (1 # 2))%Q.
Proof.
  unfold Math_round. split; [|apply Qfloor_le].
  pose proof (Qlt_floor (x + (1 # 2))) as H.
  rewrite inject_Z_plus in H.
  apply (Qplus_lt_l _ _ (-(1))%Q) in H.
  eapply Qle_lt_trans; [|eapply Qlt_le_trans; [exact H|]].
  - assert (E : (x + (1 # 2) + - (1) == x - (1 # 2))%Q) by ring.
    rewrite E. apply Qle_refl.
  - assert (E : (inject_Z (Qfloor (x + (1 # 2))) + inject_Z 1 + - (1)
                 == inject_Z (Qfloor (x + (1 # 2))))%Q) by ring.
    rewrite E. apply Qle_refl.
Qed.

Lemma Math_round_Z (z : Z) : Math_round (inject_Z z) = z.
Proof.
  rewrite <- (Qplus_0_r (inject_Z z)), Math_round_shift.
  unfold Math_round. vm_compute Qfloor. lia.
Qed.

Lemma cents_100 (c : Z) : (cents c * 100 == inject_Z c)%Q.
Proof. unfold cents. field. Qed.

Lemma cents_add (a b : Z) : (cents a + cents b == cents (a + b))%Q.
Proof. unfold cents. rewrite inject_Z_plus. field. Qed.

(** Rounding to cents passes over a whole number of cents. *)
Lemma round2_shift (a : Z) (x : Q) : (round2 (cents a + x) == cents a + round2 x)%Q.
Proof.
  unfold round2.
  assert (E : ((cents a + x) * 100 == inject_Z a + x * 100)%Q)
    by (unfold cents; field).
  rewrite E, Math_round_shift, inject_Z_plus. unfold cents. field.
Qed.

Lemma round2_cents (a : Z) : (round2 (cents a) == cents a)%Q.
Proof.
  unfold round2. rewrite cents_100, Math_round_Z. reflexivity.
Qed.

Lemma round2_is_cents (x : Q) : round2 x = cents (Math_round (x * 100)).
Proof. reflexivity. Qed.

Lemma round2_idem (x : Q) : (round2 (round2 x) == round2 x)%Q.
Proof. rewrite (round2_is_cents x). apply round2_cents. Qed.

End MoneyFacts.

(** ** Cart validation *)

Module CartFacts.
Import Money MoneyFacts Catalog Orders Store Cart.

(** The loop appends to [validatedItems] and adds each new line's price
    times quantity to [subtotal]. *)
Lemma validateLoop_inr db items : forall acc sub vis s,
  validateLoop db items acc sub = inr (vis, s) ->
  exists new,
    vis = acc ++ new
    /\ s = fold_left (fun a it => (a + oi_price it * inject_Z (oi_quantity it))%Q) new sub.
Proof.
  induction items as [|item rest IH]; intros acc sub vis s H; simpl in H.
  - injection H as <- <-. exists []. rewrite app_nil_r. split; reflexivity.
  - destruct (Product_findById (productId item) db) as [product|]; [|discriminate].
    destruct (negb (p_active product)); [discriminate|].
    destruct (variant item) as [r|]; [|destruct (p_variants product); discriminate].
    destruct (findVariant r (p_variants product)) as [[i v]|]; [|discriminate].
    destruct (v_stock v <? quantity item); [discriminate|].
    apply IH in H as (new & -> & ->).
    eexists (_ :: new). rewrite <- app_assoc. split; reflexivity.
Qed.

Lemma validate_inv isMongoId items db st vis sub tax ship tot db' :
  validate isMongoId items db = (mkResponse st (Validated vis sub tax ship tot), db') ->
  st = 200 /\ db' = db
  /\ sub = round2 (lineSum vis)
  /\ tax = round2 (lineSum vis * (8 # 100))
  /\ ship = round2 (shippingFor (lineSum vis))
  /\ tot = round2 (lineSum vis + lineSum vis * (8 # 100) + shippingFor (lineSum vis)).
Proof.
  unfold validate. destruct (negb (wellFormed isMongoId items)); [discriminate|].
  destruct (validateLoop db items [] 0%Q) as [response|[vis' s]] eqn:Hloop.
  - intros H. injection H as -> <-.
    exfalso. clear -Hloop. revert Hloop. generalize (@nil OrderItem), 0%Q.
    induction items as [|item rest IH]; intros acc0 sub0 H; simpl in H; [discriminate|].
    destruct (Product_findById (productId item) db) as [product|]; [|discriminate].
    destruct (negb (p_active product)); [discriminate|].
    destruct (variant item) as [r|]; [|destruct (p_variants product); discriminate].
    destruct (findVariant r (p_variants product)) as [[i v]|]; [|discriminate].
    destruct (v_stock v <? quantity item); [discriminate|].
    eapply IH, H.
  - apply validateLoop_inr in Hloop as (new & -> & ->). simpl.
    intros H. injection H as <- <- <- <- <- <- <-.
    repeat split; reflexivity.
Qed.

Lemma fold_wholeCents items : forall acc,
  wholeCents acc ->
  Forall (fun it => wholeCents (oi_price it)) items ->
  wholeCents
    (fold_left (fun a it => (a + oi_price it * inject_Z (oi_quantity it))%Q) items acc).
Proof.
  induction items as [|it rest IH]; intros acc Hacc Hall; simpl; [exact Hacc|].
  inversion Hall as [|? ? [c Hc] Hrest]; subst.
  destruct Hacc as [a Ha]. apply IH; [|exact Hrest].
  exists (a + c * oi_quantity it). rewrite Ha, Hc. unfold cents.
  rewrite inject_Z_plus, inject_Z_mult. field.
Qed.

Lemma lineSum_wholeCents items :
  Forall (fun it => wholeCents (oi_price it)) items -> wholeCents (lineSum items).
Proof.
  intros H. apply fold_wholeCents; [|exact H]. exists 0. reflexivity.
Qed.

Lemma shippingFor_cases subtotal :
  (Qle_bool 50 subtotal = true /\ shippingFor subtotal = 0%Q)
  \/ (Qle_bool 50 subtotal = false /\ shippingFor subtotal = (999 # 100)%Q).
Proof. unfold shippingFor. destruct (Qle_bool 50 subtotal); auto. Qed.

(** C7. Cart validation leaves the database, and with it every variant's
    stock, as it found it, whether it succeeds or fails. *)
Theorem validate_read_only isMongoId items db :
  snd (validate isMongoId items db) = db
  /\ forall pid r,
       stockOf (products (snd (validate isMongoId items db))) pid r
       = stockOf (products db) pid r.
Proof.
  assert (E : snd (validate isMongoId items db) = db).
  { unfold validate. destruct (negb (wellFormed isMongoId items)); [reflexivity|].
    destruct (validateLoop db items [] 0%Q) as [response|[vis s]]; reflexivity. }
  split; [exact E|]. intros pid r. rewrite E. reflexivity.
Qed.

End CartFacts.

Module CartExamples.
Import Money Catalog Orders Store Cart CartFacts Fixture CartFixture.

(** 2 x 10.00: subtotal 20.00, tax 1.60, shipping 9.99, total 31.59. *)
Example validate_glitter :
  fst (validate hex24 cartGlitter catalog)
  = mkResponse 200
      (Validated [glitterS] (2000 # 100) (160 # 100) (999 # 100) (3159 # 100)).
Proof. vm_compute. reflexivity. Qed.

(** 2 x 30.00: subtotal 60.00, tax 4.80, shipping 0.00, total 64.80. *)
Example validate_studio :
  exists vis,
    fst (validate hex24 cartStudio catalog)
    = mkResponse 200 (Validated vis (6000 # 100) (480 # 100) (0 # 100) (6480 # 100)).
Proof. eexists. vm_compute. reflexivity. Qed.

Example validate_empty :
  validate hex24 [] catalog = (mkResponse 400 ValidationFailed, catalog).
Proof. reflexivity. Qed.

Example validate_too_many :
  fst (validate hex24
         [mkCartLine glitterId (Some (mkVariantRef "S" "Gold Glitter")) 4] catalog)
  = mkResponse 400 (InsufficientStock 3 "Gold Glitter" "S" "Gold Glitter").
Proof. vm_compute. reflexivity. Qed.

End CartExamples.

(** ** The amounts of a validated cart *)

Module AmountFacts.
Import Arithmetic Rationals Doubles Catalog Orders Store CartAmounts.

Section Route.

Variable N : Number.
Variable priceIn : Q -> num N.

(** The loop appends to [validatedItems] and adds each new line's price
    times quantity to [subtotal]. *)
Lemma validateLoop_lines_in db items : forall acc sub vis s,
  validateLoop N priceIn db items acc sub = inr (vis, s) ->
  exists new,
    vis = acc ++ new
    /\ s = fold_left (fun subtotal line =>
                        plus N subtotal (times N (fst line) (ofInteger N (snd line))))
                     (linesOf N priceIn new) sub.
Proof.
  induction items as [|item rest IH]; intros acc sub vis s H; simpl in H.
  - injection H as <- <-. exists []. rewrite app_nil_r. split; reflexivity.
  - destruct (Product_findById (Cart.productId item) db) as [product|]; [|discriminate].
    destruct (negb (p_active product)); [discriminate|].
    destruct (Cart.variant item) as [r|]; [|destruct (p_variants product); discriminate].
    destruct (findVariant r (p_variants product)) as [[i v]|]; [|discriminate].
    destruct (v_stock v <? Cart.quantity item); [discriminate|].
    apply IH in H as (new & -> & ->).
    eexists (_ :: new). rewrite <- app_assoc. split; reflexivity.
Qed.

(** A validated cart leaves the database alone, and its figures are the
    amounts of its accepted lines. *)
Lemma validate_figures isMongoId items db v db' :
  validate N priceIn isMongoId items db = (inr v, db') ->
  db' = db /\ v_figures v = amounts N (linesOf N priceIn (v_items v)).
Proof.
  unfold validate. destruct (negb (Cart.wellFormed isMongoId items)); [discriminate|].
  destruct (validateLoop N priceIn db items [] (ofInteger N 0)) as [response|[vis s]] eqn:Hloop;
    [discriminate|].
  apply validateLoop_lines_in in Hloop as (new & -> & ->).
  intros H. injection H as <- <-. split; reflexivity.
Qed.

End Route.

(** Read in the rationals, with the price of the document as it is, the
    loop is the loop of [Cart]. *)
Lemma validateLoop_exact db items : forall acc sub,
  validateLoop exact (fun price => price) db items acc sub
  = Cart.validateLoop db items acc sub.
Proof.
  induction items as [|item rest IH]; intros acc sub; simpl; [reflexivity|].
  destruct (Product_findById (Cart.productId item) db) as [product|]; [|reflexivity].
  destruct (negb (p_active product)); [reflexivity|].
  destruct (Cart.variant item) as [r|]; [|reflexivity].
  destruct (findVariant r (p_variants product)) as [[i v]|]; [|reflexivity].
  destruct (v_stock v <? Cart.quantity item); [reflexivity|].
  apply IH.
Qed.

(** And the route is the route of [Cart]: the same refusals, and the same
    items and figures when the cart validates. *)
Lemma validate_exact isMongoId items db :
  validate exact (fun price => price) isMongoId items db
  = match Cart.validate isMongoId items db with
    | (Cart.mkResponse _ (Cart.Validated vis sub tx ship tot), db') =>
        (inr (mkValidated vis (mkAmounts (N := exact) sub tx ship tot)), db')
    | (response, db') => (inl response, db')
    end.
Proof.
  unfold validate, Cart.validate.
  destruct (negb (Cart.wellFormed isMongoId items)); [reflexivity|].
  rewrite validateLoop_exact. change (ofInteger exact 0) with 0%Q.
  destruct (Cart.validateLoop db items [] 0%Q) as [[st body]|[vis s]] eqn:Hloop;
    [|reflexivity].
  destruct body; try reflexivity.
  exfalso. clear -Hloop. revert Hloop. generalize (@nil OrderItem), 0%Q.
  induction items as [|item rest IH]; intros acc0 sub0 H; simpl in H; [discriminate|].
  destruct (Product_findById (Cart.productId item) db) as [product|]; [|discriminate].
  destruct (negb (p_active product)); [discriminate|].
  destruct (Cart.variant item) as [r|]; [|destruct (p_variants product); discriminate].
  destruct (findVariant r (p_variants product)) as [[i v]|]; [|discriminate].
  destruct (v_stock v <? Cart.quantity item); [discriminate|].
  eapply IH, H.
Qed.

Lemma round2_no_shipping : round2 binary64 0%float = 0%float.
Proof. vm_compute. reflexivity. Qed.

Lemma round2_shipping_fee : round2 binary64 9.99%float = 9.99%float.
Proof. vm_compute. reflexivity. Qed.

(** Two doubles that a test tells apart are different. *)
Lemma told_apart (test : float -> bool) (x y : float) : test x <> test y -> x <> y.
Proof. intros H E. apply H. rewrite E. reflexivity. Qed.


(** C9. For every cart that validates, the returned shipping charge is 0
    when the running subtotal of the route, the binary64 sum of unit price
    times quantity over the accepted lines before any rounding to cents,
    is at least 50, and 9.99 otherwise; the subtotal that is returned is
    that sum rounded to cents. *)
Theorem shipping_by_running_subtotal isMongoId items db vis sub tx ship tot db' :
  validate binary64 doubleOf isMongoId items db
  = (inr (mkValidated vis (mkAmounts (N := binary64) sub tx ship tot)), db') ->
  let running := subtotalOf binary64 (linesOf binary64 doubleOf vis) in
  ((50 <=? running)%float = true -> ship = 0%float)
  /\ ((50 <=? running)%float = false -> ship = 9.99%float)
  /\ sub = round2 binary64 running.
Proof.
  intros H running.
  apply validate_figures in H as [_ H]. cbn [v_figures v_items] in H.
  unfold amounts in H. injection H as -> _ -> _. fold running.
  unfold shippingOf.
  change (atLeast binary64 running (ofInteger binary64 50))
    with (50 <=? running)%float.
  split; [|split; [|reflexivity]]; intros ->.
  - apply round2_no_shipping.
  - apply round2_shipping_fee.
Qed.

End AmountFacts.

Module AmountExamples.
Import Arithmetic Rationals Doubles Catalog Orders Store CartAmounts AmountFacts.
Import Fixture CartFixture AmountFixture.

(** The price of the document and the double the program holds. *)
Example doubleOf_prices :
  doubleOf (100047 # 10000) = 10.0047%float
  /\ doubleOf (515 # 100) = 5.15%float
  /\ doubleOf (1495 # 100) = 14.95%float
  /\ doubleOf 10 = 10%float.
Proof. repeat split; vm_compute; reflexivity. Qed.

(** 2 x 10.00: subtotal 20.00, tax 1.60, shipping 9.99, total 31.59. *)
Example validate_glitter_binary64 :
  fst (validate binary64 doubleOf hex24 cartGlitter catalog)
  = inr (mkValidated [glitterS]
           (mkAmounts (N := binary64) 20%float 1.6%float 9.99%float 31.59%float)).
Proof. vm_compute. reflexivity. Qed.

(** 2 x 30.00: subtotal 60.00, tax 4.80, shipping 0.00, total 64.80. *)
Example validate_studio_binary64 :
  v_figures <$> (match fst (validate binary64 doubleOf hex24 cartStudio catalog) with
                 | inr v => Some v
                 | inl _ => None
                 end)
  = Some (mkAmounts (N := binary64) 60%float 4.8%float 0%float 64.8%float).
Proof. vm_compute. reflexivity. Qed.

(** 7.375 is a double, 737.5 rounds up: subtotal 7.38.  The total, 17.955
    in decimal, is the double just under it: 17.95. *)
Example amounts_half_cent :
  amounts binary64 halfCentLines
  = mkAmounts (N := binary64) 7.38%float 0.59%float 9.99%float 17.95%float.
Proof. vm_compute. reflexivity. Qed.

(** 1.005 is the double just under it: subtotal 1.00. *)
Example amounts_just_under :
  subtotal (amounts binary64 justUnderLines) = 1%float.
Proof. vm_compute. reflexivity. Qed.

(** A line of 49.996 comes back with subtotal 50.00 and shipping 9.99. *)
Example amounts_near_fifty :
  subtotal (amounts binary64 nearFiftyLines) = 50%float
  /\ shipping (amounts binary64 nearFiftyLines) = 9.99%float.
Proof. split; vm_compute; reflexivity. Qed.


(** 2 x 30.00: the running subtotal is at least 50, and the route returns
    a shipping charge of 0. *)
Lemma shipping_by_running_subtotal_witness :
  (50 <=? subtotalOf binary64
            (linesOf binary64 doubleOf
               [mkOrderItem studioId "Matte Black" 30 2
                  (mkVariantRef "M" "Matte Black") None]))%float = true
  /\ match fst (validate binary64 doubleOf hex24 cartStudio catalog) with
     | inr v => shipping (v_figures v) = 0%float
     | inl _ => False
     end.
Proof.
  split; [vm_compute; reflexivity|]. vm_compute.
  refine (proj1 (shipping_by_running_subtotal hex24 cartStudio catalog
                   [mkOrderItem studioId "Matte Black" 30 2
                      (mkVariantRef "M" "Matte Black") None]
                   60%float 4.8%float 0%float 64.8%float catalog _) _).
  - vm_compute. reflexivity.
  - vm_compute. reflexivity.
Defined.


(** 5.15 and three times 14.95 are 50.00, in the rationals and to the cent
    in the response; the running sum in binary64 is 49.99999999999999, and
    the shipping charge is 9.99, not 0. *)
Lemma fifty_pays_shipping :
  exists vis sub tx ship tot,
    validate binary64 doubleOf hex24 cartFifty salon
    = (inr (mkValidated vis (mkAmounts (N := binary64) sub tx ship tot)), salon)
    /\ (Cart.lineSum vis == 50)%Q
    /\ subtotalOf binary64 (linesOf binary64 doubleOf vis) = 49.99999999999999%float
    /\ sub = 50%float
    /\ ship = 9.99%float
    /\ tot = 63.99%float
    /\ ship <> 0%float.
Proof.
  do 5 eexists. split; [vm_compute; reflexivity|].
  repeat match goal with |- _ /\ _ => split end;
    try (vm_compute; reflexivity).
  apply (told_apart (fun x => (x <? 5)%float)). vm_compute. discriminate.
Qed.

End AmountExamples.

(** ** The webhook endpoint and the payment-intent handlers *)

Module ReconcilerFacts.
Import Catalog Orders Store Webhook WebhookFacts.

(** The order [findOne] returns is a document of the collection and carries
    the reference that was asked for. *)
Lemma findOneByPaymentIntent_Some pid db id order :
  Order_findOneByPaymentIntent pid db = Some (id, order) ->
  Order_findById id db = Some order
  /\ stripePaymentIntentId (o_paymentInfo order) = Some pid.
Proof.
  unfold Order_findOneByPaymentIntent, Order_findById. intros H.
  destruct (list_find _ (map_to_list (orders db))) as [[i [k o]]|] eqn:Hf;
    [|discriminate].
  cbn in H. injection H as -> ->.
  apply list_find_Some in Hf as (Hi & Hp & _).
  split; [|exact Hp].
  apply elem_of_map_to_list, list_elem_of_lookup. eauto.
Qed.

(** C4. When the signature of a webhook request does not verify, the
    endpoint answers 400 with the verification error and the database, with
    every order and every stock count, is the one it was called on. *)
Theorem invalid_signature_rejected
    (constructEvent : string -> option string -> string -> string + Event)
    (webhookSecret : string) (now : Z) (body : string) (sig : option string)
    (db : Db) (message : string) :
  constructEvent body sig webhookSecret = inl message ->
  let result := stripeWebhook constructEvent webhookSecret now body sig db in
  res_status (fst result) = 400
  /\ res_body (fst result) = WebhookError ("Webhook Error: " ++ message)
  /\ snd result = db
  /\ orders (snd result) = orders db
  /\ products (snd result) = products db.
Proof.
  intros H result. subst result. unfold stripeWebhook. rewrite H.
  repeat split; reflexivity.
Qed.

(** C5. For an order found by its payment-intent reference, a "payment
    intent succeeded" event sets the payment status to [paid] and the paid
    timestamp to the time of handling; the order status becomes [confirmed]
    when it was [pending] and is kept otherwise, so it changes exactly when
    it was [pending]. *)
Theorem payment_intent_succeeded now paymentIntent db id order :
  Order_findOneByPaymentIntent (pi_id paymentIntent) db = Some (id, order) ->
  let db' := handlePaymentIntentSucceeded now paymentIntent db in
  Order_findById id db = Some order
  /\ exists order',
       Order_findById id db' = Some order'
       /\ pay_status (o_paymentInfo order') = pay_paid
       /\ paidAt (o_paymentInfo order') = Some now
       /\ (o_status order = pending -> o_status order' = confirmed)
       /\ (o_status order <> pending -> o_status order' = o_status order)
       /\ (o_status order' <> o_status order <-> o_status order = pending).
Proof.
  intros H db'. subst db'.
  split; [apply (findOneByPaymentIntent_Some _ _ _ _ H)|].
  unfold handlePaymentIntentSucceeded. rewrite H.
  eexists. split; [apply lookup_insert_eq|].
  cbn [setPaymentInfo o_status].
  destruct (decide (o_status order = pending)) as [E|E]; cbn.
  - rewrite E. repeat split; try reflexivity; try congruence.
  - repeat split; try reflexivity; tauto.
Qed.

(** The failed-payment handler, for comparison: it cancels whatever the
    status was. *)
Lemma payment_intent_failed paymentIntent db id order :
  Order_findOneByPaymentIntent (pi_id paymentIntent) db = Some (id, order) ->
  exists order',
    Order_findById id (handlePaymentIntentFailed paymentIntent db) = Some order'
    /\ pay_status (o_paymentInfo order') = pay_failed
    /\ o_status order' = cancelled.
Proof.
  intros H. unfold handlePaymentIntentFailed. rewrite H.
  eexists. split; [apply lookup_insert_eq|]. split; reflexivity.
Qed.

End ReconcilerFacts.

(** ** Order routes *)

Module OrderRoutesFacts.
Import Catalog Orders Store Webhook WebhookFacts OrderRoutes.

Lemma findOneByIdAndUser_owned uid id db order :
  Order_findById id db = Some order -> o_user order = uid ->
  Order_findOneByIdAndUser id uid db = Some order.
Proof.
  unfold Order_findById, Order_findOneByIdAndUser. intros -> E.
  rewrite decide_True by exact E. reflexivity.
Qed.

Lemma cancellable_cases (st : OrderStatus) :
  ((st = pending \/ st = confirmed)
   /\ negb (bool_decide (st = pending) || bool_decide (st = confirmed)) = false)
  \/ (st ∈ [processing; shipped; delivered; cancelled]
      /\ negb (bool_decide (st = pending) || bool_decide (st = confirmed)) = true).
Proof.
  destruct st; [left|left|right|right|right|right];
    (split; [|vm_compute; reflexivity]); auto; set_solver.
Qed.

(** C6. For an order of the requesting user, cancellation succeeds exactly
    when the status is [pending] or [confirmed], and then the stored status
    is [cancelled]; in every other status the route answers 400 "Order
    cannot be cancelled at this stage" and the database is unchanged. *)
Theorem cancel_only_early uid id db order :
  Order_findById id db = Some order ->
  o_user order = uid ->
  let result := cancelOrder uid id db in
  (res_status (fst result) = 200
   <-> o_status order = pending \/ o_status order = confirmed)
  /\ (o_status order = pending \/ o_status order = confirmed ->
      fst result = mkResponse 200 (OrderCancelled id (o_orderNumber order) cancelled)
      /\ o_status <$> Order_findById id (snd result) = Some cancelled)
  /\ (o_status order ∈ [processing; shipped; delivered; cancelled] ->
      result = (mkResponse 400 (Message "Order cannot be cancelled at this stage"), db)).
Proof.
  intros Hfind Huser result. subst result. unfold cancelOrder.
  rewrite (findOneByIdAndUser_owned _ _ _ _ Hfind Huser).
  destruct (cancellable_cases (o_status order)) as [[Hst ->]|[Hst ->]]; cbn [fst snd].
  - split; [tauto|]. split.
    + intros _. split; [reflexivity|].
      unfold Order_findById, Order_save. cbn [orders].
      rewrite lookup_insert_eq. reflexivity.
    + intros Hin. exfalso. revert Hin.
      rewrite !elem_of_cons, elem_of_nil.
      destruct Hst as [-> | ->]; intuition discriminate.
  - revert Hst. rewrite !elem_of_cons, elem_of_nil. intros Hst.
    split; [split; [discriminate|]|split]; [| |reflexivity].
    + intros [E|E]; rewrite E in Hst; exfalso; intuition discriminate.
    + intros [E|E]; rewrite E in Hst; exfalso; intuition discriminate.
Qed.

(** C10. Cancelling a [pending] or [confirmed] order writes the status and
    nothing else: the payment record, the line items, the four amounts and
    every other field of the order are as before, as are all other orders
    and the whole product collection, whatever the payment status was. *)
Theorem cancel_frame uid id db order :
  Order_findById id db = Some order ->
  o_user order = uid ->
  o_status order = pending \/ o_status order = confirmed ->
  let db' := snd (cancelOrder uid id db) in
  (exists order',
      Order_findById id db' = Some order'
      /\ order' = setStatus order cancelled
      /\ o_status order' = cancelled
      /\ o_paymentInfo order' = o_paymentInfo order
      /\ o_items order' = o_items order
      /\ o_subtotal order' = o_subtotal order /\ o_tax order' = o_tax order
      /\ o_shipping order' = o_shipping order /\ o_total order' = o_total order
      /\ o_statusHistory order' = o_statusHistory order)
  /\ (forall id', id' <> id -> Order_findById id' db' = Order_findById id' db)
  /\ products db' = products db
  /\ forall pid r, stockOf (products db') pid r = stockOf (products db) pid r.
Proof.
  intros Hfind Huser Hst db'. subst db'. unfold cancelOrder.
  rewrite (findOneByIdAndUser_owned _ _ _ _ Hfind Huser).
  assert (Hb : negb (bool_decide (o_status order = pending)
                     || bool_decide (o_status order = confirmed)) = false).
  { destruct Hst as [-> | ->]; vm_compute; reflexivity. }
  rewrite Hb. cbn [snd]. unfold Order_findById, Order_save. cbn [orders products].
  split; [|split; [|split]].
  - exists (setStatus order cancelled). rewrite lookup_insert_eq.
    repeat split; reflexivity.
  - intros id' Hne. apply lookup_insert_ne. congruence.
  - reflexivity.
  - reflexivity.
Qed.

(** No webhook handler touches the status history. *)
Lemma history_after_event event now db id order :
  Order_findById id db = Some order ->
  let db' :=
    match event with
    | CheckoutSessionCompleted session => handleCheckoutSessionCompleted now session db
    | PaymentIntentSucceeded paymentIntent =>
        handlePaymentIntentSucceeded now paymentIntent db
    | PaymentIntentFailed paymentIntent => handlePaymentIntentFailed paymentIntent db
    | Unhandled _ => db
    end in
  o_statusHistory <$> Order_findById id db' = Some (o_statusHistory order).
Proof.
  intros Hfind db'. subst db'. unfold Order_findById in *.
  destruct event as [session|paymentIntent|paymentIntent|type].
  - unfold handleCheckoutSessionCompleted, Order_findById.
    destruct (orders db !! s_metadata_orderId session) as [o|] eqn:Ho.
    + rewrite orders_updateStock. cbn.
      destruct (decide (s_metadata_orderId session = id)) as [E|E].
      * rewrite E, lookup_insert_eq. cbn. rewrite E in Ho. congruence.
      * rewrite lookup_insert_ne, Hfind by exact E. reflexivity.
    + rewrite Hfind. reflexivity.
  - unfold handlePaymentIntentSucceeded.
    destruct (Order_findOneByPaymentIntent (pi_id paymentIntent) db) as [[k o]|] eqn:Ho.
    + apply ReconcilerFacts.findOneByPaymentIntent_Some in Ho as [Ho _].
      unfold Order_findById in Ho. cbn.
      destruct (decide (k = id)) as [E|E].
      * rewrite E, lookup_insert_eq. rewrite E in Ho.
        case_decide; cbn; congruence.
      * rewrite lookup_insert_ne, Hfind by exact E. reflexivity.
    + rewrite Hfind. reflexivity.
  - unfold handlePaymentIntentFailed.
    destruct (Order_findOneByPaymentIntent (pi_id paymentIntent) db) as [[k o]|] eqn:Ho.
    + apply ReconcilerFacts.findOneByPaymentIntent_Some in Ho as [Ho _].
      unfold Order_findById in Ho. cbn.
      destruct (decide (k = id)) as [E|E].
      * rewrite E, lookup_insert_eq. rewrite E in Ho. cbn. congruence.
      * rewrite lookup_insert_ne, Hfind by exact E. reflexivity.
    + rewrite Hfind. reflexivity.
  - rewrite Hfind. reflexivity.
Qed.

(** The route's own assignments do not reach the status history. *)
Lemma applyStatusUpdate_history status req order :
  o_statusHistory (applyStatusUpdate status req order) = o_statusHistory order
  /\ o_status (applyStatusUpdate status req order) = status.
Proof.
  unfold applyStatusUpdate.
  destruct (given (su_trackingNumber req)), (given (su_notes req)); split; reflexivity.
Qed.

(** A note the validation chain accepts is appended, with the order's
    current status and the time, and nothing else is written. *)
Lemma adminAddNote_accepted charCount now id note db order :
  Order_findById id db = Some order ->
  (1 <= charCount note <= 500)%nat ->
  adminAddNote charCount now id note db
  = (mkResponse 200 (NoteAdded (mkHistoryEntry (o_status order) now (Some note))),
     Order_save id
       (setStatusHistory order
          (o_statusHistory order ++ [mkHistoryEntry (o_status order) now (Some note)]))
       db).
Proof.
  intros Hfind [H1 H2]. unfold adminAddNote.
  apply Nat.leb_le in H1. apply Nat.leb_le in H2.
  rewrite H1, H2, Hfind. reflexivity.
Qed.

Lemma adminAddNote_refused charCount now id note db :
  ~ (1 <= charCount note <= 500)%nat ->
  adminAddNote charCount now id note db = (mkResponse 400 ValidationFailed, db).
Proof.
  intros Hn. unfold adminAddNote.
  destruct ((1 <=? charCount note)%nat && (charCount note <=? 500)%nat) eqn:Hlen;
    [|reflexivity].
  exfalso. apply Hn. apply andb_prop in Hlen as [H1 H2].
  apply Nat.leb_le in H1. apply Nat.leb_le in H2. lia.
Qed.


End OrderRoutesFacts.

Module LedgerExamples.
Import Catalog Orders Store Webhook OrderRoutes.
Import ReconcilerFacts OrderRoutesFacts Fixture LedgerFixture.

Lemma invalid_signature_rejected_witness :
  Webhook.res_status
    (fst (stripeWebhook toyConstructEvent "whsec_test" 1000 "{}" (Some "forged") db1))
  = 400.
Proof.
  refine (proj1 (invalid_signature_rejected toyConstructEvent "whsec_test" 1000 "{}"
                   (Some "forged") db1
                   "No signatures found matching the expected signature for payload."
                   _)).
  vm_compute. reflexivity.
Defined.

(** The same request with the right header is handled. *)
Example valid_signature_handled :
  let result :=
    stripeWebhook toyConstructEvent "whsec_test" 1000 "{}" (Some "whsec_test{}") db1 in
  fst result = Webhook.mkResponse 200 Received
  /\ stockOf (products (snd result)) frenchId (mkVariantRef "M" "Classic French")
     = Some 3.
Proof. split; vm_compute; reflexivity. Qed.

Lemma payment_intent_succeeded_witness :
  exists order',
    Order_findById awaitingOrderId
      (handlePaymentIntentSucceeded 2000 (mkPaymentIntent "pi_4") ledger) = Some order'
    /\ pay_status (o_paymentInfo order') = pay_paid
    /\ paidAt (o_paymentInfo order') = Some 2000
    /\ (o_status awaitingOrder = pending -> o_status order' = confirmed)
    /\ (o_status awaitingOrder <> pending -> o_status order' = o_status awaitingOrder)
    /\ (o_status order' <> o_status awaitingOrder <-> o_status awaitingOrder = pending).
Proof.
  refine (proj2 (payment_intent_succeeded 2000 (mkPaymentIntent "pi_4") ledger
                   awaitingOrderId awaitingOrder _)).
  vm_compute. reflexivity.
Defined.

(** A shipped order stays shipped when its payment intent succeeds again. *)
Example payment_intent_succeeded_shipped :
  o_status <$> Order_findById shippedOrderId
                 (handlePaymentIntentSucceeded 2000 (mkPaymentIntent "pi_3") ledger)
  = Some shipped.
Proof. vm_compute. reflexivity. Qed.

Lemma cancel_only_early_witness :
  cancelOrder aliceId shippedOrderId ledger
  = (OrderRoutes.mkResponse 400 (Message "Order cannot be cancelled at this stage"),
     ledger).
Proof.
  refine (proj2 (proj2 (cancel_only_early aliceId shippedOrderId ledger shippedOrder
                          _ _)) _).
  - vm_compute. reflexivity.
  - reflexivity.
  - apply list_elem_of_further, list_elem_of_here.
Defined.

Example cancel_pending :
  let result := cancelOrder aliceId orderId ledger in
  res_status (fst result) = 200
  /\ o_status <$> Order_findById orderId (snd result) = Some cancelled.
Proof. split; vm_compute; reflexivity. Qed.

Example cancel_not_owner :
  cancelOrder "64b7f0c2a1d3e4f5a6b7c8f1" orderId ledger
  = (OrderRoutes.mkResponse 404 (Message "Order not found"), ledger).
Proof. vm_compute. reflexivity. Qed.

(** A paid, confirmed order: cancelling it leaves the payment record paid
    and the stock where it was. *)
Lemma cancel_frame_witness :
  exists order',
    Order_findById shippedOrderId (snd (cancelOrder aliceId shippedOrderId confirmedLedger))
    = Some order'
    /\ order' = setStatus confirmedOrder cancelled
    /\ o_status order' = cancelled
    /\ o_paymentInfo order' = o_paymentInfo confirmedOrder
    /\ o_items order' = o_items confirmedOrder
    /\ o_subtotal order' = o_subtotal confirmedOrder
    /\ o_tax order' = o_tax confirmedOrder
    /\ o_shipping order' = o_shipping confirmedOrder
    /\ o_total order' = o_total confirmedOrder
    /\ o_statusHistory order' = o_statusHistory confirmedOrder.
Proof.
  refine (proj1 (cancel_frame aliceId shippedOrderId confirmedLedger confirmedOrder
                   _ _ _)).
  - vm_compute. reflexivity.
  - reflexivity.
  - right. reflexivity.
Defined.



(** The note route on the same order: one entry, with the current status. *)
Example admin_note_on_pending :
  let result := adminAddNote codePoints 4000 orderId "Gift wrap" db2 in
  res_status (fst result) = 200
  /\ (o_statusHistory <$> Order_findById orderId (snd result)
      = Some [mkHistoryEntry pending 4000 (Some "Gift wrap")]).
Proof. split; vm_compute; reflexivity. Qed.

(** 300 accented characters are 600 bytes, and a note the route takes. *)
Example admin_note_accented :
  String.length accentedNote = 600%nat
  /\ codePoints accentedNote = 300%nat
  /\ res_status (fst (adminAddNote codePoints 4000 orderId accentedNote db2)) = 200.
Proof. repeat split; vm_compute; reflexivity. Qed.

Example admin_update_bad_status :
  adminUpdateStatus codePoints orderId (mkStatusUpdate "refunded" None None) db2
  = (OrderRoutes.mkResponse 400 ValidationFailed, db2).
Proof. reflexivity. Qed.

End LedgerExamples.

(** * Further properties of the routes *)

(** ** The cart loop, line by line *)

Module CartLineFacts.
Import Money MoneyFacts Catalog Orders Store Cart CartFacts CartLines.

(** The outcome of the loop does not depend on what was accumulated before
    it: the accumulators are only extended. *)
Lemma validateLoop_shift db items : forall acc sub,
  validateLoop db items acc sub
  = match validateLoop db items [] 0%Q with
    | inl response => inl response
    | inr (new, _) =>
        inr (acc ++ new,
             fold_left (fun a it => (a + oi_price it * inject_Z (oi_quantity it))%Q)
               new sub)
    end.
Proof.
  induction items as [|item rest IH]; intros acc sub; simpl.
  - rewrite app_nil_r. reflexivity.
  - destruct (Product_findById (productId item) db) as [product|]; [|reflexivity].
    destruct (negb (p_active product)); [reflexivity|].
    destruct (variant item) as [r|]; [|destruct (p_variants product); reflexivity].
    destruct (findVariant r (p_variants product)) as [[i v]|]; [|reflexivity].
    destruct (v_stock v <? quantity item); [reflexivity|].
    rewrite (IH (acc ++ _)), (IH [_]).
    destruct (validateLoop db rest [] 0%Q) as [response|[new s]]; [reflexivity|].
    rewrite <- app_assoc. reflexivity.
Qed.

Lemma validateLoop_app db l1 l2 acc sub :
  validateLoop db (l1 ++ l2) acc sub
  = match validateLoop db l1 acc sub with
    | inl response => inl response
    | inr (acc', sub') => validateLoop db l2 acc' sub'
    end.
Proof.
  revert acc sub. induction l1 as [|item rest IH]; intros acc sub; simpl; [reflexivity|].
  destruct (Product_findById (productId item) db) as [product|]; [|reflexivity].
  destruct (negb (p_active product)); [reflexivity|].
  destruct (variant item) as [r|]; [|destruct (p_variants product); reflexivity].
  destruct (findVariant r (p_variants product)) as [[i v]|]; [|reflexivity].
  destruct (v_stock v <? quantity item); [reflexivity|].
  apply IH.
Qed.

Lemma validateLoop_lines db items :
  (exists out, validateLoop db items [] 0%Q = inr out)
  <-> Forall (fun item => exists out, validateLoop db [item] [] 0%Q = inr out) items.
Proof.
  induction items as [|item rest IH].
  - split; [constructor|]. intros _. eexists. reflexivity.
  - change (item :: rest) with ([item] ++ rest).
    rewrite validateLoop_app, Forall_app, Forall_singleton, <- IH.
    destruct (validateLoop db [item] [] 0%Q) as [response|[acc sub]].
    + split; [intros [out H]; discriminate|intros [[out H] _]; discriminate].
    + rewrite validateLoop_shift.
      destruct (validateLoop db rest [] 0%Q) as [response|[new s]].
      * split; [intros [out H]; discriminate|intros [_ [out H]]; discriminate].
      * split; intros _; [split|]; eexists; reflexivity.
Qed.

(** An early return of the loop is an error answer. *)
Lemma validateLoop_inl db items : forall acc sub response,
  validateLoop db items acc sub = inl response ->
  (res_status response = 400 \/ res_status response = 500)
  /\ forall vis s t sh tot, res_body response <> Validated vis s t sh tot.
Proof.
  induction items as [|item rest IH]; intros acc sub response H; simpl in H;
    [discriminate|].
  destruct (Product_findById (productId item) db) as [product|];
    [|injection H as <-; split; [left; reflexivity|discriminate]].
  destruct (negb (p_active product));
    [injection H as <-; split; [left; reflexivity|discriminate]|].
  destruct (variant item) as [r|].
  - destruct (findVariant r (p_variants product)) as [[i v]|];
      [|injection H as <-; split; [left; reflexivity|discriminate]].
    destruct (v_stock v <? quantity item);
      [injection H as <-; split; [left; reflexivity|discriminate]|].
    eapply IH, H.
  - destruct (p_variants product); injection H as <-;
      (split; [|discriminate]); [left|right]; reflexivity.
Qed.

Lemma validate_accepts isMongoId items db :
  (exists vis sub tax ship tot,
      validate isMongoId items db
      = (mkResponse 200 (Validated vis sub tax ship tot), db))
  <-> wellFormed isMongoId items = true
      /\ exists out, validateLoop db items [] 0%Q = inr out.
Proof.
  unfold validate. split.
  - intros (vis & sub & tax & ship & tot & H).
    destruct (wellFormed isMongoId items); [|discriminate]. split; [reflexivity|].
    simpl in H.
    destruct (validateLoop db items [] 0%Q) as [response|out] eqn:Hloop; [|eauto].
    exfalso. injection H as ->.
    apply validateLoop_inl in Hloop as [_ Hbody]. eapply Hbody. reflexivity.
  - intros [-> [[vis s] ->]]. simpl. do 5 eexists. reflexivity.
Qed.

Lemma wellFormed_lines isMongoId items :
  items <> [] ->
  wellFormed isMongoId items = true
  <-> Forall (fun item => wellFormed isMongoId [item] = true) items.
Proof.
  intros Hne. unfold wellFormed. destruct items as [|item rest]; [contradiction|].
  rewrite forallb_forall, Forall_forall. split.
  - intros H x Hx. simpl. rewrite andb_true_r. apply H, list_elem_of_In, Hx.
  - intros H x Hx. apply list_elem_of_In, H in Hx. simpl in Hx.
    rewrite andb_true_r in Hx. exact Hx.
Qed.

(** A non-empty cart validates exactly when each of its lines validates on
    its own: every line is checked against the stock as stored, whatever
    the other lines ask for. *)
Theorem validate_linewise isMongoId items db :
  items <> [] ->
  (exists vis sub tax ship tot,
      validate isMongoId items db
      = (mkResponse 200 (Validated vis sub tax ship tot), db))
  <-> Forall (fun item =>
                exists vis sub tax ship tot,
                  validate isMongoId [item] db
                  = (mkResponse 200 (Validated vis sub tax ship tot), db))
             items.
Proof.
  intros Hne. rewrite validate_accepts, (wellFormed_lines _ _ Hne), validateLoop_lines.
  rewrite <- Forall_and. apply Forall_iff. intros item.
  rewrite validate_accepts. reflexivity.
Qed.

Lemma validateLoop_lineFrom db items : forall acc sub vis s,
  validateLoop db items acc sub = inr (vis, s) ->
  exists new, vis = acc ++ new /\ Forall2 (lineFrom db) items new.
Proof.
  induction items as [|item rest IH]; intros acc sub vis s H; simpl in H.
  - injection H as <- <-. exists []. rewrite app_nil_r. split; [reflexivity|constructor].
  - unfold Product_findById in H.
    destruct (products db !! productId item) as [product|] eqn:Hp; [|discriminate].
    destruct (p_active product) eqn:Hact; [|discriminate]. simpl in H.
    destruct (variant item) as [r|] eqn:Hr; [|destruct (p_variants product); discriminate].
    destruct (findVariant r (p_variants product)) as [[i v]|] eqn:Hv; [|discriminate].
    destruct (v_stock v <? quantity item) eqn:Hq; [discriminate|].
    apply IH in H as (new & -> & Hall).
    eexists (_ :: new). rewrite <- app_assoc. split; [reflexivity|].
    constructor; [|exact Hall].
    exists product, r, i, v. repeat split; try assumption.
    + apply Z.ltb_ge in Hq. exact Hq.
    + pose proof Hv as Hv'. unfold findVariant in Hv'.
      apply list_find_Some in Hv' as (_ & [Hs Hd] & _).
      rewrite Hs, Hd. destruct r. reflexivity.
Qed.

Lemma validated_lineFrom isMongoId items db st vis sub tax ship tot db' :
  validate isMongoId items db = (mkResponse st (Validated vis sub tax ship tot), db') ->
  Forall2 (lineFrom db) items vis.
Proof.
  intros H. unfold validate in H.
  destruct (wellFormed isMongoId items) eqn:Hwf; [|discriminate]. simpl in H.
  destruct (validateLoop db items [] 0%Q) as [response|[vis' s]] eqn:Hloop.
  - exfalso. injection H as -> _.
    apply validateLoop_inl in Hloop as [_ Hbody]. eapply Hbody. reflexivity.
  - injection H as _ <- _ _ _ _ _.
    apply validateLoop_lineFrom in Hloop as (new & -> & Hall). exact Hall.
Qed.

Lemma validated_quantities isMongoId items db st vis sub tax ship tot db' :
  validate isMongoId items db = (mkResponse st (Validated vis sub tax ship tot), db') ->
  Forall (fun line => 1 <= quantity line <= 10) items.
Proof.
  intros H. unfold validate in H.
  destruct (wellFormed isMongoId items) eqn:Hwf; [|discriminate].
  unfold wellFormed in Hwf. destruct items as [|item rest]; [discriminate|].
  rewrite forallb_forall in Hwf. apply Forall_forall. intros line Hin.
  apply list_elem_of_In, Hwf in Hin.
  apply andb_prop in Hin as [Hin Hhi]. apply andb_prop in Hin as [_ Hlo].
  split; lia.
Qed.

(** Every line of a validated cart comes back as one item, in order, built
    from the stored product: title, price and image are the catalog's, the
    quantity is the requested one and lies between 1 and 10 and within the
    variant's stock. *)
Theorem validated_lines isMongoId items db st vis sub tax ship tot db' :
  validate isMongoId items db = (mkResponse st (Validated vis sub tax ship tot), db') ->
  Forall2 (lineFrom db) items vis
  /\ Forall (fun line => 1 <= quantity line <= 10) items
  /\ db' = db.
Proof.
  intros H. split; [|split].
  - eapply validated_lineFrom, H.
  - eapply validated_quantities, H.
  - apply validate_inv in H. tauto.
Qed.

End CartLineFacts.

(** ** Adding to the cart and checking stock *)

Module CartAddFacts.
Import Money Catalog Orders Store Cart CartFacts CartLines CartLineFacts CartAdd.

Lemma add_inv isMongoId req db st item db' :
  add isMongoId req db = (mkResponse st (ItemAdded item), db') ->
  st = 200 /\ db' = db
  /\ wellFormed isMongoId req = true
  /\ exists product i v,
       products db !! a_productId req = Some product
       /\ p_active product = true
       /\ findVariant (mkVariantRef (a_size req) (a_design req)) (p_variants product)
          = Some (i, v)
       /\ a_quantity req <= v_stock v
       /\ item = {| ci_productId := a_productId req;
                    ci_title := p_title product;
                    ci_price := p_price product;
                    ci_image := imageUrl (p_images product);
                    ci_variant := mkVariantRef (a_size req) (a_design req);
                    ci_quantity := a_quantity req;
                    ci_maxQuantity := Z.min (v_stock v) 10 |}.
Proof.
  unfold add, Product_findById.
  destruct (wellFormed isMongoId req) eqn:Hwf; [|discriminate]. simpl.
  destruct (products db !! a_productId req) as [product|] eqn:Hp; [|discriminate].
  destruct (p_active product) eqn:Hact; [|discriminate]. simpl.
  destruct (findVariant _ (p_variants product)) as [[i v]|] eqn:Hv; [|discriminate].
  destruct (v_stock v <? a_quantity req) eqn:Hq; [discriminate|].
  intros H. injection H as <- <- <-.
  repeat split. exists product, i, v. apply Z.ltb_ge in Hq. repeat split; assumption.
Qed.

(** An item the route hands to the client-side cart asks for at least 1 and
    at most [maxQuantity], which is the variant's stock capped at 10; its
    title and price are the stored product's, and the database is left as
    it was. *)
Theorem add_within_stock isMongoId req db st item db' :
  add isMongoId req db = (mkResponse st (ItemAdded item), db') ->
  st = 200 /\ db' = db
  /\ 1 <= ci_quantity item <= ci_maxQuantity item
  /\ ci_maxQuantity item <= 10
  /\ exists product s,
       products db !! ci_productId item = Some product
       /\ p_active product = true
       /\ stockOf (products db) (ci_productId item) (ci_variant item) = Some s
       /\ ci_maxQuantity item = Z.min s 10
       /\ ci_title item = p_title product
       /\ ci_price item = p_price product.
Proof.
  intros H.
  apply add_inv in H as (-> & -> & Hwf & product & i & v & Hp & Hact & Hv & Hq & ->).
  unfold wellFormed in Hwf.
  apply andb_prop in Hwf as [Hwf Hhi]. apply andb_prop in Hwf as [_ Hlo].
  cbn. repeat split; try lia.
  exists product, (v_stock v). unfold stockOf. rewrite Hp, Hv.
  repeat split; assumption.
Qed.

(** A request with a size and a design is accepted by [POST /cart/add]
    exactly when the one-line cart it stands for passes
    [POST /cart/validate]. *)
Theorem add_iff_validate isMongoId req db :
  notEmpty (a_size req) = true ->
  notEmpty (a_design req) = true ->
  (exists item, add isMongoId req db = (mkResponse 200 (ItemAdded item), db))
  <-> (exists vis sub tax ship tot,
          validate isMongoId
            [mkCartLine (a_productId req)
               (Some (mkVariantRef (a_size req) (a_design req))) (a_quantity req)]
            db
          = (Cart.mkResponse 200 (Validated vis sub tax ship tot), db)).
Proof.
  intros Hs Hd. rewrite validate_accepts.
  unfold add, wellFormed, Cart.wellFormed, Product_findById. cbn.
  rewrite Hs, Hd, !andb_true_r.
  destruct (isMongoId (a_productId req)); cbn;
    [|split; [intros [? ?]; discriminate|intros [? _]; discriminate]].
  destruct (1 <=? a_quantity req); cbn;
    [|split; [intros [? ?]; discriminate|intros [? _]; discriminate]].
  destruct (a_quantity req <=? 10); cbn;
    [|split; [intros [? ?]; discriminate|intros [? _]; discriminate]].
  destruct (products db !! a_productId req) as [product|];
    [|split; [intros [? ?]; discriminate|intros [_ [? ?]]; discriminate]].
  destruct (p_active product); cbn;
    [|split; [intros [? ?]; discriminate|intros [_ [? ?]]; discriminate]].
  destruct (findVariant _ (p_variants product)) as [[i v]|];
    [|split; [intros [? ?]; discriminate|intros [_ [? ?]]; discriminate]].
  destruct (v_stock v <? a_quantity req);
    [split; [intros [? ?]; discriminate|intros [_ [? ?]]; discriminate]|].
  split; intros _; [split; [reflexivity|]|]; eexists; reflexivity.
Qed.

End CartAddFacts.

Module ProductRoutesFacts.
Import Catalog Orders Store Webhook WebhookFacts ProductRoutes.

(** The stock check answers "In stock" exactly when the payment reconciler
    would take the quantity off that variant: on "In stock" with stock [s]
    a line for the same variant and quantity leaves [s - quantity], on any
    other answer the line changes nothing.  The check itself never writes. *)
Theorem checkStock_agrees_with_reconciler id req db item :
  oi_product item = id ->
  oi_variant item = mkVariantRef (sr_size req) (sr_design req) ->
  oi_quantity item = sr_quantity req ->
  snd (checkStock id req db) = db
  /\ (forall s message,
        res_body (fst (checkStock id req db)) = StockReport true s message ->
        message = "In stock"%string
        /\ stockOf (products db) id (oi_variant item) = Some s
        /\ stockOf (products (decrementLine item db)) id (oi_variant item)
           = Some (s - sr_quantity req))
  /\ ((forall s message,
         res_body (fst (checkStock id req db)) <> StockReport true s message) ->
      res_body (fst (checkStock id req db)) <> ValidationFailed ->
      decrementLine item db = db).
Proof.
  intros <- Hv Hq. unfold checkStock, Product_findById.
  destruct (negb _) eqn:Hwf; cbn.
  { split; [reflexivity|]. split; [intros ? ? H; discriminate|]. intros _ H. contradiction. }
  rewrite <- Hv.
  destruct (products db !! oi_product item) as [product|] eqn:Hp; cbn.
  - destruct (findVariant (oi_variant item) (p_variants product)) as [[i v]|] eqn:Hf; cbn.
    + split; [reflexivity|]. split.
      * intros s message H. injection H as Hle <- <-.
        rewrite Hle. split; [reflexivity|].
        assert (Hs : stockOf (products db) (oi_product item) (oi_variant item)
                     = Some (v_stock v)) by (unfold stockOf; rewrite Hp, Hf; reflexivity).
        split; [exact Hs|].
        rewrite stockOf_decrementLine, Hs, <- Hq.
        apply Z.leb_le in Hle. rewrite <- Hq in Hle.
        rewrite decide_True; [reflexivity|]. split; [exact Hle|split; reflexivity].
      * intros Hno _. apply decrementLine_skipped. unfold skipped, stockOf.
        rewrite Hp, Hf. cbn. rewrite Hq.
        destruct (sr_quantity req <=? v_stock v) eqn:Hle.
        -- exfalso. eapply Hno. reflexivity.
        -- apply Z.leb_gt in Hle. exact Hle.
    + split; [reflexivity|]. split; [intros ? ? H; discriminate|].
      intros _ _. apply decrementLine_skipped. unfold skipped, stockOf.
      rewrite Hp, Hf. exact I.
  - split; [reflexivity|]. split; [intros ? ? H; discriminate|].
    intros _ _. apply decrementLine_skipped. unfold skipped, stockOf.
    rewrite Hp. exact I.
Qed.

End ProductRoutesFacts.

(** ** Checkout *)

Module CheckoutFacts.
Import Money MoneyFacts Catalog Orders Store Cart CartFacts CartLines CartLineFacts.
Import Checkout.

(** [validate] answers 2xx only with a validated cart. *)
Lemma validate_ok isMongoId items db :
  (200 <=? Cart.res_status (fst (validate isMongoId items db)))
  && (Cart.res_status (fst (validate isMongoId items db)) <=? 299) = true ->
  exists vis sub tax ship tot,
    validate isMongoId items db
    = (Cart.mkResponse 200 (Validated vis sub tax ship tot), db).
Proof.
  unfold validate. destruct (negb (Cart.wellFormed isMongoId items)); [discriminate|].
  destruct (validateLoop db items [] 0%Q) as [response|[vis s]] eqn:Hloop.
  - apply validateLoop_inl in Hloop as [[E|E] _]; cbn; rewrite E; discriminate.
  - intros _. do 5 eexists. reflexivity.
Qed.

Lemma billed_app l1 l2 : billed (l1 ++ l2) = billed l1 + billed l2.
Proof.
  unfold billed. induction l1 as [|line rest IH]; cbn [app fold_right]; [reflexivity|].
  rewrite IH. lia.
Qed.

Lemma Math_round_cents_100 (x : Q) (c : Z) : (x == cents c)%Q -> Math_round (x * 100) = c.
Proof.
  intros E. rewrite <- (Math_round_Z c). apply Math_round_proper.
  rewrite E. apply cents_100.
Qed.

Lemma Math_round_nonneg (x : Q) : (0 <= x)%Q -> 0 <= Math_round x.
Proof.
  intros H. unfold Math_round.
  change 0 with (Qfloor 0). apply Qfloor_resp_le.
  apply Qle_trans with x; [exact H|].
  rewrite <- (Qplus_0_r x) at 1. apply Qplus_le_r. discriminate.
Qed.

Lemma cents_nonpos (c : Z) : (cents c <= 0)%Q -> c <= 0.
Proof. unfold cents, Qle, Qdiv, Qmult, Qinv, inject_Z. cbn. lia. Qed.

(** The product lines charge the running subtotal, cent for cent, when the
    prices are whole cents. *)
Lemma billed_productLines origin vis : forall acc,
  Forall (fun it => wholeCents (oi_price it)) vis ->
  (fold_left (fun a it => (a + oi_price it * inject_Z (oi_quantity it))%Q) vis acc * 100
   == acc * 100 + inject_Z (billed (map (productLine origin) vis)))%Q.
Proof.
  induction vis as [|it rest IH]; intros acc Hall; cbn [fold_left map].
  - cbn. ring.
  - inversion Hall as [|? ? [c Hc] Hrest]; subst.
    rewrite (IH _ Hrest). cbn [billed fold_right productLine li_unit_amount li_quantity].
    fold (billed (map (productLine origin) rest)).
    rewrite (Math_round_cents_100 _ _ Hc), inject_Z_plus, inject_Z_mult.
    assert (E : (oi_price it * 100 == inject_Z c)%Q)
      by (rewrite Hc; apply cents_100).
    transitivity (acc * 100 + oi_price it * 100 * inject_Z (oi_quantity it)
                  + inject_Z (billed (map (productLine origin) rest)))%Q; [ring|].
    rewrite E. ring.
Qed.

Lemma fold_nonneg vis : forall acc,
  (0 <= acc)%Q ->
  Forall (fun it => (0 <= oi_price it)%Q /\ 0 <= oi_quantity it) vis ->
  (0 <= fold_left (fun a it => (a + oi_price it * inject_Z (oi_quantity it))%Q) vis acc)%Q.
Proof.
  induction vis as [|it rest IH]; intros acc Hacc Hall; cbn; [exact Hacc|].
  inversion Hall as [|? ? [Hp Hq] Hrest]; subst.
  apply IH; [|exact Hrest].
  rewrite <- (Qplus_0_r 0). apply Qplus_le_compat; [exact Hacc|].
  apply Qmult_le_0_compat; [exact Hp|].
  change 0%Q with (inject_Z 0). rewrite <- Zle_Qle. exact Hq.
Qed.

Lemma lineSum_nonneg vis :
  Forall (fun it => (0 <= oi_price it)%Q /\ 0 <= oi_quantity it) vis ->
  (0 <= lineSum vis)%Q.
Proof. apply fold_nonneg. apply Qle_refl. Qed.

(** A charge line for an amount already rounded to cents charges those
    cents; a zero amount has no line and charges nothing. *)
Lemma billed_chargeLine name (x : Q) :
  0 <= Math_round (x * 100) ->
  billed (chargeLine name (round2 x)) = Math_round (x * 100).
Proof.
  intros Hnn. unfold chargeLine. rewrite round2_is_cents.
  destruct (Qle_bool (cents (Math_round (x * 100))) 0) eqn:Hle.
  - apply Qle_bool_iff, cents_nonpos in Hle. change (billed []) with 0. lia.
  - unfold billed. cbn [fold_right li_unit_amount li_quantity].
    rewrite (Math_round_cents_100 _ (Math_round (x * 100))) by reflexivity. lia.
Qed.

Lemma round2_100 (x : Q) : (round2 x * 100 == inject_Z (Math_round (x * 100)))%Q.
Proof. rewrite round2_is_cents. apply cents_100. Qed.

(** With whole-cent, non-negative prices the three kinds of line items add
    up to the total, in cents. *)
Lemma billed_total origin vis :
  Forall (fun it => wholeCents (oi_price it)) vis ->
  Forall (fun it => (0 <= oi_price it)%Q /\ 0 <= oi_quantity it) vis ->
  (inject_Z (billed (lineItems origin vis
                       (round2 (lineSum vis * (8 # 100)))
                       (round2 (shippingFor (lineSum vis)))))
   == round2 (lineSum vis + lineSum vis * (8 # 100) + shippingFor (lineSum vis)) * 100)%Q.
Proof.
  intros Hcents Hnn.
  pose proof (billed_productLines origin vis 0%Q Hcents) as Hlines.
  fold (lineSum vis) in Hlines.
  pose proof (lineSum_nonneg vis Hnn) as Hsum.
  destruct (lineSum_wholeCents _ Hcents) as [s Hs].
  set (subtotal := lineSum vis) in *.
  set (tax := (subtotal * (8 # 100))%Q).
  assert (Htax : 0 <= Math_round (tax * 100)).
  { apply Math_round_nonneg. unfold tax.
    apply Qmult_le_0_compat; [|discriminate].
    apply Qmult_le_0_compat; [exact Hsum|discriminate]. }
  assert (Hship : exists k,
             (shippingFor subtotal == cents k)%Q
             /\ billed (chargeLine "Shipping" (round2 (shippingFor subtotal))) = k).
  { destruct (shippingFor_cases subtotal) as [[_ ->]|[_ ->]];
      [exists 0|exists 999]; split; reflexivity. }
  destruct Hship as (k & Hk & Hbk).
  unfold lineItems. rewrite !billed_app, (billed_chargeLine _ _ Htax), Hbk.
  rewrite !inject_Z_plus.
  assert (Hb : (inject_Z (billed (map (productLine origin) vis)) == inject_Z s)%Q).
  { assert (E : (subtotal * 100 == inject_Z s)%Q)
      by (rewrite Hs; apply cents_100).
    rewrite <- E, Hlines. ring. }
  rewrite Hb.
  assert (Hsumeq : (subtotal + tax + shippingFor subtotal == cents (s + k) + tax)%Q).
  { rewrite Hk, Hs, <- cents_add. ring. }
  rewrite (round2_proper _ _ Hsumeq).
  assert (Hsh : (round2 (cents (s + k) + tax) * 100
                 == (cents (s + k) + round2 tax) * 100)%Q).
  { apply Qmult_comp; [apply round2_shift|reflexivity]. }
  rewrite Hsh.
  assert (Hexp : ((cents (s + k) + round2 tax) * 100
                  == cents (s + k) * 100 + round2 tax * 100)%Q) by ring.
  rewrite Hexp, cents_100, round2_100, inject_Z_plus. ring.
Qed.

Lemma demand_none pid r items :
  (forall it, it ∈ items -> ~ Webhook.targets pid r it) ->
  Webhook.demand pid r items = 0.
Proof.
  induction items as [|item rest IH]; intros H; cbn; [reflexivity|].
  rewrite decide_False by (apply H; left).
  rewrite IH; [reflexivity|]. intros it Hin. apply H. right. exact Hin.
Qed.

(** When no two items ask for the same variant, the demand on an item's
    variant is that item's quantity. *)
Lemma demand_distinct items it :
  NoDup (map (fun it => (oi_product it, oi_variant it)) items) ->
  it ∈ items ->
  Webhook.demand (oi_product it) (oi_variant it) items = oi_quantity it.
Proof.
  induction items as [|item rest IH]; intros Hnd Hin; [inversion Hin|].
  cbn in Hnd. apply NoDup_cons in Hnd as [Hnotin Hnd]. cbn.
  apply elem_of_cons in Hin as [->|Hin].
  - rewrite decide_True by (split; reflexivity).
    rewrite demand_none; [lia|].
    intros x Hx [E1 E2]. apply Hnotin.
    apply list_elem_of_fmap. exists x. split; [|exact Hx]. congruence.
  - rewrite decide_False, (IH Hnd Hin); [lia|].
    intros [E1 E2]. apply Hnotin.
    apply list_elem_of_fmap. exists it. split; [|exact Hin]. congruence.
Qed.

Section Route.

Variable isMongoId : string -> bool.
Variable createSession : SessionParams -> option string.
Variable initialStatus : OrderStatus.

Let checkout := createCheckoutSession isMongoId createSession initialStatus.

(** What the route does once the body is well formed and the cart
    validates. *)
Lemma checkout_validated origin user orderId orderNumber items shippingInfo db
    vis sub tax ship tot :
  items <> [] ->
  shippingComplete shippingInfo = true ->
  validate isMongoId items db
  = (Cart.mkResponse 200 (Validated vis sub tax ship tot), db) ->
  checkout origin user orderId orderNumber items shippingInfo db
  = let order := newOrder initialStatus user orderNumber shippingInfo vis sub tax ship tot in
    match createSession (sessionParams origin user orderId vis tax ship) with
    | None => (mkResponse 500 ServerError, Order_save orderId order db)
    | Some sessionId =>
        (mkResponse 200 (SessionCreated sessionId orderId),
         Order_save orderId (setSessionId order sessionId)
           (Order_save orderId order db))
    end.
Proof.
  intros Hne Hship Hval. unfold checkout, createCheckoutSession.
  destruct items as [|item rest]; [contradiction|].
  rewrite Hship, Hval. reflexivity.
Qed.

(** A session id in the answer means the cart validated and Stripe
    returned that id for the parameters built from it. *)
Lemma checkout_created_inv origin user orderId orderNumber items shippingInfo db
    st sessionId oid db' :
  checkout origin user orderId orderNumber items shippingInfo db
  = (mkResponse st (SessionCreated sessionId oid), db') ->
  exists vis sub tax ship tot,
    items <> [] /\ shippingComplete shippingInfo = true
    /\ validate isMongoId items db
       = (Cart.mkResponse 200 (Validated vis sub tax ship tot), db)
    /\ createSession (sessionParams origin user orderId vis tax ship) = Some sessionId
    /\ st = 200 /\ oid = orderId
    /\ db' = Order_save orderId
               (setSessionId
                  (newOrder initialStatus user orderNumber shippingInfo vis sub tax ship tot)
                  sessionId)
               (Order_save orderId
                  (newOrder initialStatus user orderNumber shippingInfo vis sub tax ship tot)
                  db).
Proof.
  unfold checkout, createCheckoutSession. intros H.
  destruct items as [|item rest]; [discriminate|].
  destruct (shippingComplete shippingInfo) eqn:Hship; [|discriminate].
  cbn [negb andb] in H.
  destruct (negb _) eqn:Hok in H; [discriminate|].
  apply negb_false_iff, validate_ok in Hok as (vis & sub & tax & ship & tot & Hval).
  rewrite Hval in H. cbn in H.
  destruct (createSession _) as [sid|] eqn:Hcs; [|discriminate].
  injection H as <- <- <- <-.
  exists vis, sub, tax, ship, tot. repeat split; try assumption. discriminate.
Qed.

(** When the cart does not validate, no order is written: the route answers
    400 with the validator's own error body and leaves the database as it
    was. *)
Theorem checkout_rejects_invalid_cart origin user orderId orderNumber items
    shippingInfo db :
  items <> [] ->
  shippingComplete shippingInfo = true ->
  (forall vis sub tax ship tot,
      Cart.res_body (fst (validate isMongoId items db)) <> Validated vis sub tax ship tot) ->
  checkout origin user orderId orderNumber items shippingInfo db
  = (mkResponse 400 (CartRejected (Cart.res_body (fst (validate isMongoId items db)))),
     db).
Proof.
  intros Hne Hship Hbody. unfold checkout, createCheckoutSession.
  destruct items as [|item rest]; [contradiction|].
  rewrite Hship. cbn [negb andb].
  destruct (negb _) eqn:Hok; [reflexivity|].
  apply negb_false_iff, validate_ok in Hok as (vis & sub & tax & ship & tot & Hval).
  exfalso. apply (Hbody vis sub tax ship tot). rewrite Hval. reflexivity.
Qed.

(** When Stripe refuses the session, the order written just before stays
    in the collection: payment pending, no session id, the validated items
    and amounts; the route answers 500, and products and every other order
    are untouched. *)
Theorem checkout_stripe_failure_leaves_order origin user orderId orderNumber items
    shippingInfo db vis sub tax ship tot :
  items <> [] ->
  shippingComplete shippingInfo = true ->
  validate isMongoId items db
  = (Cart.mkResponse 200 (Validated vis sub tax ship tot), db) ->
  createSession (sessionParams origin user orderId vis tax ship) = None ->
  let result := checkout origin user orderId orderNumber items shippingInfo db in
  fst result = mkResponse 500 ServerError
  /\ (exists order,
        Order_findById orderId (snd result) = Some order
        /\ pay_status (o_paymentInfo order) = pay_pending
        /\ stripeSessionId (o_paymentInfo order) = ""%string
        /\ pay_amount (o_paymentInfo order) = tot
        /\ o_items order = vis /\ o_total order = tot
        /\ o_user order = u_id user)
  /\ products (snd result) = products db
  /\ forall id, id <> orderId ->
       Order_findById id (snd result) = Order_findById id db.
Proof.
  intros Hne Hship Hval Hcs result. subst result.
  rewrite (checkout_validated _ _ _ _ _ _ _ _ _ _ _ _ Hne Hship Hval). cbn zeta.
  rewrite Hcs. cbn [fst snd]. unfold Order_findById, Order_save. cbn [orders products].
  split; [reflexivity|]. split; [|split; [reflexivity|]].
  - eexists. rewrite lookup_insert_eq. repeat split; reflexivity.
  - intros id Hid. apply lookup_insert_ne. congruence.
Qed.

(** On success the order is stored under the returned id with the session
    id Stripe gave, payment still pending, the amount equal to the total,
    and the validated items; Stripe got the order id and the user id as
    metadata; no product and no other order changed. *)
Theorem checkout_success_order origin user orderId orderNumber items shippingInfo db
    st sessionId oid db' :
  checkout origin user orderId orderNumber items shippingInfo db
  = (mkResponse st (SessionCreated sessionId oid), db') ->
  st = 200 /\ oid = orderId
  /\ (exists order params,
        Order_findById orderId db' = Some order
        /\ createSession params = Some sessionId
        /\ sp_metadata_orderId params = orderId
        /\ sp_metadata_userId params = o_user order
        /\ stripeSessionId (o_paymentInfo order) = sessionId
        /\ pay_status (o_paymentInfo order) = pay_pending
        /\ pay_amount (o_paymentInfo order) = o_total order
        /\ stripePaymentIntentId (o_paymentInfo order) = None
        /\ o_status order = initialStatus
        /\ Forall2 (lineFrom db) items (o_items order)
        /\ length (sp_line_items params)
           = (length items
              + (if Qle_bool (o_tax order) 0 then 0 else 1)
              + (if Qle_bool (o_shipping order) 0 then 0 else 1))%nat)
  /\ products db' = products db
  /\ forall id, id <> orderId -> Order_findById id db' = Order_findById id db.
Proof.
  intros H.
  apply checkout_created_inv in H
    as (vis & sub & tax & ship & tot & Hne & Hship & Hval & Hcs & -> & -> & ->).
  split; [reflexivity|]. split; [reflexivity|].
  unfold Order_findById, Order_save. cbn [orders products].
  split; [|split; [reflexivity|]].
  - eexists _, _. rewrite lookup_insert_eq. split; [reflexivity|].
    split; [exact Hcs|]. cbn.
    pose proof (validated_lineFrom _ _ _ _ _ _ _ _ _ _ Hval) as Hlines.
    repeat split; try reflexivity; [exact Hlines|].
    unfold lineItems, chargeLine. rewrite !length_app, length_map.
    rewrite (Forall2_length _ _ _ Hlines).
    destruct (Qle_bool tax 0), (Qle_bool ship 0); cbn; lia.
  - intros id Hid. rewrite !lookup_insert_ne by congruence. reflexivity.
Qed.


(** Checkout followed by the "checkout session completed" event for the
    order it created: the order is paid and confirmed and still carries
    the session id, and, when no two cart lines ask for the same variant,
    every line's variant has lost exactly the line's quantity. *)
Theorem checkout_then_completed origin user orderId orderNumber items shippingInfo db
    st sessionId oid db1 now session :
  checkout origin user orderId orderNumber items shippingInfo db
  = (mkResponse st (SessionCreated sessionId oid), db1) ->
  NoDup (map (fun line => (productId line, variant line)) items) ->
  Webhook.s_metadata_orderId session = oid ->
  let db2 := Webhook.handleCheckoutSessionCompleted now session db1 in
  (exists order,
      Order_findById oid db2 = Some order
      /\ pay_status (o_paymentInfo order) = pay_paid
      /\ o_status order = confirmed
      /\ stripeSessionId (o_paymentInfo order) = sessionId
      /\ stripePaymentIntentId (o_paymentInfo order) = Webhook.s_payment_intent session
      /\ paidAt (o_paymentInfo order) = Some now
      /\ Forall2 (lineFrom db) items (o_items order))
  /\ Forall (fun line =>
               exists r s,
                 variant line = Some r
                 /\ stockOf (products db) (productId line) r = Some s
                 /\ quantity line <= s
                 /\ stockOf (products db2) (productId line) r
                    = Some (s - quantity line))
            items.
Proof.
  intros H Hnd Hsession db2. subst db2.
  apply checkout_created_inv in H
    as (vis & sub & tax & ship & tot & Hne & Hship & Hval & Hcs & -> & -> & ->).
  pose proof (validated_lineFrom _ _ _ _ _ _ _ _ _ _ Hval) as Hlines.
  pose proof (validated_quantities _ _ _ _ _ _ _ _ _ _ Hval) as Hqty.
  set (order := setSessionId
                  (newOrder initialStatus user orderNumber shippingInfo vis sub tax ship tot)
                  sessionId).
  set (db1 := Order_save orderId order _).
  assert (Hfind : Order_findById (Webhook.s_metadata_orderId session) db1 = Some order).
  { rewrite Hsession. unfold Order_findById, db1, Order_save. cbn [orders].
    apply lookup_insert_eq. }
  split.
  - exists (Webhook.paidOrder now session order).
    rewrite <- Hsession at 1.
    rewrite (CheckoutCompleted.handler_order _ _ _ _ Hfind).
    repeat split; try reflexivity. exact Hlines.
  - assert (Hkeys : map (fun it => (oi_product it, Some (oi_variant it))) vis
                    = map (fun line => (productId line, variant line)) items).
    { clear -Hlines. induction Hlines as [|line it items vis Hline Hrest IH];
        [reflexivity|].
      cbn. rewrite IH. f_equal.
      destruct Hline as (product & r & i & v & _ & _ & Hr & _ & _ & ->). cbn.
      rewrite Hr. reflexivity. }
    assert (Hnd' : NoDup (map (fun it => (oi_product it, oi_variant it)) vis)).
    { rewrite <- Hkeys in Hnd.
      apply (NoDup_fmap_1 (fun k : string * VariantRef => (fst k, Some (snd k)))).
      rewrite <- list_fmap_compose. exact Hnd. }
    assert (Hq : forall it, it ∈ vis -> 0 <= oi_quantity it).
    { clear -Hlines Hqty. induction Hlines as [|line it items vis Hline Hrest IH];
        intros x Hx; [inversion Hx|].
      inversion Hqty as [|? ? Hql Hqrest]; subst.
      apply elem_of_cons in Hx as [->|Hx]; [|apply IH; assumption].
      destruct Hline as (product & r & i & v & _ & _ & _ & _ & _ & ->). cbn. lia. }
    assert (Hstock : forall pid r,
               stockOf (products (Webhook.handleCheckoutSessionCompleted now session db1))
                 pid r
               = (fun s => s - Webhook.demand pid r vis) <$> stockOf (products db) pid r).
    { intros pid r. rewrite (CheckoutCompleted.handler_products _ _ _ _ Hfind).
      change (o_items order) with vis.
      rewrite (WebhookFacts.stockOf_updateStock vis db1 Hq); [reflexivity|].
      intros it Hin. rewrite (demand_distinct _ _ Hnd' Hin).
      clear -Hlines Hin. induction Hlines as [|line it' items vis Hline Hrest IH];
        [inversion Hin|].
      apply elem_of_cons in Hin as [->|Hin]; [|apply IH; assumption].
      destruct Hline as (product & r & i & v & Hp & _ & _ & Hv & Hle & ->). cbn.
      exists (v_stock v). unfold stockOf. cbn. rewrite Hp, Hv. split; [reflexivity|lia]. }
    apply Forall_forall. intros line Hin.
    apply list_elem_of_lookup in Hin as [n Hn].
    destruct (Forall2_lookup_l _ _ _ _ _ Hlines Hn) as (it & Hit & Hline).
    assert (Hin : it ∈ vis) by (apply list_elem_of_lookup; eauto).
    pose proof (demand_distinct _ _ Hnd' Hin) as Hd.
    destruct Hline as (product & r & i & v & Hp & _ & Hr & Hv & Hle & ->).
    cbn [oi_product oi_variant oi_quantity] in Hd.
    exists r, (v_stock v).
    assert (Hs : stockOf (products db) (productId line) r = Some (v_stock v))
      by (unfold stockOf; rewrite Hp, Hv; reflexivity).
    repeat split; try assumption.
    rewrite Hstock, Hs, Hd. reflexivity.
Qed.

End Route.

End CheckoutFacts.

(** ** Events of the payment processor, beyond the first delivery *)

Module EventFacts.
Import Catalog Orders Store Webhook WebhookFacts ReconcilerFacts Reconciler Frames.

Lemma findOne_unique pid db id order :
  orders db !! id = Some order ->
  stripePaymentIntentId (o_paymentInfo order) = Some pid ->
  referencedOnlyBy pid id db ->
  Order_findOneByPaymentIntent pid db = Some (id, order).
Proof.
  intros Hl Hp Huniq.
  unfold referencedOnlyBy in Huniq. rewrite map_Forall_lookup in Huniq.
  destruct (Order_findOneByPaymentIntent pid db) as [[k o]|] eqn:Hf.
  - apply findOneByPaymentIntent_Some in Hf as [Hk Hpk].
    unfold Order_findById in Hk.
    assert (k = id) by (eapply Huniq; eauto). subst k. congruence.
  - exfalso. unfold Order_findOneByPaymentIntent in Hf.
    destruct (list_find _ (map_to_list (orders db))) as [[i kv]|] eqn:Hlf;
      [discriminate|].
    apply list_find_None in Hlf. rewrite Forall_forall in Hlf.
    apply (Hlf (id, order)); [|exact Hp].
    apply elem_of_map_to_list. exact Hl.
Qed.

Lemma findOne_unreferenced pid db :
  unreferenced pid db -> Order_findOneByPaymentIntent pid db = None.
Proof.
  intros Hun. unfold unreferenced in Hun. rewrite map_Forall_lookup in Hun.
  destruct (Order_findOneByPaymentIntent pid db) as [[k o]|] eqn:Hf; [|reflexivity].
  apply findOneByPaymentIntent_Some in Hf as [Hk Hpk].
  exfalso. eapply Hun; eauto.
Qed.

(** An event that names no order of the collection (an unknown order id,
    a payment-intent reference no order carries, or a type the route does
    not handle) is acknowledged with 200 and changes nothing. *)
Theorem unknown_reference_acknowledged
    (constructEvent : string -> option string -> string -> string + Event)
    (webhookSecret : string) (now : Z) (body : string) (sig : option string)
    (db : Db) (event : Event) :
  constructEvent body sig webhookSecret = inr event ->
  match event with
  | CheckoutSessionCompleted session =>
      Order_findById (s_metadata_orderId session) db = None
  | PaymentIntentSucceeded paymentIntent
  | PaymentIntentFailed paymentIntent => unreferenced (pi_id paymentIntent) db
  | Unhandled _ => True
  end ->
  stripeWebhook constructEvent webhookSecret now body sig db
  = (mkResponse 200 Received, db).
Proof.
  intros Hev Hno. unfold stripeWebhook. rewrite Hev.
  destruct event as [session|paymentIntent|paymentIntent|type]; cbn.
  - unfold handleCheckoutSessionCompleted. rewrite Hno. reflexivity.
  - unfold handlePaymentIntentSucceeded. rewrite (findOne_unreferenced _ _ Hno).
    reflexivity.
  - unfold handlePaymentIntentFailed. rewrite (findOne_unreferenced _ _ Hno).
    reflexivity.
  - reflexivity.
Qed.

Lemma related_refl {A} (R : A -> A -> Prop) (m : gmap string A) :
  (forall x, R x x) -> related R m m.
Proof. intros HR k. destruct (m !! k); auto. Qed.

Lemma related_trans {A} (R : A -> A -> Prop) (m1 m2 m3 : gmap string A) :
  (forall x y z, R x y -> R y z -> R x z) ->
  related R m1 m2 -> related R m2 m3 -> related R m1 m3.
Proof.
  intros HR H12 H23 k. specialize (H12 k). specialize (H23 k).
  destruct (m1 !! k), (m2 !! k), (m3 !! k); try contradiction; eauto.
Qed.

Lemma related_insert {A} (R : A -> A -> Prop) (m : gmap string A) k x x' :
  (forall y, R y y) -> m !! k = Some x -> R x x' -> related R m (<[k := x']> m).
Proof.
  intros HR Hk Hx j. destruct (decide (k = j)) as [<-|Hne].
  - rewrite lookup_insert_eq, Hk. exact Hx.
  - rewrite lookup_insert_ne by exact Hne. destruct (m !! j); auto.
Qed.

Lemma sameButStock_refl p : sameButStock p p.
Proof. repeat split. Qed.

Lemma sameButStock_trans p q r : sameButStock p q -> sameButStock q r -> sameButStock p r.
Proof. unfold sameButStock. intuition congruence. Qed.

Lemma sameButPayment_refl o : sameButPayment o o.
Proof. repeat split. Qed.

Lemma products_decrementLine_related item db :
  related sameButStock (products db) (products (decrementLine item db)).
Proof.
  unfold decrementLine, Product_findById.
  destruct (products db !! oi_product item) as [p|] eqn:Hp;
    [|apply related_refl, sameButStock_refl].
  destruct (findVariant (oi_variant item) (p_variants p)) as [[i v]|] eqn:Hv;
    [|apply related_refl, sameButStock_refl].
  destruct (decide (oi_quantity item <= v_stock v));
    [|apply related_refl, sameButStock_refl].
  cbn. eapply related_insert; [apply sameButStock_refl|exact Hp|].
  repeat split. cbn.
  rewrite list_fmap_insert. apply list_insert_id.
  rewrite list_lookup_fmap, (CatalogFacts.findVariant_elem _ _ _ _ Hv). reflexivity.
Qed.

Lemma products_updateStock_related items db :
  related sameButStock (products db) (products (updateStock items db)).
Proof.
  revert db. induction items as [|item rest IH]; intros db; cbn.
  - apply related_refl, sameButStock_refl.
  - eapply related_trans; [apply sameButStock_trans| |apply IH].
    apply products_decrementLine_related.
Qed.

(** Whatever the event, it neither adds nor removes a product or an order;
    a product changes at most in its stock counts and an order at most in
    its payment record and status. *)
Theorem events_keep_documents now event db :
  related sameButStock (products db) (products (handle now event db))
  /\ related sameButPayment (orders db) (orders (handle now event db)).
Proof.
  destruct event as [session|paymentIntent|paymentIntent|type]; cbn.
  - unfold handleCheckoutSessionCompleted, Order_findById.
    destruct (orders db !! s_metadata_orderId session) as [order|] eqn:Ho.
    + split.
      * rewrite (products_updateStock_ext _ _ db) by reflexivity.
        apply products_updateStock_related.
      * rewrite orders_updateStock. cbn.
        eapply related_insert; [apply sameButPayment_refl|exact Ho|].
        repeat split.
    + split; [apply related_refl, sameButStock_refl
             |apply related_refl, sameButPayment_refl].
  - unfold handlePaymentIntentSucceeded.
    destruct (Order_findOneByPaymentIntent (pi_id paymentIntent) db) as [[id order]|] eqn:Hf.
    + apply findOneByPaymentIntent_Some in Hf as [Ho _]. cbn.
      split; [apply related_refl, sameButStock_refl|].
      eapply related_insert; [apply sameButPayment_refl|exact Ho|].
      case_decide; repeat split.
    + split; [apply related_refl, sameButStock_refl
             |apply related_refl, sameButPayment_refl].
  - unfold handlePaymentIntentFailed.
    destruct (Order_findOneByPaymentIntent (pi_id paymentIntent) db) as [[id order]|] eqn:Hf.
    + apply findOneByPaymentIntent_Some in Hf as [Ho _]. cbn.
      split; [apply related_refl, sameButStock_refl|].
      eapply related_insert; [apply sameButPayment_refl|exact Ho|].
      repeat split.
    + split; [apply related_refl, sameButStock_refl
             |apply related_refl, sameButPayment_refl].
  - split; [apply related_refl, sameButStock_refl
           |apply related_refl, sameButPayment_refl].
Qed.

Lemma demand_cons_ge pid r item rest :
  0 <= oi_quantity item -> demand pid r rest <= demand pid r (item :: rest).
Proof. intros H. cbn. case_decide; lia. Qed.

(** One pass of the stock loop, with quantities that are not negative,
    never adds stock and never takes more than the list asks of a variant. *)
Lemma updateStock_bounded items : forall db pid r,
  Forall (fun it => 0 <= oi_quantity it) items ->
  match stockOf (products db) pid r with
  | Some s =>
      exists s', stockOf (products (updateStock items db)) pid r = Some s'
                 /\ s - demand pid r items <= s' <= s
  | None => stockOf (products (updateStock items db)) pid r = None
  end.
Proof.
  induction items as [|item rest IH]; intros db pid r Hq.
  - cbn. destruct (stockOf (products db) pid r) as [s|]; [|reflexivity].
    exists s. split; [reflexivity|lia].
  - inversion Hq as [|? ? Hq0 Hqr]; subst. cbn [updateStock].
    specialize (IH (decrementLine item db) pid r Hqr).
    rewrite stockOf_decrementLine in IH.
    destruct (stockOf (products db) (oi_product item) (oi_variant item)) as [s0|] eqn:Hs0.
    + destruct (decide (oi_quantity item <= s0 /\ targets pid r item)) as [[Hle Ht]|Hn].
      * destruct Ht as [<- <-]. rewrite Hs0.
        destruct IH as (s' & Hs' & Hb). exists s'. split; [exact Hs'|].
        cbn. rewrite decide_True by (split; reflexivity). lia.
      * destruct (stockOf (products db) pid r) as [s|]; [|exact IH].
        destruct IH as (s' & Hs' & Hb). exists s'. split; [exact Hs'|].
        pose proof (demand_cons_ge pid r item rest Hq0). lia.
    + destruct (stockOf (products db) pid r) as [s|]; [|exact IH].
      destruct IH as (s' & Hs' & Hb). exists s'. split; [exact Hs'|].
      pose proof (demand_cons_ge pid r item rest Hq0). lia.
Qed.

(** A "checkout session completed" event for an order whose quantities are
    not negative never adds stock, and takes off a variant at most what the
    order's lines ask of it. *)
Theorem completed_decrement_bounded now session db order pid r s :
  Order_findById (s_metadata_orderId session) db = Some order ->
  Forall (fun it => 0 <= oi_quantity it) (o_items order) ->
  stockOf (products db) pid r = Some s ->
  exists s',
    stockOf (products (handleCheckoutSessionCompleted now session db)) pid r = Some s'
    /\ s - demand pid r (o_items order) <= s' <= s.
Proof.
  intros Hfind Hq Hs.
  rewrite (CheckoutCompleted.handler_products _ _ _ _ Hfind).
  pose proof (updateStock_bounded (o_items order) db pid r Hq) as H.
  rewrite Hs in H. exact H.
Qed.

(** A failed payment after a completed checkout: the order ends cancelled
    with payment status failed, and the stock the completed checkout took
    is not put back. *)
Theorem failed_after_completed_keeps_stock now session db order pid :
  Order_findById (s_metadata_orderId session) db = Some order ->
  s_payment_intent session = Some pid ->
  referencedOnlyBy pid (s_metadata_orderId session) db ->
  let db1 := handleCheckoutSessionCompleted now session db in
  let db2 := handlePaymentIntentFailed (mkPaymentIntent pid) db1 in
  (exists order2,
      Order_findById (s_metadata_orderId session) db2 = Some order2
      /\ o_status order2 = cancelled
      /\ pay_status (o_paymentInfo order2) = pay_failed
      /\ o_items order2 = o_items order)
  /\ products db2 = products db1
  /\ forall p r, stockOf (products db2) p r = stockOf (products db1) p r.
Proof.
  intros Hfind Hpi Hothers db1 db2.
  assert (Ho1 : orders db1 = <[s_metadata_orderId session := paidOrder now session order]>
                               (orders db)).
  { unfold db1. rewrite (CheckoutCompleted.handler_found _ _ _ _ Hfind).
    rewrite orders_updateStock. reflexivity. }
  assert (Hf : Order_findOneByPaymentIntent pid db1
               = Some (s_metadata_orderId session, paidOrder now session order)).
  { apply findOne_unique.
    - rewrite Ho1. apply lookup_insert_eq.
    - cbn. exact Hpi.
    - apply map_Forall_lookup. intros id' other Hl Hp.
      destruct (decide (id' = s_metadata_orderId session)) as [E|E]; [exact E|].
      rewrite Ho1, lookup_insert_ne in Hl by congruence.
      exact (proj1 (map_Forall_lookup _ _) Hothers _ _ Hl Hp). }
  assert (E2 : db2 = Order_save (s_metadata_orderId session)
                       (setStatus
                          (setPaymentInfo (paidOrder now session order)
                             (setPayStatus (o_paymentInfo (paidOrder now session order))
                                pay_failed))
                          cancelled)
                       db1).
  { unfold db2, handlePaymentIntentFailed. cbn [pi_id]. rewrite Hf. reflexivity. }
  rewrite E2. split; [|split; [reflexivity|reflexivity]].
  eexists. unfold Order_findById, Order_save. cbn [orders].
  rewrite lookup_insert_eq. repeat split.
Qed.

(** A success event that arrives after the failure event for the same
    payment intent marks the payment paid but leaves the order cancelled. *)
Theorem succeeded_after_failed_stays_cancelled now pid db id order :
  Order_findById id db = Some order ->
  stripePaymentIntentId (o_paymentInfo order) = Some pid ->
  referencedOnlyBy pid id db ->
  let db1 := handlePaymentIntentFailed (mkPaymentIntent pid) db in
  let db2 := handlePaymentIntentSucceeded now (mkPaymentIntent pid) db1 in
  exists order2,
    Order_findById id db2 = Some order2
    /\ pay_status (o_paymentInfo order2) = pay_paid
    /\ paidAt (o_paymentInfo order2) = Some now
    /\ o_status order2 = cancelled.
Proof.
  intros Hfind Hp Huniq db1 db2.
  set (failed := setStatus
                   (setPaymentInfo order (setPayStatus (o_paymentInfo order) pay_failed))
                   cancelled).
  assert (E1 : db1 = Order_save id failed db).
  { unfold db1, handlePaymentIntentFailed. cbn [pi_id].
    rewrite (findOne_unique _ _ _ _ Hfind Hp Huniq). reflexivity. }
  assert (Hf : Order_findOneByPaymentIntent pid db1 = Some (id, failed)).
  { rewrite E1. apply findOne_unique.
    - cbn. apply lookup_insert_eq.
    - cbn. exact Hp.
    - apply map_Forall_lookup. intros id' other Hl Hpo. cbn in Hl.
      destruct (decide (id' = id)) as [E|E]; [exact E|].
      rewrite lookup_insert_ne in Hl by congruence.
      exact (proj1 (map_Forall_lookup _ _) Huniq _ _ Hl Hpo). }
  unfold db2, handlePaymentIntentSucceeded. cbn [pi_id]. rewrite Hf.
  eexists. unfold Order_findById, Order_save. cbn [orders].
  rewrite lookup_insert_eq. split; [reflexivity|].
  repeat split.
Qed.

(** Redelivery of a payment-intent event: a second "failed" changes nothing
    any more, and a second "succeeded" leaves the statuses as they were,
    only re-stamping the paid time. *)
Theorem payment_intent_redelivery now now' pid db id order :
  Order_findById id db = Some order ->
  stripePaymentIntentId (o_paymentInfo order) = Some pid ->
  referencedOnlyBy pid id db ->
  handlePaymentIntentFailed (mkPaymentIntent pid)
    (handlePaymentIntentFailed (mkPaymentIntent pid) db)
  = handlePaymentIntentFailed (mkPaymentIntent pid) db
  /\ exists o1 o2,
       Order_findById id (handlePaymentIntentSucceeded now (mkPaymentIntent pid) db)
       = Some o1
       /\ Order_findById id
            (handlePaymentIntentSucceeded now' (mkPaymentIntent pid)
               (handlePaymentIntentSucceeded now (mkPaymentIntent pid) db))
          = Some o2
       /\ o_status o2 = o_status o1
       /\ pay_status (o_paymentInfo o2) = pay_status (o_paymentInfo o1)
       /\ paidAt (o_paymentInfo o2) = Some now'
       /\ o2 = setPaymentInfo o1 (setPaidAt (o_paymentInfo o1) (Some now')).
Proof.
  intros Hfind Hp Huniq.
  assert (Hstep : forall o', stripePaymentIntentId (o_paymentInfo o') = Some pid ->
            Order_findOneByPaymentIntent pid (Order_save id o' db) = Some (id, o')).
  { intros o' Hp'. apply findOne_unique.
    - cbn. apply lookup_insert_eq.
    - exact Hp'.
    - apply map_Forall_lookup. intros id' other Hl Hpo. cbn in Hl.
      destruct (decide (id' = id)) as [E|E]; [exact E|].
      rewrite lookup_insert_ne in Hl by congruence.
      exact (proj1 (map_Forall_lookup _ _) Huniq _ _ Hl Hpo). }
  pose proof (findOne_unique _ _ _ _ Hfind Hp Huniq) as Hf0.
  split.
  - unfold handlePaymentIntentFailed at 2 3. cbn [pi_id]. rewrite Hf0.
    unfold handlePaymentIntentFailed. cbn [pi_id]. rewrite Hstep by exact Hp.
    unfold Order_save. cbn. rewrite insert_insert_eq. reflexivity.
  - unfold handlePaymentIntentSucceeded at 1 3. cbn [pi_id]. rewrite Hf0.
    set (o1 := if decide (o_status _ = pending) then _ else _).
    assert (Hp1 : stripePaymentIntentId (o_paymentInfo o1) = Some pid).
    { unfold o1. case_decide; exact Hp. }
    unfold handlePaymentIntentSucceeded. cbn [pi_id]. rewrite (Hstep _ Hp1).
    exists o1. eexists. unfold Order_findById, Order_save. cbn [orders].
    rewrite insert_insert_eq, !lookup_insert_eq.
    split; [reflexivity|]. split; [reflexivity|].
    unfold o1. cbn [setPaymentInfo o_status].
    destruct (decide (o_status order = pending)) as [E|E]; cbn.
    + repeat split.
    + rewrite decide_False by exact E. repeat split.
Qed.

End EventFacts.

(** ** Order routes, beyond cancellation *)

Module OrderAccessFacts.
Import Catalog Orders Store OrderRoutes OrderRoutesFacts StatusNames.

(** [parseStatus] and [statusName] are inverse to each other: the six
    names are accepted, each as its own status, and nothing else is. *)
Theorem parseStatus_statusName (s : string) (status : OrderStatus) :
  parseStatus s = Some status <-> s = statusName status.
Proof.
  split.
  - unfold parseStatus.
    destruct (String.eqb_spec s "pending") as [->|_];
      [intros H; injection H as <-; reflexivity|].
    destruct (String.eqb_spec s "confirmed") as [->|_];
      [intros H; injection H as <-; reflexivity|].
    destruct (String.eqb_spec s "processing") as [->|_];
      [intros H; injection H as <-; reflexivity|].
    destruct (String.eqb_spec s "shipped") as [->|_];
      [intros H; injection H as <-; reflexivity|].
    destruct (String.eqb_spec s "delivered") as [->|_];
      [intros H; injection H as <-; reflexivity|].
    destruct (String.eqb_spec s "cancelled") as [->|_];
      [intros H; injection H as <-; reflexivity|].
    discriminate.
  - intros ->. destruct status; reflexivity.
Qed.

(** Cancelling twice: the second request is refused with 400 and leaves
    the database as the first one left it. *)
Theorem cancel_twice uid id db order :
  Order_findById id db = Some order ->
  o_user order = uid ->
  o_status order = pending \/ o_status order = confirmed ->
  let first := cancelOrder uid id db in
  let second := cancelOrder uid id (snd first) in
  res_status (fst first) = 200
  /\ second = (mkResponse 400 (Message "Order cannot be cancelled at this stage"),
               snd first).
Proof.
  intros Hfind Huser Hst first second.
  assert (E1 : first = (mkResponse 200 (OrderCancelled id (o_orderNumber order) cancelled),
                        Order_save id (setStatus order cancelled) db)).
  { unfold first, cancelOrder.
    rewrite (findOneByIdAndUser_owned _ _ _ _ Hfind Huser).
    destruct Hst as [E|E]; rewrite E; reflexivity. }
  subst second. rewrite E1. cbn [fst snd res_status]. split; [reflexivity|].
  unfold cancelOrder.
  rewrite (findOneByIdAndUser_owned uid id _ (setStatus order cancelled));
    [reflexivity| |exact Huser].
  unfold Order_findById, Order_save. cbn. apply lookup_insert_eq.
Qed.

(** A user who does not own the order gets the same 404 as for an order
    that does not exist, and nothing is written. *)
Theorem cancel_foreign_order uid id db :
  (Order_findById id db = None
   \/ exists order, Order_findById id db = Some order /\ o_user order <> uid) ->
  cancelOrder uid id db = (mkResponse 404 (Message "Order not found"), db).
Proof.
  unfold cancelOrder, Order_findOneByIdAndUser, Order_findById.
  intros [->|(order & -> & Hne)]; [reflexivity|].
  rewrite decide_False by exact Hne. reflexivity.
Qed.

(** The admin route accepts each of the six statuses whatever the current
    one is (there is no transition table): the stored status becomes the
    requested one, tracking number and notes are replaced only when given
    non-empty, and payment record, items, amounts, stock and the other
    orders stay as they were. *)
Theorem admin_sets_any_status charCount id db order status trackingNumber notes :
  Order_findById id db = Some order ->
  withinLength charCount 100 trackingNumber = true ->
  withinLength charCount 1000 notes = true ->
  let result :=
    adminUpdateStatus charCount id
      (mkStatusUpdate (statusName status) trackingNumber notes) db in
  res_status (fst result) = 200
  /\ (exists order',
        Order_findById id (snd result) = Some order'
        /\ o_status order' = status
        /\ o_trackingNumber order'
           = match given trackingNumber with
             | Some t => Some t
             | None => o_trackingNumber order
             end
        /\ o_notes order'
           = match given notes with Some n => Some n | None => o_notes order end
        /\ o_paymentInfo order' = o_paymentInfo order
        /\ o_items order' = o_items order
        /\ o_total order' = o_total order)
  /\ products (snd result) = products db
  /\ forall id', id' <> id ->
       Order_findById id' (snd result) = Order_findById id' db.
Proof.
  intros Hfind Ht Hn result. subst result. unfold adminUpdateStatus.
  cbn [su_status su_trackingNumber su_notes].
  rewrite (proj2 (parseStatus_statusName _ status) eq_refl).
  rewrite Ht, Hn, Hfind. cbn [negb andb fst snd].
  unfold Order_findById, Order_save, applyStatusUpdate. cbn [orders products res_status].
  split; [reflexivity|]. split; [|split; [reflexivity|]].
  - eexists. rewrite lookup_insert_eq. split; [reflexivity|].
    cbn [su_trackingNumber su_notes].
    destruct (given trackingNumber), (given notes); repeat split; reflexivity.
  - intros id' Hne. apply lookup_insert_ne. congruence.
Qed.


End OrderAccessFacts.

Module OrderViewsFacts.
Import Catalog Orders Store OrderViews.

(** Tracking information is shown exactly to the order's owner and to
    admins: without a user the answer is 401, for a user who is neither it
    is the 404 of a missing order, and the route never writes. *)
Theorem tracking_access user id db :
  snd (tracking user id db) = db
  /\ (user = None -> res_status (fst (tracking user id db)) = 401)
  /\ (forall info,
        res_body (fst (tracking user id db)) = Tracking info ->
        exists u order,
          user = Some u /\ Order_findById id db = Some order
          /\ (isAdmin u = true \/ o_user order = u_id u)
          /\ info = trackingOf order)
  /\ (forall u order,
        user = Some u -> Order_findById id db = Some order ->
        (if isAdmin u then True else o_user order = u_id u) ->
        fst (tracking user id db) = mkResponse 200 (Tracking (trackingOf order)))
  /\ (forall u order,
        user = Some u -> Order_findById id db = Some order ->
        isAdmin u = false -> o_user order <> u_id u ->
        fst (tracking user id db) = mkResponse 404 (Message "Order not found")).
Proof.
  unfold tracking, Order_findOneByIdAndUser, Order_findById.
  destruct user as [u|]; cbn.
  2:{ repeat split; try discriminate. }
  destruct (isAdmin u) eqn:Hadm.
  - destruct (orders db !! id) as [order|] eqn:Ho; cbn.
    + split; [reflexivity|]. split; [discriminate|]. split.
      * intros info H. injection H as <-. exists u, order. rewrite Hadm. auto.
      * split.
        -- intros u' order' E1 E2 _. injection E1 as <-. injection E2 as <-. reflexivity.
        -- intros u' order' E1 _ Hf. injection E1 as <-. congruence.
    + split; [reflexivity|]. split; [discriminate|]. split; [discriminate|].
      split; intros u' order' _ E2; discriminate.
  - destruct (orders db !! id) as [order|] eqn:Ho; cbn.
    + destruct (decide (o_user order = u_id u)) as [E|E]; cbn.
      * split; [reflexivity|]. split; [discriminate|]. split.
        -- intros info H. injection H as <-. exists u, order. auto.
        -- split.
           ++ intros u' order' E1 E2 _. injection E1 as <-. injection E2 as <-. reflexivity.
           ++ intros u' order' E1 E2 _ Hne. injection E1 as <-. injection E2 as <-.
              contradiction.
      * split; [reflexivity|]. split; [discriminate|]. split; [discriminate|].
        split.
        -- intros u' order' E1 E2 Hown. injection E1 as <-. injection E2 as <-.
           rewrite Hadm in Hown. contradiction.
        -- reflexivity.
    + split; [reflexivity|]. split; [discriminate|]. split; [discriminate|].
      split; intros u' order' _ E2; discriminate.
Qed.

End OrderViewsFacts.

(** ** The route table *)

Module OrdersRouterFacts.
Import OrdersRouter.
Local Open Scope string_scope.

#[local] Arguments segmentMatches : simpl never.

Lemma param_refuses_empty name s : segmentMatches (Param name) s = false -> s = "".
Proof.
  unfold segmentMatches. destruct (String.eqb_spec s ""); [auto|discriminate].
Qed.

(** [GET /orders/success] never reaches its own handler: the path has one
    segment and [/:id], registered before it, takes every such request. *)
Theorem success_route_shadowed :
  (forall method path, dispatch method path <> Some OrderSuccess)
  /\ dispatch GET ["success"] = Some OrderDetail
  /\ forall handler, handler <> OrderSuccess ->
       exists method path, wellFormedPath path /\ dispatch method path = Some handler.
Proof.
  split; [|split].
  - intros method path. unfold dispatch, routes.
    destruct method; destruct path as [|s [|s2 [|s3 [|s4 rest]]]]; cbn;
      try discriminate.
    { destruct (segmentMatches (Param "id") s) eqn:Hp; cbn; [discriminate|].
      apply param_refuses_empty in Hp. subst s. vm_compute. discriminate. }
    all: repeat (rewrite ?andb_false_r, ?andb_true_r; cbn; try discriminate;
                 match goal with
                 | |- context [segmentMatches ?a ?b] => destruct (segmentMatches a b)
                 end).
  - vm_compute. reflexivity.
  - intros handler Hne. destruct handler; try contradiction.
    + exists GET, []. split; [constructor|reflexivity].
    + exists GET, ["64b7f0c2a1d3e4f5a6b7c8e0"]. split; [repeat constructor; discriminate|vm_compute; reflexivity].
    + exists GET, ["admin"; "all"]. split; [repeat constructor; discriminate|vm_compute; reflexivity].
    + exists GET, ["admin"; "64b7f0c2a1d3e4f5a6b7c8e0"].
      split; [repeat constructor; discriminate|vm_compute; reflexivity].
    + exists PUT, ["admin"; "64b7f0c2a1d3e4f5a6b7c8e0"; "status"].
      split; [repeat constructor; discriminate|vm_compute; reflexivity].
    + exists POST, ["admin"; "64b7f0c2a1d3e4f5a6b7c8e0"; "notes"].
      split; [repeat constructor; discriminate|vm_compute; reflexivity].
    + exists PUT, ["64b7f0c2a1d3e4f5a6b7c8e0"; "cancel"].
      split; [repeat constructor; discriminate|vm_compute; reflexivity].
    + exists GET, ["64b7f0c2a1d3e4f5a6b7c8e0"; "tracking"].
      split; [repeat constructor; discriminate|vm_compute; reflexivity].
Qed.

End OrdersRouterFacts.

(** ** Paging *)

Module PaginationFacts.
Import Pagination.

(** [Math.ceil(total / limit)] for a positive limit, in integer terms. *)
Lemma totalPages_div total limit :
  1 <= limit -> totalPages total limit = - ((- total) / limit).
Proof.
  intros Hl. unfold totalPages, Math_ceil, Qceiling, Qfloor.
  destruct limit as [|p|p]; try lia.
  unfold Qdiv, Qmult, Qinv, Qopp, inject_Z. cbn [Qnum Qden].
  rewrite Z.mul_1_r, Pos.mul_1_l. reflexivity.
Qed.

(** The number of pages is the least [n] with [n * limit >= total]. *)
Lemma totalPages_spec total limit :
  1 <= limit ->
  (totalPages total limit - 1) * limit < total <= totalPages total limit * limit.
Proof.
  intros Hl. rewrite (totalPages_div _ _ Hl).
  pose proof (Z.div_mod (- total) limit ltac:(lia)) as Hdm.
  pose proof (Z.mod_pos_bound (- total) limit ltac:(lia)) as Hb.
  nia.
Qed.

Lemma length_pageOf {A} page limit (docs : list A) :
  1 <= page -> 1 <= limit ->
  Z.of_nat (length (pageOf page limit docs))
  = Z.max 0 (Z.min limit (Z.of_nat (length docs) - skipOf page limit)).
Proof.
  intros Hp Hl. unfold pageOf, skipOf. rewrite length_take, length_drop. nia.
Qed.

(** The pager offers a next page exactly when documents remain after the
    current one, and a previous page exactly when the current page is not
    the first; the page count is the least number of pages of that size
    that hold all the documents. *)
Theorem pagination_next_prev {A} page limit (docs : list A) :
  1 <= page -> 1 <= limit ->
  let total := Z.of_nat (length docs) in
  let pager := pagination page limit total in
  (pg_hasNext pager = true <-> drop (Z.to_nat (page * limit)) docs <> [])
  /\ (pg_hasNext pager = true <-> page * limit < total)
  /\ (pg_hasPrev pager = true <-> 1 < page)
  /\ (pg_total pager - 1) * limit < total <= pg_total pager * limit
  /\ pg_next pager = page + 1 /\ pg_prev pager = page - 1.
Proof.
  intros Hp Hl total pager. subst pager. cbn.
  pose proof (totalPages_spec total limit Hl) as Hspec.
  assert (Hnext : (page <? totalPages total limit) = true <-> page * limit < total).
  { rewrite Z.ltb_lt. split; intros H; nia. }
  split; [|split; [exact Hnext|split; [apply Z.ltb_lt|split; [exact Hspec|split; reflexivity]]]].
  rewrite Hnext. subst total. split.
  - intros H Hnil. apply (f_equal length) in Hnil. rewrite length_drop in Hnil.
    cbn in Hnil. lia.
  - intros H. destruct (Z_lt_ge_dec (page * limit) (Z.of_nat (length docs))) as [Hlt|Hge];
      [exact Hlt|].
    exfalso. apply H. apply drop_ge. lia.
Qed.

Lemma pagesUpTo_take {A} n limit (docs : list A) :
  1 <= limit -> pagesUpTo n limit docs = take (n * Z.to_nat limit) docs.
Proof.
  intros Hl. induction n as [|k IH]; cbn [pagesUpTo]; [reflexivity|].
  rewrite IH. unfold pageOf, skipOf.
  replace (Z.to_nat ((Z.of_nat (S k) - 1) * limit)) with (k * Z.to_nat limit)%nat by nia.
  rewrite take_take_drop. f_equal. lia.
Qed.

(** The pages of a listing, read one after the other up to the last one
    the pager announces, give back every document once and in order; each
    page holds at most [limit] documents and every page before the last is
    full. *)
Theorem pages_cover {A} limit (docs : list A) :
  1 <= limit ->
  let total := Z.of_nat (length docs) in
  pagesUpTo (Z.to_nat (totalPages total limit)) limit docs = docs
  /\ forall page, 1 <= page ->
       Z.of_nat (length (pageOf page limit docs)) <= limit
       /\ (page < totalPages total limit ->
           Z.of_nat (length (pageOf page limit docs)) = limit)
       /\ (totalPages total limit < page -> pageOf page limit docs = []).
Proof.
  intros Hl total.
  pose proof (totalPages_spec total limit Hl) as Hspec.
  split.
  - rewrite (pagesUpTo_take _ _ _ Hl). apply take_ge. subst total. nia.
  - intros page Hp. rewrite (length_pageOf _ _ _ Hp Hl). fold total. unfold skipOf.
    split; [lia|]. split.
    + intros Hlt. nia.
    + intros Hgt. unfold pageOf, skipOf. rewrite drop_ge; [apply take_nil|].
      subst total. nia.
Qed.

End PaginationFacts.

Module RequestExamples.
Import Money Catalog Orders Store Cart Webhook.
Import Fixture CartFixture LedgerFixture RequestFixture.
Local Open Scope string_scope.

(** Two lines of 2 against a stock of 3: each line passes, so the cart
    passes. *)
Lemma validate_linewise_witness :
  exists vis sub tax ship tot,
    validate hex24 cartTwice catalog
    = (Cart.mkResponse 200 (Validated vis sub tax ship tot), catalog).
Proof.
  refine (proj2 (CartLineFacts.validate_linewise hex24 cartTwice catalog _) _).
  - discriminate.
  - repeat constructor; do 5 eexists; vm_compute; reflexivity.
Defined.

Lemma validated_lines_witness :
  Forall2 (CartLines.lineFrom catalog) cartGlitter [glitterS].
Proof.
  refine (proj1 (CartLineFacts.validated_lines hex24 cartGlitter catalog 200 [glitterS]
                   (2000 # 100) (160 # 100) (999 # 100) (3159 # 100) catalog _)).
  vm_compute. reflexivity.
Defined.

Lemma add_within_stock_witness :
  exists item,
    CartAdd.add hex24 addGlitter catalog
    = (CartAdd.mkResponse 200 (CartAdd.ItemAdded item), catalog)
    /\ 1 <= CartAdd.ci_quantity item <= CartAdd.ci_maxQuantity item.
Proof.
  eexists. split; [vm_compute; reflexivity|].
  refine (proj1 (proj2 (proj2 (CartAddFacts.add_within_stock hex24 addGlitter catalog
                                 200 _ catalog _)))).
  vm_compute. reflexivity.
Defined.

Lemma add_iff_validate_witness :
  exists vis sub tax ship tot,
    validate hex24
      [mkCartLine glitterId (Some (mkVariantRef "S" "Gold Glitter")) 2] catalog
    = (Cart.mkResponse 200 (Validated vis sub tax ship tot), catalog).
Proof.
  refine (proj1 (CartAddFacts.add_iff_validate hex24 addGlitter catalog _ _) _).
  - reflexivity.
  - reflexivity.
  - eexists. vm_compute. reflexivity.
Defined.

Lemma checkStock_agrees_with_reconciler_witness :
  snd (ProductRoutes.checkStock glitterId checkGlitter catalog) = catalog.
Proof.
  refine (proj1 (ProductRoutesFacts.checkStock_agrees_with_reconciler
                   glitterId checkGlitter catalog glitterS _ _ _));
    reflexivity.
Defined.

Example checkStock_glitter :
  fst (ProductRoutes.checkStock glitterId checkGlitter catalog)
  = ProductRoutes.mkResponse 200 (ProductRoutes.StockReport true 3 "In stock")
  /\ fst (ProductRoutes.checkStock glitterId
            (ProductRoutes.mkStockRequest "S" "Gold Glitter" 4) catalog)
     = ProductRoutes.mkResponse 200
         (ProductRoutes.StockReport false 3 "Insufficient stock").
Proof. split; vm_compute; reflexivity. Qed.

Lemma checkout_rejects_invalid_cart_witness :
  Checkout.createCheckoutSession hex24 stripeUp pending "http://localhost:3000"
    alice newOrderId "NS-0009" cartTooMany home catalog
  = (Checkout.mkResponse 400
       (Checkout.CartRejected
          (Cart.res_body (fst (validate hex24 cartTooMany catalog)))),
     catalog).
Proof.
  refine (CheckoutFacts.checkout_rejects_invalid_cart hex24 stripeUp pending
            "http://localhost:3000" alice newOrderId "NS-0009" cartTooMany home catalog
            _ _ _).
  - discriminate.
  - reflexivity.
  - intros vis sub tax ship tot. vm_compute. discriminate.
Defined.

Lemma checkout_stripe_failure_leaves_order_witness :
  fst (Checkout.createCheckoutSession hex24 stripeDown pending "http://localhost:3000"
         alice newOrderId "NS-0009" cartGlitter home catalog)
  = Checkout.mkResponse 500 Checkout.ServerError.
Proof.
  refine (proj1 (CheckoutFacts.checkout_stripe_failure_leaves_order hex24 stripeDown
                   pending "http://localhost:3000" alice newOrderId "NS-0009"
                   cartGlitter home catalog [glitterS]
                   (2000 # 100) (160 # 100) (999 # 100) (3159 # 100) _ _ _ _)).
  - discriminate.
  - reflexivity.
  - vm_compute. reflexivity.
  - reflexivity.
Defined.

Lemma checkout_success_order_witness :
  exists order,
    Order_findById newOrderId
      (snd (Checkout.createCheckoutSession hex24 stripeUp pending
              "http://localhost:3000" alice newOrderId "NS-0009"
              cartGlitter home catalog)) = Some order
    /\ stripeSessionId (o_paymentInfo order) = "cs_test_9"
    /\ pay_status (o_paymentInfo order) = pay_pending.
Proof.
  destruct (CheckoutFacts.checkout_success_order hex24 stripeUp pending
              "http://localhost:3000" alice newOrderId "NS-0009" cartGlitter home
              catalog 200 "cs_test_9" newOrderId
              (snd (Checkout.createCheckoutSession hex24 stripeUp pending
                      "http://localhost:3000" alice newOrderId "NS-0009"
                      cartGlitter home catalog)))
    as (_ & _ & (order & params & Hfind & _ & _ & _ & Hsid & Hpay & _) & _).
  - vm_compute. reflexivity.
  - exists order. split; [exact Hfind|]. split; [exact Hsid|exact Hpay].
Defined.


(** 2 x 24.99 and 2 x 10.00: Stripe is asked for 4998 + 2000 + 560 cents
    of tax and no shipping, 7558 cents, the total of 75.58. *)
Example checkout_mixed_billed :
  Checkout.billed
    (Checkout.lineItems "http://localhost:3000"
       [frenchM; glitterS] (560 # 100) (0 # 100)) = 7558.
Proof. vm_compute. reflexivity. Qed.

(** With the price of 10.0047 Stripe is asked for 1000 + 80 + 999 = 2079
    cents while the total is 20.80. *)
Example checkout_odd_billed :
  exists vis sub tax ship tot,
    fst (validate hex24 cartOdd catalog)
    = Cart.mkResponse 200 (Validated vis sub tax ship tot)
    /\ Checkout.billed (Checkout.lineItems "http://localhost:3000" vis tax ship) = 2079
    /\ (tot == 2080 # 100)%Q.
Proof.
  do 5 eexists. split; [vm_compute; reflexivity|]. split; vm_compute; reflexivity.
Qed.

Lemma checkout_then_completed_witness :
  Forall (fun line =>
            exists r s,
              variant line = Some r
              /\ stockOf (products catalog) (productId line) r = Some s
              /\ quantity line <= s
              /\ stockOf
                   (products
                      (handleCheckoutSessionCompleted 5000 completedNine
                         (snd (Checkout.createCheckoutSession hex24 stripeUp pending
                                 "http://localhost:3000" alice newOrderId "NS-0009"
                                 cartMixed home catalog))))
                   (productId line) r
                 = Some (s - quantity line))
         cartMixed.
Proof.
  refine (proj2 (CheckoutFacts.checkout_then_completed hex24 stripeUp pending
                   "http://localhost:3000" alice newOrderId "NS-0009" cartMixed home
                   catalog 200 "cs_test_9" newOrderId _ 5000 completedNine _ _ _)).
  - vm_compute. reflexivity.
  - apply (bool_decide_unpack _). vm_compute. exact I.
  - reflexivity.
Defined.

Lemma unknown_reference_acknowledged_witness :
  stripeWebhook toyConstructEvent "whsec_test" 1000 "{}" (Some "whsec_test{}") emptyLedger
  = (Webhook.mkResponse 200 Received, emptyLedger).
Proof.
  refine (EventFacts.unknown_reference_acknowledged toyConstructEvent "whsec_test" 1000
            "{}" (Some "whsec_test{}") emptyLedger (CheckoutSessionCompleted session1)
            _ _).
  - vm_compute. reflexivity.
  - vm_compute. reflexivity.
Defined.

Lemma completed_decrement_bounded_witness :
  exists s',
    stockOf (products (handleCheckoutSessionCompleted 1000 session2 db2))
      frenchId (mkVariantRef "L" "Classic French") = Some s'
    /\ 1 - demand frenchId (mkVariantRef "L" "Classic French") (o_items mixedOrder)
       <= s' <= 1.
Proof.
  refine (EventFacts.completed_decrement_bounded 1000 session2 db2 mixedOrder
            frenchId (mkVariantRef "L" "Classic French") 1 _ _ _).
  - vm_compute. reflexivity.
  - apply (bool_decide_unpack _). vm_compute. exact I.
  - vm_compute. reflexivity.
Defined.

Lemma failed_after_completed_keeps_stock_witness :
  stockOf
    (products
       (handlePaymentIntentFailed (mkPaymentIntent "pi_1")
          (handleCheckoutSessionCompleted 1000 session1 db1)))
    frenchId (mkVariantRef "M" "Classic French")
  = stockOf (products (handleCheckoutSessionCompleted 1000 session1 db1))
      frenchId (mkVariantRef "M" "Classic French").
Proof.
  refine (proj2 (proj2 (EventFacts.failed_after_completed_keeps_stock 1000 session1 db1
                          order1 "pi_1" _ _ _)) _ _).
  - vm_compute. reflexivity.
  - reflexivity.
  - apply (bool_decide_unpack _). vm_compute. exact I.
Defined.

Example failed_after_completed :
  let db' := handlePaymentIntentFailed (mkPaymentIntent "pi_1")
               (handleCheckoutSessionCompleted 1000 session1 db1) in
  o_status <$> Order_findById orderId db' = Some cancelled
  /\ stockOf (products db') frenchId (mkVariantRef "M" "Classic French") = Some 3.
Proof. split; vm_compute; reflexivity. Qed.

Lemma succeeded_after_failed_stays_cancelled_witness :
  exists order2,
    Order_findById awaitingOrderId
      (handlePaymentIntentSucceeded 2000 (mkPaymentIntent "pi_4")
         (handlePaymentIntentFailed (mkPaymentIntent "pi_4") ledger)) = Some order2
    /\ pay_status (o_paymentInfo order2) = pay_paid
    /\ paidAt (o_paymentInfo order2) = Some 2000
    /\ o_status order2 = cancelled.
Proof.
  refine (EventFacts.succeeded_after_failed_stays_cancelled 2000 "pi_4" ledger
            awaitingOrderId awaitingOrder _ _ _).
  - vm_compute. reflexivity.
  - reflexivity.
  - apply (bool_decide_unpack _). vm_compute. exact I.
Defined.

Lemma payment_intent_redelivery_witness :
  handlePaymentIntentFailed (mkPaymentIntent "pi_4")
    (handlePaymentIntentFailed (mkPaymentIntent "pi_4") ledger)
  = handlePaymentIntentFailed (mkPaymentIntent "pi_4") ledger.
Proof.
  refine (proj1 (EventFacts.payment_intent_redelivery 2000 3000 "pi_4" ledger
                   awaitingOrderId awaitingOrder _ _ _)).
  - vm_compute. reflexivity.
  - reflexivity.
  - apply (bool_decide_unpack _). vm_compute. exact I.
Defined.

(** A failure event for an order that is already shipped cancels it. *)
Lemma payment_intent_failed_witness :
  exists order',
    Order_findById shippedOrderId
      (handlePaymentIntentFailed (mkPaymentIntent "pi_3") ledger) = Some order'
    /\ pay_status (o_paymentInfo order') = pay_failed
    /\ o_status order' = cancelled.
Proof.
  refine (ReconcilerFacts.payment_intent_failed (mkPaymentIntent "pi_3") ledger
            shippedOrderId shippedOrder _).
  vm_compute. reflexivity.
Defined.

Lemma cancel_twice_witness :
  OrderRoutes.cancelOrder aliceId orderId
    (snd (OrderRoutes.cancelOrder aliceId orderId ledger))
  = (OrderRoutes.mkResponse 400
       (OrderRoutes.Message "Order cannot be cancelled at this stage"),
     snd (OrderRoutes.cancelOrder aliceId orderId ledger)).
Proof.
  refine (proj2 (OrderAccessFacts.cancel_twice aliceId orderId ledger order1 _ _ _)).
  - vm_compute. reflexivity.
  - reflexivity.
  - left. reflexivity.
Defined.

Lemma cancel_foreign_order_witness :
  OrderRoutes.cancelOrder (OrderViews.u_id bob) orderId ledger
  = (OrderRoutes.mkResponse 404 (OrderRoutes.Message "Order not found"), ledger).
Proof.
  refine (OrderAccessFacts.cancel_foreign_order (OrderViews.u_id bob) orderId ledger _).
  right. exists order1. split; [vm_compute; reflexivity|discriminate].
Defined.

(** A shipped order can be put back to pending by an admin. *)
Lemma admin_sets_any_status_witness :
  exists order',
    Order_findById shippedOrderId
      (snd (OrderRoutes.adminUpdateStatus codePoints shippedOrderId
              (OrderRoutes.mkStatusUpdate (StatusNames.statusName pending) None (Some ""))
              ledger)) = Some order'
    /\ o_status order' = pending
    /\ o_paymentInfo order' = o_paymentInfo shippedOrder.
Proof.
  destruct (OrderAccessFacts.admin_sets_any_status codePoints shippedOrderId ledger
              shippedOrder pending None (Some ""))
    as (_ & (order' & Hfind & Hst & _ & _ & Hpay & _) & _).
  - vm_compute. reflexivity.
  - reflexivity.
  - reflexivity.
  - exists order'. split; [exact Hfind|]. split; [exact Hst|exact Hpay].
Defined.


Example tracking_views :
  OrderViews.res_status (fst (OrderViews.tracking None orderId ledger)) = 401
  /\ OrderViews.res_status (fst (OrderViews.tracking (Some bob) orderId ledger)) = 404
  /\ OrderViews.res_status
       (fst (OrderViews.tracking
               (Some (OrderViews.mkUser (OrderViews.u_id bob) "admin")) orderId ledger))
     = 200
  /\ OrderViews.res_status
       (fst (OrderViews.tracking (Some (OrderViews.mkUser aliceId "user")) orderId ledger))
     = 200.
Proof. repeat split; vm_compute; reflexivity. Qed.

(** 25 documents, 10 a page: page 2 has a next and a previous page, page 3
    is the last and holds 5. *)
Lemma pagination_next_prev_witness :
  Pagination.pg_hasNext (Pagination.pagination 2 10 (Z.of_nat (length numbered))) = true
  <-> drop (Z.to_nat (2 * 10)) numbered <> [].
Proof.
  refine (proj1 (PaginationFacts.pagination_next_prev 2 10 numbered _ _)); lia.
Defined.

Example pagination_25_by_10 :
  Pagination.pagination 3 10 25 = Pagination.mkPagination 3 3 false true 4 2
  /\ Pagination.pageOf 3 10 numbered = [21; 22; 23; 24; 25]
  /\ Pagination.pagination 1 10 0 = Pagination.mkPagination 1 0 false false 2 0.
Proof. repeat split; vm_compute; reflexivity. Qed.

Lemma pages_cover_witness :
  Pagination.pagesUpTo
    (Z.to_nat (Pagination.totalPages (Z.of_nat (length numbered)) 10)) 10 numbered
  = numbered.
Proof.
  refine (proj1 (PaginationFacts.pages_cover 10 numbered _)). lia.
Defined.

End RequestExamples.
